(** * Ganesa backend: categories, subcategories and customers

    A shallow embedding of the route handlers of the CRM backend
    (routes/categories.js, routes/subcategories.js and the customer routes
    written in the server file, which complete_server.js repeats) together
    with the Mongoose schemas they rely on (models/Category.js,
    models/SubCategory.js, models/Customer.js), the list of statuses
    (routes/statuses.js), the login route (routes/auth.js) and the origin
    check of the CORS policy. Routing and logging are left out.

    Conventions of the embedding.
    - A JavaScript string is a [string]; an [ascii] stands for one code unit,
      and the embedding is exact on 7-bit text.
    - An ObjectId is kept in its canonical form, 24 lower-case hexadecimal
      digits; a route parameter or a body field is the raw string and is cast
      where the code casts it.
    - A handler is a computation over the three collections which also
      records every round trip to the store, so that "before any storage
      access" is a statement about the recorded trace.
    - The clock ([new Date()]) and the identifier given to a new document
      are arguments of the handlers that use them.
    - A body is typed: a text field is [undefined], [null] or a string; a
      number and a date come with what [Number] and [Date] make of them.
    - Regular expressions built from user input are interpreted by a small
      engine for the fragment  literal . * + ? | ( ) ^ $ ; a pattern that uses
      anything else is reported as [OutsideFragment] and the handler's answer
      is then [Unmodelled]: the embedding makes no statement there.
    - The unique indexes declared by the schemas are taken to be built. *)

From Stdlib Require Import String Ascii List Bool Arith ZArith QArith Lia.
From Stdlib Require Import Permutation Sorted.
Import ListNotations.

Local Open Scope string_scope.
Local Open Scope nat_scope.

(** ** Strings as JavaScript sees them *)

Module Js.

Definition chars (s : string) : list ascii := list_ascii_of_string s.
Definition str (l : list ascii) : string := string_of_list_ascii l.

Definition code (c : ascii) : nat := nat_of_ascii c.

(** [\s]: the white space and line terminator code units below 256. *)
Definition isWhiteSpace (c : ascii) : bool :=
  let n := code c in
  ((9 <=? n) && (n <=? 13)) || (n =? 32) || (n =? 160).

Definition isDigit (c : ascii) : bool :=
  let n := code c in (48 <=? n) && (n <=? 57).

Definition isUpper (c : ascii) : bool :=
  let n := code c in (65 <=? n) && (n <=? 90).

Definition isLower (c : ascii) : bool :=
  let n := code c in (97 <=? n) && (n <=? 122).

Definition isHexDigit (c : ascii) : bool :=
  let n := code c in
  isDigit c || ((65 <=? n) && (n <=? 70)) || ((97 <=? n) && (n <=? 102)).

(** [\w] *)
Definition isWordChar (c : ascii) : bool :=
  isDigit c || isUpper c || isLower c || (code c =? 95).

Definition toLowerChar (c : ascii) : ascii :=
  if isUpper c then ascii_of_nat (code c + 32) else c.

Definition toUpperChar (c : ascii) : ascii :=
  if isLower c then ascii_of_nat (code c - 32) else c.

Definition toLowerCase (s : string) : string := str (map toLowerChar (chars s)).

Fixpoint dropWhile {A} (p : A -> bool) (l : list A) : list A :=
  match l with
  | [] => []
  | x :: l' => if p x then dropWhile p l' else l
  end.

Definition trimStart (l : list ascii) : list ascii := dropWhile isWhiteSpace l.
Definition trimEnd (l : list ascii) : list ascii := rev (dropWhile isWhiteSpace (rev l)).

(** [String.prototype.trim] *)
Definition trim (s : string) : string := str (trimEnd (trimStart (chars s))).

(** Truthiness of a string: every string but the empty one. *)
Definition truthy (s : string) : bool := negb (String.eqb s "").

End Js.

(** ** Identifiers *)

Module ObjectId.

(** The canonical form of an identifier. *)
Definition t := string.

(** [mongoose.Types.ObjectId.isValid] on a string: 24 hexadecimal digits. *)
Definition isValid (s : string) : bool :=
  (String.length s =? 24) && forallb Js.isHexDigit (Js.chars s).

(** [new mongoose.Types.ObjectId(s)] and the cast Mongoose applies to an
    identifier in a query; [None] when the constructor throws. *)
Definition cast (s : string) : option t :=
  if isValid s then Some (Js.toLowerCase s) else None.

Definition eqb (a b : t) : bool := String.eqb a b.

End ObjectId.

(** ** Regular expressions built from user input *)

Module RegExp.

Inductive regex : Type :=
| Chr (c : ascii)
| Any
| Bol
| Eol
| Eps
| Seq (r1 r2 : regex)
| Alt (r1 r2 : regex)
| Star (r : regex).

(** Where the pattern is compiled: [new RegExp] in the route (JS), or the
    store's own engine for a [$regex] given as a string (PCRE). *)
Inductive dialect := JS | PCRE.

Inductive compiled : Type :=
| Compiled (r : regex)
| SyntaxError
| OutsideFragment.

Record frame := { alts : list regex; terms : list regex }.

Definition empty_frame : frame := {| alts := []; terms := [] |}.

(** Both lists of a frame hold the latest item first. *)
Definition seq_of (ts : list regex) : regex :=
  fold_left (fun acc t => Seq t acc) ts Eps.

Definition alt_of (f : frame) : regex :=
  fold_left (fun acc a => Alt a acc) (alts f) (seq_of (terms f)).

Definition push_term (r : regex) (f : frame) : frame :=
  {| alts := alts f; terms := r :: terms f |}.

Definition next_alt (f : frame) : frame :=
  {| alts := seq_of (terms f) :: alts f; terms := [] |}.

Definition quantify (c : ascii) (r : regex) : regex :=
  if Ascii.eqb c "*" then Star r
  else if Ascii.eqb c "+" then Seq r (Star r)
  else Alt r Eps.

Definition isQuantifier (c : ascii) : bool :=
  Ascii.eqb c "*" || Ascii.eqb c "+" || Ascii.eqb c "?".

(** Characters that start syntax the fragment leaves out: escapes, classes,
    braced quantifiers; and code units above 127. A group that opens with
    a question mark is left out too and, for the store, a quantifier
    followed by [+] (possessive) and a group that opens with an asterisk (a
    verb); [new RegExp] refuses these two: nothing to repeat. *)
Definition isUnsupported (c : ascii) : bool :=
  Ascii.eqb c "\" || Ascii.eqb c "[" || Ascii.eqb c "{" || (128 <=? Js.code c).

(** One pass over the pattern with a stack of open groups. [q] tells whether
    the latest term can take a quantifier. *)
Fixpoint parse_loop (d : dialect) (cs : list ascii) (cur : frame)
    (stack : list frame) (q : bool) : compiled :=
  match cs with
  | [] => match stack with [] => Compiled (alt_of cur) | _ :: _ => SyntaxError end
  | c :: cs' =>
    if Ascii.eqb c "(" then
      match cs' with
      | "?"%char :: _ => OutsideFragment
      | "*"%char :: _ =>
        match d with JS => SyntaxError | PCRE => OutsideFragment end
      | _ => parse_loop d cs' empty_frame (cur :: stack) false
      end
    else if Ascii.eqb c ")" then
      match stack with
      | [] => SyntaxError
      | parent :: stack' => parse_loop d cs' (push_term (alt_of cur) parent) stack' true
      end
    else if Ascii.eqb c "|" then parse_loop d cs' (next_alt cur) stack false
    else if isQuantifier c then
      match q, terms cur with
      | true, t :: ts =>
        let cur' := {| alts := alts cur; terms := quantify c t :: ts |} in
        match cs' with
        | "?"%char :: cs'' => parse_loop d cs'' cur' stack false
        | "+"%char :: _ =>
          match d with JS => SyntaxError | PCRE => OutsideFragment end
        | _ => parse_loop d cs' cur' stack false
        end
      | _, _ => SyntaxError
      end
    else if Ascii.eqb c "^" then parse_loop d cs' (push_term Bol cur) stack false
    else if Ascii.eqb c "$" then parse_loop d cs' (push_term Eol cur) stack false
    else if Ascii.eqb c "." then parse_loop d cs' (push_term Any cur) stack true
    else if isUnsupported c then OutsideFragment
    else parse_loop d cs' (push_term (Chr c) cur) stack true
  end.

Definition compile (d : dialect) (pattern : string) : compiled :=
  parse_loop d (Js.chars pattern) empty_frame [] false.

(** Matching, with the flag [i]: code units are compared after case
    folding. [bol] says whether the position is the start of the subject;
    [k] is the continuation for the rest of the pattern. [.] does not match
    a line feed; [$] matches at the end of the subject and before a final
    line feed. *)
Definition canon (c : ascii) : ascii := Js.toUpperChar c.

Definition isLineFeed (c : ascii) : bool := Js.code c =? 10.

Definition atEnd (s : list ascii) : bool :=
  match s with
  | [] => true
  | [c] => isLineFeed c
  | _ => false
  end.

Fixpoint run (r : regex) (bol : bool) (s : list ascii)
    (k : bool -> list ascii -> bool) {struct r} : bool :=
  match r with
  | Chr c =>
    match s with
    | x :: s' => if Ascii.eqb (canon x) (canon c) then k false s' else false
    | [] => false
    end
  | Any =>
    match s with
    | x :: s' => if isLineFeed x then false else k false s'
    | [] => false
    end
  | Bol => if bol then k bol s else false
  | Eol => if atEnd s then k bol s else false
  | Eps => k bol s
  | Seq r1 r2 => run r1 bol s (fun b' s' => run r2 b' s' k)
  | Alt r1 r2 => run r1 bol s k || run r2 bol s k
  | Star r' =>
    (fix loop (n : nat) (b : bool) (t : list ascii) {struct n} : bool :=
       k b t ||
       match n with
       | 0 => false
       | S n' =>
         run r' b t (fun b' t' =>
           if length t' <? length t then loop n' b' t' else false)
       end) (length s) bol s
  end.

(** The pattern matches somewhere in the subject. *)
Fixpoint search_from (r : regex) (bol : bool) (s : list ascii) : bool :=
  run r bol s (fun _ _ => true) ||
  match s with
  | [] => false
  | _ :: s' => search_from r false s'
  end.

Definition test (r : regex) (subject : string) : bool :=
  search_from r true (Js.chars subject).

(** *** Patterns without syntax *)

(** A code unit that stands for itself in a pattern. *)
Definition isPlain (c : ascii) : bool :=
  negb (Ascii.eqb c "(" || Ascii.eqb c ")" || Ascii.eqb c "|" || isQuantifier c
        || Ascii.eqb c "^" || Ascii.eqb c "$" || Ascii.eqb c "." || isUnsupported c).

Definition plain (s : string) : bool := forallb isPlain (Js.chars s).

(** The pattern that spells [cs] and goes on with [tail]. *)
Definition literal (cs : list ascii) (tail : regex) : regex :=
  fold_right (fun c r => Seq (Chr c) r) tail cs.

(** What is left of [s] once [cs] is read from it, case folded. *)
Fixpoint strip (cs s : list ascii) : option (list ascii) :=
  match cs with
  | [] => Some s
  | c :: cs' =>
    match s with
    | x :: s' => if Ascii.eqb (canon x) (canon c) then strip cs' s' else None
    | [] => None
    end
  end.

(** A subject whose last code unit is a line feed. *)
Definition ends_with_line_feed (s : string) : bool :=
  match rev (Js.chars s) with
  | c :: _ => isLineFeed c
  | [] => false
  end.

(** *** Patterns of the fragment *)

(** A pattern that uses nothing the fragment leaves out: no escape, class,
    braced quantifier or code unit above 127, no opening parenthesis
    followed by a question mark and, for the store, no opening parenthesis
    followed by an asterisk and no quantifier followed by [+]. Such a pattern is well formed or not,
    and [parse_loop] says which. *)
Fixpoint followed (d : dialect) (cs : list ascii) : bool :=
  match cs with
  | [] => true
  | c :: cs' =>
    negb (isUnsupported c)
    && match cs' with
       | c' :: _ =>
         negb (Ascii.eqb c "(" && Ascii.eqb c' "?")
         && match d with
            | JS => true
            | PCRE => negb ((Ascii.eqb c "(" && Ascii.eqb c' "*")
                            || (isQuantifier c && Ascii.eqb c' "+"))
            end
       | [] => true
       end
    && followed d cs'
  end.

End RegExp.

(** ** The words of the specification *)

Module Spec.

(** Two names that differ at most in letter case. *)
Definition same_ignoring_case (a b : string) : bool :=
  String.eqb (Js.toLowerCase a) (Js.toLowerCase b).

Fixpoint starts_with (p s : list ascii) : bool :=
  match p, s with
  | [], _ => true
  | c :: p', x :: s' => Ascii.eqb c x && starts_with p' s'
  | _ :: _, [] => false
  end.

Fixpoint includes (p s : list ascii) : bool :=
  starts_with p s ||
  match s with
  | [] => false
  | _ :: s' => includes p s'
  end.

(** [hay] contains [needle], letter case apart. *)
Definition contains_ignoring_case (needle hay : string) : bool :=
  includes (map Js.toLowerChar (Js.chars needle)) (map Js.toLowerChar (Js.chars hay)).

End Spec.

(** ** Documents and collections *)

Record Category := {
  cat_id : ObjectId.t;
  cat_name : string;
  cat_url : string;
  cat_createdAt : Z
}.

Record SubCategory := {
  sub_id : ObjectId.t;
  sub_name : string;
  sub_category : ObjectId.t;
  sub_description : string;
  sub_createdAt : Z;
  sub_updatedAt : Z
}.

(** A path of the customer schema that is not required holds [None] for
    null (or missing). Amounts are rationals. *)
Record Customer := {
  cus_id : ObjectId.t;
  cus_name : string;
  cus_dateOfBirth : option Z;
  cus_email : option string;
  cus_phone : string;
  cus_address : string;
  cus_city : option string;
  cus_state : option string;
  cus_zipCode : option string;
  cus_serviceCategory : ObjectId.t;
  cus_serviceCategoryName : string;
  cus_serviceSubCategory : option ObjectId.t;
  cus_serviceSubCategoryName : option string;
  cus_serviceNumber : option string;
  cus_status : string;
  cus_fees : option Q;
  cus_gstStatus : string;
  cus_gstNumber : option string;
  cus_deliveryDate : option Z;
  cus_nextRenewalDate : option Z;
  cus_deliveryStatus : string;
  cus_notes : option string;
  cus_createdAt : Z;
  cus_updatedAt : Z
}.

(** The collections keep their documents in insertion order. *)
Record db := {
  categories : list Category;
  subcategories : list SubCategory;
  customers : list Customer
}.

Definition empty_db : db :=
  {| categories := []; subcategories := []; customers := [] |}.

(** ** Handlers as computations over the store *)

Inductive collection := Categories | SubCategories | Customers.

(** One round trip to the store. *)
Inductive access := Read (c : collection) | Write (c : collection).

Record world := { store : db; trace : list access }.

Definition fresh (d : db) : world := {| store := d; trace := [] |}.

Inductive exn : Type :=
| CastError (path : string)
| BSONTypeError
| RegExpSyntaxError
| MongoServerError (msg : string)
| DuplicateKeyError
| ValidationError (errs : list (string * string))
| NotModelled.

Inductive outcome (A : Type) : Type :=
| Return (a : A)
| Throw (e : exn).
Arguments Return {A} a.
Arguments Throw {A} e.

Definition M (A : Type) : Type := world -> outcome A * world.

Definition ret {A} (a : A) : M A := fun w => (Return a, w).

Definition bind {A B} (m : M A) (f : A -> M B) : M B :=
  fun w =>
    match m w with
    | (Return a, w') => f a w'
    | (Throw e, w') => (Throw e, w')
    end.

Definition throw {A} (e : exn) : M A := fun w => (Throw e, w).

Definition try_catch {A} (m : M A) (h : exn -> M A) : M A :=
  fun w =>
    match m w with
    | (Return a, w') => (Return a, w')
    | (Throw e, w') => h e w'
    end.

Definition get_db : M db := fun w => (Return (store w), w).

Definition stored (d : db) (w : world) : world :=
  {| store := d; trace := trace w |}.

(** The trace holds the latest access last. *)
Definition logged (a : access) (w : world) : world :=
  {| store := store w; trace := trace w ++ [a] |}.

Definition put_db (d : db) : M unit := fun w => (Return tt, stored d w).

Definition log (a : access) : M unit := fun w => (Return tt, logged a w).

Declare Scope handler_scope.
Delimit Scope handler_scope with handler.
Notation "x <- m ;; k" := (bind m (fun x => k))
  (at level 61, m at next level, right associativity) : handler_scope.
Notation "m ;; k" := (bind m (fun _ => k))
  (at level 61, right associativity) : handler_scope.
Local Open Scope handler_scope.

(** ** Responses *)

Inductive bad_request : Type :=
| ErrorMsg (msg : string)
| FieldError (msg field : string)
| MissingFields (fields : list string)
| ValidatorErrors (errs : list (string * string))
| ValidationFailed (errs : list (string * string)).

Inductive response (A : Type) : Type :=
| Ok (a : A)
| Created (a : A)
| BadRequest (e : bad_request)
| NotFound (msg : string)
| ServerError (msg : string)
| Unmodelled.
Arguments Ok {A} a.
Arguments Created {A} a.
Arguments BadRequest {A} e.
Arguments NotFound {A} msg.
Arguments ServerError {A} msg.
Arguments Unmodelled {A}.

Definition status_code {A} (r : response A) : option nat :=
  match r with
  | Ok _ => Some 200
  | Created _ => Some 201
  | BadRequest _ => Some 400
  | NotFound _ => Some 404
  | ServerError _ => Some 500
  | Unmodelled => None
  end.

(** The [catch] block of the category and subcategory routes: every
    exception becomes a 500 with the route's message. *)
Definition catch_all {A} (msg : string) (m : M (response A)) : M (response A) :=
  try_catch m (fun e =>
    match e with
    | NotModelled => ret Unmodelled
    | _ => ret (ServerError msg)
    end).

(** Running a handler on a store with an empty trace. *)
Definition handle {A} (m : M (response A)) (d : db) : response A * db * list access :=
  match m (fresh d) with
  | (Return r, w) => (r, store w, trace w)
  | (Throw _, w) => (ServerError "Internal Server Error", store w, trace w)
  end.

(** ** Mongoose queries *)

Definition cast_id (path : string) (id : string) : M ObjectId.t :=
  match ObjectId.cast id with
  | Some o => ret o
  | None => throw (CastError path)
  end.

(** [new RegExp(pattern, 'i')] in the route. *)
Definition new_RegExp (pattern : string) : M RegExp.regex :=
  match RegExp.compile RegExp.JS pattern with
  | RegExp.Compiled r => ret r
  | RegExp.SyntaxError => throw RegExpSyntaxError
  | RegExp.OutsideFragment => throw NotModelled
  end.

Module CategoryModel.

Definition by_id (o : ObjectId.t) (c : Category) : bool := ObjectId.eqb (cat_id c) o.

(** [Category.find()] *)
Definition find_all : M (list Category) :=
  log (Read Categories) ;;
  d <- get_db ;;
  ret (categories d).

(** [Category.findById(id)]: the cast fails before the query is sent. *)
Definition findById (id : string) : M (option Category) :=
  o <- cast_id "_id" id ;;
  log (Read Categories) ;;
  d <- get_db ;;
  ret (find (by_id o) (categories d)).

(** [Category.findOne(filter)] *)
Definition findOne (p : Category -> bool) : M (option Category) :=
  log (Read Categories) ;;
  d <- get_db ;;
  ret (find p (categories d)).

Definition set_categories (l : list Category) (d : db) : db :=
  {| categories := l; subcategories := subcategories d; customers := customers d |}.

(** The unique index on [name]. *)
Definition name_taken (c : Category) (l : list Category) : bool :=
  existsb (fun c' => negb (ObjectId.eqb (cat_id c') (cat_id c))
                     && String.eqb (cat_name c') (cat_name c)) l.

(** Schema setters and validators run by [save]. *)
Definition validate (c : Category) : Category + list (string * string) :=
  let name := Js.trim (cat_name c) in
  if String.eqb name "" then inr [("name", "Path `name` is required.")]
  else inl {| cat_id := cat_id c; cat_name := name;
              cat_url := Js.trim (cat_url c); cat_createdAt := cat_createdAt c |}.

(** [category.save()] of a new document. *)
Definition insert (c : Category) : M Category :=
  match validate c with
  | inr errs => throw (ValidationError errs)
  | inl c' =>
    log (Write Categories) ;;
    d <- get_db ;;
    if name_taken c' (categories d) then throw DuplicateKeyError
    else put_db (set_categories (categories d ++ [c']) d) ;; ret c'
  end.

Definition replace (c : Category) (l : list Category) : list Category :=
  map (fun c' => if by_id (cat_id c) c' then c else c') l.

Definition same (a b : Category) : bool :=
  String.eqb (cat_name a) (cat_name b) && String.eqb (cat_url a) (cat_url b).

(** [category.save()] of a loaded document [old] changed into [c]: nothing
    is sent when no path was modified. *)
Definition update (old c : Category) : M Category :=
  match validate c with
  | inr errs => throw (ValidationError errs)
  | inl c' =>
    if same old c' then ret c'
    else
      log (Write Categories) ;;
      d <- get_db ;;
      if name_taken c' (categories d) then throw DuplicateKeyError
      else put_db (set_categories (replace c' (categories d)) d) ;; ret c'
  end.

(** [Category.findByIdAndDelete(id)] *)
Definition findByIdAndDelete (id : string) : M (option Category) :=
  o <- cast_id "_id" id ;;
  log (Write Categories) ;;
  d <- get_db ;;
  let found := find (by_id o) (categories d) in
  put_db (set_categories (filter (fun c => negb (by_id o c)) (categories d)) d) ;;
  ret found.

End CategoryModel.

Module SubCategoryModel.

Definition by_id (o : ObjectId.t) (s : SubCategory) : bool := ObjectId.eqb (sub_id s) o.

Definition in_category (o : ObjectId.t) (s : SubCategory) : bool :=
  ObjectId.eqb (sub_category s) o.

(** [SubCategory.find(filter)] *)
Definition find_where (p : SubCategory -> bool) : M (list SubCategory) :=
  log (Read SubCategories) ;;
  d <- get_db ;;
  ret (filter p (subcategories d)).

(** [SubCategory.findById(id)] *)
Definition findById (id : string) : M (option SubCategory) :=
  o <- cast_id "_id" id ;;
  log (Read SubCategories) ;;
  d <- get_db ;;
  ret (find (by_id o) (subcategories d)).

(** [SubCategory.findOne(filter)] *)
Definition findOne (p : SubCategory -> bool) : M (option SubCategory) :=
  log (Read SubCategories) ;;
  d <- get_db ;;
  ret (find p (subcategories d)).

(** [SubCategory.countDocuments({ category: id })] *)
Definition countDocuments (categoryId : string) : M nat :=
  o <- cast_id "category" categoryId ;;
  log (Read SubCategories) ;;
  d <- get_db ;;
  ret (length (filter (in_category o) (subcategories d))).

Definition set_subcategories (l : list SubCategory) (d : db) : db :=
  {| categories := categories d; subcategories := l; customers := customers d |}.

(** The unique compound index on [(name, category)]. *)
Definition pair_taken (s : SubCategory) (l : list SubCategory) : bool :=
  existsb (fun s' => negb (ObjectId.eqb (sub_id s') (sub_id s))
                     && String.eqb (sub_name s') (sub_name s)
                     && ObjectId.eqb (sub_category s') (sub_category s)) l.

Definition validate (s : SubCategory) : SubCategory + list (string * string) :=
  let name := Js.trim (sub_name s) in
  if String.eqb name "" then inr [("name", "Path `name` is required.")]
  else inl {| sub_id := sub_id s; sub_name := name; sub_category := sub_category s;
              sub_description := Js.trim (sub_description s);
              sub_createdAt := sub_createdAt s; sub_updatedAt := sub_updatedAt s |}.

(** [subcategory.save()] of a new document. *)
Definition insert (s : SubCategory) : M SubCategory :=
  match validate s with
  | inr errs => throw (ValidationError errs)
  | inl s' =>
    log (Write SubCategories) ;;
    d <- get_db ;;
    if pair_taken s' (subcategories d) then throw DuplicateKeyError
    else put_db (set_subcategories (subcategories d ++ [s']) d) ;; ret s'
  end.

Definition replace (s : SubCategory) (l : list SubCategory) : list SubCategory :=
  map (fun s' => if by_id (sub_id s) s' then s else s') l.

Definition same (a b : SubCategory) : bool :=
  String.eqb (sub_name a) (sub_name b)
  && ObjectId.eqb (sub_category a) (sub_category b)
  && String.eqb (sub_description a) (sub_description b).

Definition touch (now : Z) (s : SubCategory) : SubCategory :=
  {| sub_id := sub_id s; sub_name := sub_name s; sub_category := sub_category s;
     sub_description := sub_description s;
     sub_createdAt := sub_createdAt s; sub_updatedAt := now |}.

(** [subcategory.save()] of a loaded document [old] changed into [s]; the
    schema option [timestamps] refreshes [updatedAt] when something is
    written. *)
Definition update (now : Z) (old s : SubCategory) : M SubCategory :=
  match validate s with
  | inr errs => throw (ValidationError errs)
  | inl s' =>
    if same old s' then ret s'
    else
      let s'' := touch now s' in
      log (Write SubCategories) ;;
      d <- get_db ;;
      if pair_taken s'' (subcategories d) then throw DuplicateKeyError
      else put_db (set_subcategories (replace s'' (subcategories d)) d) ;; ret s''
  end.

(** [SubCategory.findByIdAndDelete(id)] *)
Definition findByIdAndDelete (id : string) : M (option SubCategory) :=
  o <- cast_id "_id" id ;;
  log (Write SubCategories) ;;
  d <- get_db ;;
  let found := find (by_id o) (subcategories d) in
  put_db (set_subcategories (filter (fun s => negb (by_id o s)) (subcategories d)) d) ;;
  ret found.

(** [.populate('category', 'name url')]: the referenced category, read from
    its collection; [None] when it is gone. *)
Definition populate (s : SubCategory) : M (SubCategory * option Category) :=
  log (Read Categories) ;;
  d <- get_db ;;
  ret (s, find (CategoryModel.by_id (sub_category s)) (categories d)).

End SubCategoryModel.

(** ** routes/categories.js *)

Module CategoryRoutes.

Record body := { name : option string; url : option string }.

Definition or_empty (o : option string) : string :=
  match o with Some s => s | None => "" end.

(** The express-validator chains of POST and PUT: [name] is trimmed and must
    not be empty, [url] is trimmed when present. The sanitised body is what
    the handler reads. *)
Definition sanitize (b : body) : body :=
  {| name := Some (Js.trim (or_empty (name b)));
     url := option_map Js.trim (url b) |}.

Definition validation_errors (b : body) : list (string * string) :=
  if String.eqb (or_empty (name (sanitize b))) "" then
    [("name", "Category name is required")]
  else [].

(** [GET /] *)
Definition list_categories : M (response (list Category)) :=
  catch_all "Server error" (
    cs <- CategoryModel.find_all ;;
    ret (Ok cs)).

(** [GET /:id] *)
Definition get_category (id : string) : M (response Category) :=
  catch_all "Server error" (
    category <- CategoryModel.findById id ;;
    match category with
    | None => ret (NotFound "Category not found")
    | Some c => ret (Ok c)
    end).

(** The filter [{ name: { $regex: new RegExp(`^${name}$`, 'i') } }]. *)
Definition name_pattern (name : string) : string := "^" ++ name ++ "$".

Definition name_matches (r : RegExp.regex) (c : Category) : bool :=
  RegExp.test r (cat_name c).

(** [POST /] *)
Definition create_category (now : Z) (newId : ObjectId.t) (b : body)
  : M (response Category) :=
  catch_all "Failed to create category" (
    match validation_errors b with
    | (_ :: _) as errs => ret (BadRequest (ValidatorErrors errs))
    | [] =>
      let name := or_empty (name (sanitize b)) in
      let url := url (sanitize b) in
      r <- new_RegExp (name_pattern name) ;;
      existingCategory <- CategoryModel.findOne (name_matches r) ;;
      match existingCategory with
      | Some _ => ret (BadRequest (ErrorMsg "Category with this name already exists"))
      | None =>
        category <- CategoryModel.insert
          {| cat_id := newId; cat_name := name;
             cat_url := or_empty url; cat_createdAt := now |} ;;
        ret (Created category)
      end
    end).

(** [PUT /:id] *)
Definition update_category (id : string) (b : body) : M (response Category) :=
  catch_all "Failed to update category" (
    match validation_errors b with
    | (_ :: _) as errs => ret (BadRequest (ValidatorErrors errs))
    | [] =>
      let name := or_empty (name (sanitize b)) in
      let url := url (sanitize b) in
      found <- CategoryModel.findById id ;;
      match found with
      | None => ret (NotFound "Category not found")
      | Some category =>
        taken <-
          (if Js.truthy name && negb (String.eqb name (cat_name category)) then
             r <- new_RegExp (name_pattern name) ;;
             o <- cast_id "_id" id ;;
             existingCategory <- CategoryModel.findOne
               (fun c => negb (CategoryModel.by_id o c) && name_matches r c) ;;
             ret (match existingCategory with Some _ => true | None => false end)
           else ret false) ;;
        if (taken : bool) then
          ret (BadRequest (ErrorMsg "Another category with this name already exists"))
        else
          saved <- CategoryModel.update category
            {| cat_id := cat_id category; cat_name := name;
               cat_url := match url with Some u => u | None => cat_url category end;
               cat_createdAt := cat_createdAt category |} ;;
          ret (Ok saved)
      end
    end).

(** [DELETE /:id] *)
Definition delete_category (id : string) : M (response string) :=
  catch_all "Failed to delete category" (
    category <- CategoryModel.findById id ;;
    match category with
    | None => ret (NotFound "Category not found")
    | Some _ =>
      subcategoriesCount <- SubCategoryModel.countDocuments id ;;
      if 0 <? subcategoriesCount then
        ret (BadRequest (ErrorMsg
          "Cannot delete category with existing subcategories. Please delete subcategories first."))
      else
        CategoryModel.findByIdAndDelete id ;;
        ret (Ok "Category deleted successfully")
    end).

End CategoryRoutes.

(** ** routes/subcategories.js *)

Module SubCategoryRoutes.

Record body := {
  name : option string;
  categoryId : option string;
  description : option string
}.

Definition or_empty (o : option string) : string :=
  match o with Some s => s | None => "" end.

Definition sanitize (b : body) : body :=
  {| name := Some (Js.trim (or_empty (name b)));
     categoryId := categoryId b;
     description := option_map Js.trim (description b) |}.

Definition name_errors (b : body) : list (string * string) :=
  if String.eqb (or_empty (name (sanitize b))) "" then
    [("name", "Subcategory name is required")]
  else [].

(** The chain on [categoryId]: [notEmpty], then the custom validator, which
    runs whatever [notEmpty] found and looks the category up when the value
    is well formed. *)
Definition categoryId_errors (b : body) : M (list (string * string)) :=
  let value := or_empty (categoryId b) in
  let required :=
    if String.eqb value "" then [("categoryId", "Category ID is required")] else [] in
  if negb (ObjectId.isValid value) then
    ret (required ++ [("categoryId", "Invalid category ID format")])%list
  else
    category <- CategoryModel.findById value ;;
    match category with
    | None => ret (required ++ [("categoryId", "Category not found")])%list
    | Some _ => ret required
    end.

(** What the custom validator reports for a well-formed [categoryId]. *)
Definition reference_errors (o : ObjectId.t) (d : db) : list (string * string) :=
  match find (CategoryModel.by_id o) (categories d) with
  | None => [("categoryId", "Category not found")]%string
  | Some _ => []
  end.

(** The chain on the route parameter of PUT. *)
Definition id_errors (id : string) : list (string * string) :=
  if negb (ObjectId.isValid id) then [("id", "Invalid subcategory ID format")] else [].

Definition populated := (SubCategory * option Category)%type.

(** [GET /]: the categories of all the rows are fetched in one query. *)
Definition populate_all (l : list SubCategory) : M (list populated) :=
  match l with
  | [] => ret []
  | _ :: _ =>
    log (Read Categories) ;;
    d <- get_db ;;
    ret (map (fun s => (s, find (CategoryModel.by_id (sub_category s)) (categories d))) l)
  end.

Definition list_subcategories : M (response (list populated)) :=
  catch_all "Failed to fetch subcategories" (
    l <- SubCategoryModel.find_where (fun _ => true) ;;
    ps <- populate_all l ;;
    ret (Ok ps)).

(** [GET /:id] *)
Definition get_subcategory (id : string) : M (response populated) :=
  catch_all "Server error" (
    if negb (ObjectId.isValid id) then
      ret (BadRequest (ErrorMsg "Invalid subcategory ID"))
    else
      found <- SubCategoryModel.findById id ;;
      match found with
      | None => ret (NotFound "Subcategory not found")
      | Some s => p <- SubCategoryModel.populate s ;; ret (Ok p)
      end).

(** [GET /category/:categoryId] *)
Definition list_by_category (categoryId : string) : M (response (list SubCategory)) :=
  catch_all "Failed to fetch subcategories" (
    if negb (ObjectId.isValid categoryId) then
      ret (BadRequest (ErrorMsg "Invalid category ID"))
    else
      category <- CategoryModel.findById categoryId ;;
      match category with
      | None => ret (NotFound "Category not found")
      | Some c =>
        l <- SubCategoryModel.find_where (SubCategoryModel.in_category (cat_id c)) ;;
        ret (Ok l)
      end).

Definition name_pattern (name : string) : string := "^" ++ name ++ "$".

Definition name_matches (r : RegExp.regex) (s : SubCategory) : bool :=
  RegExp.test r (sub_name s).

(** [SubCategory.findById(subcategory._id).populate('category', 'name url')]:
    the saved document read back with its category. *)
Definition reload (s : SubCategory) : M (option populated) :=
  found <- SubCategoryModel.findOne (SubCategoryModel.by_id (sub_id s)) ;;
  match found with
  | None => ret None
  | Some s' => p <- SubCategoryModel.populate s' ;; ret (Some p)
  end.

(** [POST /] *)
Definition create_subcategory (now : Z) (newId : ObjectId.t) (b : body)
  : M (response (option populated)) :=
  cerrs <- try_catch (categoryId_errors b) (fun _ => ret [("categoryId", "Invalid value")]) ;;
  catch_all "Failed to create subcategory" (
    match (name_errors b ++ cerrs)%list with
    | (_ :: _) as errs => ret (BadRequest (ValidatorErrors errs))
    | [] =>
      let name := or_empty (name (sanitize b)) in
      let categoryId := or_empty (categoryId b) in
      r <- new_RegExp (name_pattern name) ;;
      category <- cast_id "category" categoryId ;;
      existingSubCategory <- SubCategoryModel.findOne
        (fun s => name_matches r s && SubCategoryModel.in_category category s) ;;
      match existingSubCategory with
      | Some _ => ret (BadRequest (ErrorMsg
          "A subcategory with this name already exists in the specified category"))
      | None =>
        subcategory <- SubCategoryModel.insert
          {| sub_id := newId; sub_name := name; sub_category := category;
             sub_description := or_empty (description (sanitize b));
             sub_createdAt := now; sub_updatedAt := now |} ;;
        p <- reload subcategory ;;
        ret (Created p)
      end
    end).

(** [PUT /:id] *)
Definition update_subcategory (now : Z) (id : string) (b : body)
  : M (response (option populated)) :=
  cerrs <- try_catch (categoryId_errors b) (fun _ => ret [("categoryId", "Invalid value")]) ;;
  catch_all "Failed to update subcategory" (
    match (id_errors id ++ name_errors b ++ cerrs)%list with
    | (_ :: _) as errs => ret (BadRequest (ValidatorErrors errs))
    | [] =>
      let name := or_empty (name (sanitize b)) in
      let categoryId := or_empty (categoryId b) in
      found <- SubCategoryModel.findById id ;;
      match found with
      | None => ret (NotFound "Subcategory not found")
      | Some subcategory =>
        taken <-
          (if Js.truthy name
              && (negb (String.eqb name (sub_name subcategory))
                  || negb (String.eqb categoryId (sub_category subcategory))) then
             r <- new_RegExp (name_pattern name) ;;
             o <- cast_id "_id" id ;;
             category <- cast_id "category" categoryId ;;
             existingSubCategory <- SubCategoryModel.findOne
               (fun s => negb (SubCategoryModel.by_id o s) && name_matches r s
                         && SubCategoryModel.in_category category s) ;;
             ret (match existingSubCategory with Some _ => true | None => false end)
           else ret false) ;;
        if (taken : bool) then
          ret (BadRequest (ErrorMsg
            "A subcategory with this name already exists in the specified category"))
        else
          category <- cast_id "category" categoryId ;;
          saved <- SubCategoryModel.update now subcategory
            {| sub_id := sub_id subcategory; sub_name := name; sub_category := category;
               sub_description :=
                 match description (sanitize b) with
                 | Some d => d
                 | None => sub_description subcategory
                 end;
               sub_createdAt := sub_createdAt subcategory;
               sub_updatedAt := sub_updatedAt subcategory |} ;;
          p <- reload saved ;;
          ret (Ok p)
      end
    end).

(** [DELETE /:id] *)
Definition delete_subcategory (id : string) : M (response string) :=
  catch_all "Failed to delete subcategory" (
    if negb (ObjectId.isValid id) then
      ret (BadRequest (ErrorMsg "Invalid subcategory ID"))
    else
      found <- SubCategoryModel.findById id ;;
      match found with
      | None => ret (NotFound "Subcategory not found")
      | Some _ =>
        SubCategoryModel.findByIdAndDelete id ;;
        ret (Ok "Subcategory deleted successfully")
      end).

End SubCategoryRoutes.

(** ** models/Customer.js *)

(** A value of the request body read as text: [undefined], [null] or a
    string. *)
Inductive jsstr : Type := Undefined | Null | Str (s : string).

(** What [Number] makes of a value. *)
Inductive jsnum : Type := NaN | Num (q : Q).

(** A date field of the body: [undefined], a falsy value ([null] or the empty
    string), or a value that the conversion to [Date] turns into an instant
    ([Some]) or into [Invalid Date] ([None]). The conversion belongs to the
    runtime, so its result comes with the input. *)
Inductive jsdate : Type := DateUndefined | DateFalsy | DateGiven (t : option Z).

(** A date as it reaches the schema. *)
Inductive date_value : Type := DateNull | DateInvalid | DateAt (t : Z).

Module CustomerModel.

Definition by_id (o : ObjectId.t) (c : Customer) : bool := ObjectId.eqb (cus_id c) o.

(** The paths given to [new Customer(...)] or to [$set]: [None] is a path
    that is not given (a key removed because its value was [undefined]). *)
Record paths := {
  p_name : option string;
  p_email : option (option string);
  p_phone : option string;
  p_dateOfBirth : option date_value;
  p_address : option string;
  p_city : option (option string);
  p_state : option (option string);
  p_zipCode : option (option string);
  p_serviceCategory : option ObjectId.t;
  p_serviceCategoryName : option string;
  p_serviceSubCategory : option (option ObjectId.t);
  p_serviceSubCategoryName : option (option string);
  p_serviceNumber : option (option string);
  p_status : option string;
  p_fees : option Q;
  p_gstStatus : option string;
  p_gstNumber : option (option string);
  p_deliveryDate : option date_value;
  p_nextRenewalDate : option date_value;
  p_deliveryStatus : option string;
  p_notes : option (option string);
  p_updatedAt : option Z
}.

(** *** Setters: [trim] and [lowercase] *)

Definition trim1 (o : option string) : option string := option_map Js.trim o.
Definition trim2 (o : option (option string)) : option (option string) :=
  option_map (option_map Js.trim) o.

Definition apply_setters (p : paths) : paths :=
  {| p_name := trim1 (p_name p);
     p_email := option_map (option_map (fun s => Js.toLowerCase (Js.trim s))) (p_email p);
     p_phone := trim1 (p_phone p);
     p_dateOfBirth := p_dateOfBirth p;
     p_address := trim1 (p_address p);
     p_city := trim2 (p_city p);
     p_state := trim2 (p_state p);
     p_zipCode := trim2 (p_zipCode p);
     p_serviceCategory := p_serviceCategory p;
     p_serviceCategoryName := trim1 (p_serviceCategoryName p);
     p_serviceSubCategory := p_serviceSubCategory p;
     p_serviceSubCategoryName := trim2 (p_serviceSubCategoryName p);
     p_serviceNumber := trim2 (p_serviceNumber p);
     p_status := p_status p;
     p_fees := p_fees p;
     p_gstStatus := p_gstStatus p;
     p_gstNumber := trim2 (p_gstNumber p);
     p_deliveryDate := p_deliveryDate p;
     p_nextRenewalDate := p_nextRenewalDate p;
     p_deliveryStatus := p_deliveryStatus p;
     p_notes := trim2 (p_notes p);
     p_updatedAt := p_updatedAt p |}.

(** *** Validators *)

Definition errors := list (string * string).

Definition required (path msg : string) (v : option string) : errors :=
  match v with
  | Some s => if String.eqb s "" then [(path, msg)] else []
  | None => []
  end.

Definition maxlength (path : string) (n : nat) (msg : string)
    (v : option (option string)) : errors :=
  match v with
  | Some (Some s) => if n <? String.length s then [(path, msg)] else []
  | _ => []
  end.

Definition lift (v : option string) : option (option string) := option_map Some v.

(** [/^[0-9]{10}$/], and [/^\d{10}$/] of the route. *)
Definition phone_ok (s : string) : bool :=
  (String.length s =? 10) && forallb Js.isDigit (Js.chars s).

Fixpoint split_on (sep : ascii) (l : list ascii) : list (list ascii) :=
  match l with
  | [] => [[]]
  | c :: l' =>
    if Ascii.eqb c sep then [] :: split_on sep l'
    else match split_on sep l' with
         | [] => [[c]]
         | w :: ws => (c :: w) :: ws
         end
  end.

Definition isHyphen (c : ascii) : bool := Ascii.eqb c "-".
Definition isDot (c : ascii) : bool := Ascii.eqb c ".".

Definition label_ok (l : list ascii) : bool :=
  negb (length l =? 0) && forallb (fun c => Js.isWordChar c || isHyphen c) l.

(** [/^[\w-\.]+@([\w-]+\.)+[\w-]{2,4}$/]: one [@]; before it a non-empty run
    of word characters, hyphens and dots; after it at least two non-empty
    labels of word characters and hyphens separated by dots, the last of two
    to four characters. *)
Definition email_ok (s : string) : bool :=
  match split_on "@" (Js.chars s) with
  | [local; domain] =>
    negb (length local =? 0)
    && forallb (fun c => Js.isWordChar c || isHyphen c || isDot c) local
    && (let labels := split_on "." domain in
        (2 <=? length labels)
        && forallb label_ok labels
        && (let n := length (last labels []) in (2 <=? n) && (n <=? 4)))
  | _ => false
  end.

(** [match]: a missing or empty value passes. *)
Definition matches (path msg : string) (ok : string -> bool)
    (v : option (option string)) : errors :=
  match v with
  | Some (Some s) => if String.eqb s "" || ok s then [] else [(path, msg)]
  | _ => []
  end.

Definition statuses : list string := ["Active"; "Inactive"; "Pending"; "Suspended"].
Definition gstStatuses : list string := ["Paid"; "Not Paid"; "Pay Later"].
Definition deliveryStatuses : list string :=
  ["Pending"; "In Progress"; "Completed"; "Rejected"].

Definition includes (values : list string) (s : string) : bool :=
  existsb (String.eqb s) values.

Definition enum (path : string) (values : list string) (v : option string) : errors :=
  match v with
  | Some s =>
    if includes values s then []
    else [(path, "`" ++ s ++ "` is not a valid enum value for path `" ++ path ++ "`.")]
  | None => []
  end.

(** [min: [0, 'Fees cannot be negative']] *)
Definition min0 (path msg : string) (v : option Q) : errors :=
  match v with
  | Some q => if Qle_bool 0 q then [] else [(path, msg)]
  | None => []
  end.

(** The validator of [dateOfBirth]. *)
Definition not_in_future (now : Z) (v : option date_value) : errors :=
  match v with
  | Some (DateAt t) =>
    if (t <=? now)%Z then []
    else [("dateOfBirth", "Date of birth cannot be in the future")]
  | _ => []
  end.

(** The paths whose date cannot be cast. *)
Definition cast_error (path : string) (v : option date_value) : errors :=
  match v with
  | Some DateInvalid => [(path, "Cast to date failed for path `" ++ path ++ "`")]
  | _ => []
  end.

Definition cast_errors (p : paths) : errors :=
  (cast_error "dateOfBirth" (p_dateOfBirth p)
   ++ cast_error "deliveryDate" (p_deliveryDate p)
   ++ cast_error "nextRenewalDate" (p_nextRenewalDate p))%list.

(** The validators of the schema, in the order of its paths, on the paths
    that are given. *)
Definition validation_errors (now : Z) (p : paths) : errors :=
  (required "name" "Name is required" (p_name p)
   ++ maxlength "name" 100 "Name cannot be more than 100 characters" (lift (p_name p))
   ++ not_in_future now (p_dateOfBirth p)
   ++ matches "email" "Please enter a valid email address" email_ok (p_email p)
   ++ required "phone" "Phone number is required" (p_phone p)
   ++ matches "phone" "Please enter a valid 10-digit phone number" phone_ok
        (lift (p_phone p))
   ++ required "address" "Address is required" (p_address p)
   ++ maxlength "address" 500 "Address cannot be more than 500 characters"
        (lift (p_address p))
   ++ maxlength "city" 100 "City cannot be more than 100 characters" (p_city p)
   ++ maxlength "state" 100 "State cannot be more than 100 characters" (p_state p)
   ++ maxlength "zipCode" 20 "ZIP code cannot be more than 20 characters" (p_zipCode p)
   ++ required "serviceCategoryName" "Service category name is required"
        (p_serviceCategoryName p)
   ++ maxlength "serviceNumber" 50 "Service number cannot be more than 50 characters"
        (p_serviceNumber p)
   ++ enum "status" statuses (p_status p)
   ++ min0 "fees" "Fees cannot be negative" (p_fees p)
   ++ enum "gstStatus" gstStatuses (p_gstStatus p)
   ++ maxlength "gstNumber" 50 "GST number cannot be more than 50 characters"
        (p_gstNumber p)
   ++ enum "deliveryStatus" deliveryStatuses (p_deliveryStatus p)
   ++ maxlength "notes" 2000 "Notes cannot be more than 2000 characters" (p_notes p))%list.

(** *** The validators, path by path

    What the validators ask of the paths other than [phone], the enumerated
    paths and [fees]. *)

Definition present (v : option string) : bool :=
  match v with Some s => negb (String.eqb s "") | None => true end.

Definition text_ok (max : nat) (v : option (option string)) : bool :=
  match v with Some (Some s) => String.length s <=? max | _ => true end.

Definition date_ok (v : option date_value) : bool :=
  match v with Some DateInvalid => false | _ => true end.

Definition past (now : Z) (v : option date_value) : bool :=
  match v with Some (DateAt t) => (t <=? now)%Z | _ => true end.

Definition email_path_ok (v : option (option string)) : bool :=
  match v with Some (Some s) => String.eqb s "" || email_ok s | _ => true end.

Definition others_ok (now : Z) (p : paths) : bool :=
  present (p_name p) && text_ok 100 (lift (p_name p))
  && date_ok (p_dateOfBirth p) && past now (p_dateOfBirth p)
  && email_path_ok (p_email p)
  && present (p_address p) && text_ok 500 (lift (p_address p))
  && text_ok 100 (p_city p) && text_ok 100 (p_state p) && text_ok 20 (p_zipCode p)
  && present (p_serviceCategoryName p)
  && text_ok 50 (p_serviceNumber p) && text_ok 50 (p_gstNumber p)
  && date_ok (p_deliveryDate p) && date_ok (p_nextRenewalDate p)
  && text_ok 2000 (p_notes p).

Definition phone_errors (p : paths) : errors :=
  (required "phone" "Phone number is required" (p_phone p)
   ++ matches "phone" "Please enter a valid 10-digit phone number" phone_ok
        (lift (p_phone p)))%list.

Definition enum_fee_errors (p : paths) : errors :=
  (enum "status" statuses (p_status p)
   ++ min0 "fees" "Fees cannot be negative" (p_fees p)
   ++ enum "gstStatus" gstStatuses (p_gstStatus p)
   ++ enum "deliveryStatus" deliveryStatuses (p_deliveryStatus p))%list.

(** *** Documents *)

Definition or_old {A} (v : option A) (old : A) : A :=
  match v with Some a => a | None => old end.

Definition stored_date (v : date_value) : option Z :=
  match v with DateAt t => Some t | _ => None end.

(** [$set]: a given path replaces the stored value, the others stay. *)
Definition set_paths (p : paths) (c : Customer) : Customer :=
  {| cus_id := cus_id c;
     cus_name := or_old (p_name p) (cus_name c);
     cus_dateOfBirth := or_old (option_map stored_date (p_dateOfBirth p)) (cus_dateOfBirth c);
     cus_email := or_old (p_email p) (cus_email c);
     cus_phone := or_old (p_phone p) (cus_phone c);
     cus_address := or_old (p_address p) (cus_address c);
     cus_city := or_old (p_city p) (cus_city c);
     cus_state := or_old (p_state p) (cus_state c);
     cus_zipCode := or_old (p_zipCode p) (cus_zipCode c);
     cus_serviceCategory := or_old (p_serviceCategory p) (cus_serviceCategory c);
     cus_serviceCategoryName := or_old (p_serviceCategoryName p) (cus_serviceCategoryName c);
     cus_serviceSubCategory := or_old (p_serviceSubCategory p) (cus_serviceSubCategory c);
     cus_serviceSubCategoryName :=
       or_old (p_serviceSubCategoryName p) (cus_serviceSubCategoryName c);
     cus_serviceNumber := or_old (p_serviceNumber p) (cus_serviceNumber c);
     cus_status := or_old (p_status p) (cus_status c);
     cus_fees := or_old (option_map Some (p_fees p)) (cus_fees c);
     cus_gstStatus := or_old (p_gstStatus p) (cus_gstStatus c);
     cus_gstNumber := or_old (p_gstNumber p) (cus_gstNumber c);
     cus_deliveryDate := or_old (option_map stored_date (p_deliveryDate p)) (cus_deliveryDate c);
     cus_nextRenewalDate :=
       or_old (option_map stored_date (p_nextRenewalDate p)) (cus_nextRenewalDate c);
     cus_deliveryStatus := or_old (p_deliveryStatus p) (cus_deliveryStatus c);
     cus_notes := or_old (p_notes p) (cus_notes c);
     cus_createdAt := cus_createdAt c;
     cus_updatedAt := or_old (p_updatedAt p) (cus_updatedAt c) |}.

(** A new document before its data: the defaults of the schema, and the
    timestamps. *)
Definition defaults (newId : ObjectId.t) (now : Z) : Customer :=
  {| cus_id := newId; cus_name := ""; cus_dateOfBirth := None; cus_email := None;
     cus_phone := ""; cus_address := ""; cus_city := None; cus_state := None;
     cus_zipCode := None; cus_serviceCategory := ""; cus_serviceCategoryName := "";
     cus_serviceSubCategory := None; cus_serviceSubCategoryName := None;
     cus_serviceNumber := None; cus_status := "Active"; cus_fees := None;
     cus_gstStatus := "Not Paid"; cus_gstNumber := None; cus_deliveryDate := None;
     cus_nextRenewalDate := None; cus_deliveryStatus := "Pending"; cus_notes := None;
     cus_createdAt := now; cus_updatedAt := now |}.

Definition set_customers (l : list Customer) (d : db) : db :=
  {| categories := categories d; subcategories := subcategories d; customers := l |}.

(** [new Customer(data).save()]: cast and validation failures are reported
    together as a [ValidationError]; nothing is sent to the store then. *)
Definition create (now : Z) (newId : ObjectId.t) (data : paths) : M Customer :=
  let p := apply_setters data in
  match (cast_errors p ++ validation_errors now p)%list with
  | (_ :: _) as errs => throw (ValidationError errs)
  | [] =>
    let c := set_paths p (defaults newId now) in
    log (Write Customers) ;;
    d <- get_db ;;
    put_db (set_customers (customers d ++ [c]) d) ;;
    ret c
  end.

Definition replace (c : Customer) (l : list Customer) : list Customer :=
  map (fun c' => if by_id (cus_id c) c' then c else c') l.

(** [Customer.findByIdAndUpdate(id, { $set: data }, { new: true,
    runValidators: true })]: a value that cannot be cast raises a
    [CastError], a failed validator a [ValidationError], both before the
    command is sent. *)
Definition findByIdAndUpdate (now : Z) (id : string) (data : paths)
  : M (option Customer) :=
  o <- cast_id "_id" id ;;
  let p := apply_setters data in
  match cast_errors p with
  | (path, _) :: _ => throw (CastError path)
  | [] =>
    match validation_errors now p with
    | (_ :: _) as errs => throw (ValidationError errs)
    | [] =>
      log (Write Customers) ;;
      d <- get_db ;;
      match find (by_id o) (customers d) with
      | None => ret None
      | Some c =>
        let c' := set_paths p c in
        put_db (set_customers (replace c' (customers d)) d) ;;
        ret (Some c')
      end
    end
  end.

(** [Customer.findById(id)] *)
Definition findById (id : string) : M (option Customer) :=
  o <- cast_id "_id" id ;;
  log (Read Customers) ;;
  d <- get_db ;;
  ret (find (by_id o) (customers d)).

(** [Customer.findByIdAndDelete(id)] *)
Definition findByIdAndDelete (id : string) : M (option Customer) :=
  o <- cast_id "_id" id ;;
  log (Write Customers) ;;
  d <- get_db ;;
  let found := find (by_id o) (customers d) in
  put_db (set_customers (filter (fun c => negb (by_id o c)) (customers d)) d) ;;
  ret found.

Definition populated := (Customer * option Category * option SubCategory)%type.

(** [.populate('serviceCategory', ...).populate('serviceSubCategory', ...)] *)
Definition populate (c : Customer) (d : db) : populated :=
  (c,
   find (CategoryModel.by_id (cus_serviceCategory c)) (categories d),
   match cus_serviceSubCategory c with
   | Some o => find (SubCategoryModel.by_id o) (subcategories d)
   | None => None
   end).

Definition has_subcategory (c : Customer) : bool :=
  match cus_serviceSubCategory c with Some _ => true | None => false end.

(** One query per populated path, none when there is nothing to look up. *)
Definition populate_all (l : list Customer) : M (list populated) :=
  (if negb (length l =? 0) then log (Read Categories) else ret tt) ;;
  (if existsb has_subcategory l then log (Read SubCategories) else ret tt) ;;
  d <- get_db ;;
  ret (map (fun c => populate c d) l).

End CustomerModel.

(** ** The customer routes of server.js *)

Module CustomerRoutes.

Import CustomerModel.

Record body := {
  name : jsstr;
  email : jsstr;
  phone : jsstr;
  dateOfBirth : jsdate;
  address : jsstr;
  city : jsstr;
  state : jsstr;
  zipCode : jsstr;
  serviceCategory : jsstr;
  serviceCategoryName : jsstr;
  serviceSubCategory : jsstr;
  serviceSubCategoryName : jsstr;
  serviceNumber : jsstr;
  status : jsstr;
  fees : option jsnum;
  gstStatus : jsstr;
  gstNumber : jsstr;
  deliveryDate : jsdate;
  nextRenewalDate : jsdate;
  deliveryStatus : jsstr;
  notes : jsstr
}.

Definition truthy (v : jsstr) : bool :=
  match v with Str s => Js.truthy s | _ => false end.

(** [v ? v.trim() : null] *)
Definition trim_or_null (v : jsstr) : option string :=
  match v with Str s => if Js.truthy s then Some (Js.trim s) else None | _ => None end.

(** [v ? v.trim() : undefined], and [null] and [undefined] read alike. *)
Definition trim_or_undefined (v : jsstr) : option string := trim_or_null v.

(** [v !== undefined ? (v ? v.trim() : null) : undefined] *)
Definition trim_if_defined (v : jsstr) : option (option string) :=
  match v with Undefined => None | _ => Some (trim_or_null v) end.

(** [v || fallback] *)
Definition or_default (v : jsstr) (fallback : string) : string :=
  match v with Str s => if Js.truthy s then s else fallback | _ => fallback end.

(** [Number(v) || 0] *)
Definition number_or_zero (n : jsnum) : Q :=
  match n with
  | NaN => 0%Q
  | Num q => if Qeq_bool q 0 then 0%Q else q
  end.

(** [v ? new Date(v) : null] *)
Definition date_or_null (v : jsdate) : date_value :=
  match v with
  | DateGiven (Some t) => DateAt t
  | DateGiven None => DateInvalid
  | _ => DateNull
  end.

(** [v !== undefined ? (v ? new Date(v) : null) : undefined] *)
Definition date_if_defined (v : jsdate) : option date_value :=
  match v with DateUndefined => None | _ => Some (date_or_null v) end.

(** The first statements of POST and PUT: a falsy [serviceSubCategory]
    becomes [null] and takes [serviceSubCategoryName] with it. *)
Definition normalize (b : body) : body :=
  if negb (truthy (serviceSubCategory b)) then
    {| name := name b; email := email b; phone := phone b;
       dateOfBirth := dateOfBirth b; address := address b; city := city b;
       state := state b; zipCode := zipCode b;
       serviceCategory := serviceCategory b;
       serviceCategoryName := serviceCategoryName b;
       serviceSubCategory := Null; serviceSubCategoryName := Null;
       serviceNumber := serviceNumber b; status := status b; fees := fees b;
       gstStatus := gstStatus b; gstNumber := gstNumber b;
       deliveryDate := deliveryDate b; nextRenewalDate := nextRenewalDate b;
       deliveryStatus := deliveryStatus b; notes := notes b |}
  else b.

Definition subcategory_malformed (b : body) : bool :=
  match serviceSubCategory b with
  | Str s => Js.truthy s && negb (ObjectId.isValid s)
  | _ => false
  end.

Definition text (v : jsstr) : string :=
  match v with Str s => s | _ => "" end.

(** [new mongoose.Types.ObjectId(v)] *)
Definition new_ObjectId (v : jsstr) : M ObjectId.t :=
  match ObjectId.cast (text v) with
  | Some o => ret o
  | None => throw BSONTypeError
  end.

(** [v ? new mongoose.Types.ObjectId(v) : null], and the same with
    [undefined] for [null]. *)
Definition objectId_or_null (v : jsstr) : M (option ObjectId.t) :=
  if truthy v then o <- new_ObjectId v ;; ret (Some o) else ret None.

Definition requiredFields (b : body) : list (string * jsstr) :=
  [("name", name b); ("phone", phone b); ("address", address b);
   ("serviceCategory", serviceCategory b);
   ("serviceCategoryName", serviceCategoryName b)].

Definition missingFields (b : body) : list string :=
  map fst (filter (fun f => negb (truthy (snd f))) (requiredFields b)).

(** The [catch] block of POST: a validation error is a 400 that lists the
    failures, a duplicate key (code 11000) a 400 as well, anything else a
    500. *)
Definition catch_create {A} (m : M (response A)) : M (response A) :=
  try_catch m (fun e =>
    match e with
    | ValidationError errs => ret (BadRequest (ValidationFailed errs))
    | DuplicateKeyError => ret (BadRequest (ErrorMsg "Email already exists"))
    | NotModelled => ret Unmodelled
    | _ => ret (ServerError "Failed to create customer")
    end).

(** The [catch] block of PUT. *)
Definition catch_update {A} (m : M (response A)) : M (response A) :=
  try_catch m (fun e =>
    match e with
    | ValidationError errs => ret (BadRequest (ValidationFailed errs))
    | NotModelled => ret Unmodelled
    | _ => ret (ServerError "Failed to update customer")
    end).

(** The object [customerData] of POST. *)
Definition customerData (b : body)
    (serviceCategory' serviceSubCategory' : option ObjectId.t) : paths :=
  {| p_name := Some (Js.trim (text (name b)));
     p_email := Some (trim_or_null (email b));
     p_phone := Some (Js.trim (text (phone b)));
     p_dateOfBirth := Some (date_or_null (dateOfBirth b));
     p_address := Some (Js.trim (text (address b)));
     p_city := Some (trim_or_null (city b));
     p_state := Some (trim_or_null (state b));
     p_zipCode := Some (trim_or_null (zipCode b));
     p_serviceCategory := serviceCategory';
     p_serviceCategoryName := trim_or_null (serviceCategoryName b);
     p_serviceSubCategory := Some serviceSubCategory';
     p_serviceSubCategoryName := Some (trim_or_null (serviceSubCategoryName b));
     p_serviceNumber := Some (trim_or_null (serviceNumber b));
     p_status := Some (or_default (status b) "Active");
     p_fees := Some (number_or_zero (match fees b with Some n => n | None => NaN end));
     p_gstStatus := Some (or_default (gstStatus b) "Not Paid");
     p_gstNumber := Some (trim_or_null (gstNumber b));
     p_deliveryDate := Some (date_or_null (deliveryDate b));
     p_nextRenewalDate := Some (date_or_null (nextRenewalDate b));
     p_deliveryStatus := Some (or_default (deliveryStatus b) "Pending");
     p_notes := Some (trim_or_null (notes b));
     p_updatedAt := None |}.

(** [POST /api/customers] *)
Definition create_customer (now : Z) (newId : ObjectId.t) (b0 : body)
  : M (response Customer) :=
  catch_create (
    if subcategory_malformed b0 then
      ret (BadRequest (FieldError "Invalid service subcategory ID format" "serviceSubCategory"))
    else
      let b := normalize b0 in
      match missingFields b with
      | (_ :: _) as missing =>
        ret (BadRequest (MissingFields (map (fun f => f ++ " is required") missing)))
      | [] =>
        if negb (phone_ok (text (phone b))) then
          ret (BadRequest (ValidationFailed
            [("phone", "Please enter a valid 10-digit phone number")]))
        else
          serviceCategory' <- objectId_or_null (serviceCategory b) ;;
          serviceSubCategory' <- objectId_or_null (serviceSubCategory b) ;;
          savedCustomer <- CustomerModel.create now newId
            (customerData b serviceCategory' serviceSubCategory') ;;
          ret (Created savedCustomer)
      end).

(** The object [updateData] of PUT, once the keys whose value is
    [undefined] are removed. *)
Definition updateData (now : Z) (b : body)
    (serviceCategory' serviceSubCategory' : option ObjectId.t) : paths :=
  {| p_name := trim_or_undefined (name b);
     p_email := trim_if_defined (email b);
     p_phone := trim_or_undefined (phone b);
     p_dateOfBirth := date_if_defined (dateOfBirth b);
     p_address := trim_or_undefined (address b);
     p_city := trim_if_defined (city b);
     p_state := trim_if_defined (state b);
     p_zipCode := trim_if_defined (zipCode b);
     p_serviceCategory := serviceCategory';
     p_serviceCategoryName := trim_or_undefined (serviceCategoryName b);
     p_serviceSubCategory := Some serviceSubCategory';
     p_serviceSubCategoryName := trim_if_defined (serviceSubCategoryName b);
     p_serviceNumber := trim_if_defined (serviceNumber b);
     p_status := Some (or_default (status b) "Active");
     p_fees := option_map number_or_zero (fees b);
     p_gstStatus := Some (or_default (gstStatus b) "Not Paid");
     p_gstNumber := trim_if_defined (gstNumber b);
     p_deliveryDate := date_if_defined (deliveryDate b);
     p_nextRenewalDate := date_if_defined (nextRenewalDate b);
     p_deliveryStatus := Some (or_default (deliveryStatus b) "Pending");
     p_notes := trim_if_defined (notes b);
     p_updatedAt := Some now |}.

(** [PUT /api/customers/:id] *)
Definition update_customer (now : Z) (id : string) (b0 : body)
  : M (response Customer) :=
  catch_update (
    if negb (ObjectId.isValid id) then
      ret (BadRequest (ErrorMsg "Invalid customer ID format"))
    else if subcategory_malformed b0 then
      ret (BadRequest (FieldError "Invalid service subcategory ID format" "serviceSubCategory"))
    else
      let b := normalize b0 in
      serviceCategory' <- objectId_or_null (serviceCategory b) ;;
      serviceSubCategory' <- objectId_or_null (serviceSubCategory b) ;;
      updatedCustomer <- CustomerModel.findByIdAndUpdate now id
        (updateData now b serviceCategory' serviceSubCategory') ;;
      match updatedCustomer with
      | None => ret (NotFound "Customer not found")
      | Some c => ret (Ok c)
      end).

(** [GET /api/customers/:id] *)
Definition get_customer (id : string) : M (response populated) :=
  catch_all "Failed to fetch customer" (
    found <- CustomerModel.findById id ;;
    match found with
    | None => ret (NotFound "Customer not found")
    | Some c =>
      log (Read Categories) ;;
      (if has_subcategory c then log (Read SubCategories) else ret tt) ;;
      d <- get_db ;;
      ret (Ok (populate c d))
    end).

(** [DELETE /api/customers/:id] *)
Definition delete_customer (id : string) : M (response string) :=
  catch_all "Failed to delete customer" (
    if negb (ObjectId.isValid id) then
      ret (BadRequest (ErrorMsg "Invalid customer ID format"))
    else
      deletedCustomer <- CustomerModel.findByIdAndDelete id ;;
      match deletedCustomer with
      | None => ret (NotFound "Customer not found")
      | Some _ => ret (Ok "Customer deleted successfully")
      end).

(** The payload [{ notes }] of a partial update. *)
Definition notes_only (notes : string) : body :=
  {| name := Undefined; email := Undefined;
     phone := Undefined; dateOfBirth := DateUndefined;
     address := Undefined; city := Undefined;
     state := Undefined; zipCode := Undefined;
     serviceCategory := Undefined;
     serviceCategoryName := Undefined;
     serviceSubCategory := Undefined;
     serviceSubCategoryName := Undefined;
     serviceNumber := Undefined; status := Undefined;
     fees := None; gstStatus := Undefined;
     gstNumber := Undefined; deliveryDate := DateUndefined;
     nextRenewalDate := DateUndefined;
     deliveryStatus := Undefined; notes := Str notes |}.

(** *** Bodies the routes accept *)

(** What [objectId_or_null] returns; [None] when the constructor throws. *)
Definition object_id (v : jsstr) : option (option ObjectId.t) :=
  if truthy v then option_map Some (ObjectId.cast (text v)) else Some None.

(** The paths PUT hands to the model, setters applied, when the route gets
    that far. *)
Definition update_paths (now : Z) (b0 : body) : option paths :=
  if subcategory_malformed b0 then None
  else
    let b := normalize b0 in
    match object_id (serviceCategory b), object_id (serviceSubCategory b) with
    | Some sc, Some ssc => Some (apply_setters (updateData now b sc ssc))
    | _, _ => None
    end.

(** A required text of at most [max] characters. *)
Definition filled (max : nat) (v : jsstr) : bool :=
  match v with
  | Str s => negb (String.eqb (Js.trim s) "") && (String.length (Js.trim s) <=? max)
  | _ => false
  end.

Definition filled_any (v : jsstr) : bool :=
  match v with Str s => negb (String.eqb (Js.trim s) "") | _ => false end.

(** An optional text of at most [max] characters. *)
Definition short (max : nat) (v : jsstr) : bool :=
  match v with Str s => String.length (Js.trim s) <=? max | _ => true end.

Definition email_field_ok (v : jsstr) : bool :=
  match v with
  | Str s => let e := Js.toLowerCase (Js.trim s) in String.eqb e "" || email_ok e
  | _ => true
  end.

Definition date_field_ok (v : jsdate) : bool :=
  match v with DateGiven None => false | _ => true end.

Definition birth_ok (now : Z) (v : jsdate) : bool :=
  match v with
  | DateGiven (Some t) => (t <=? now)%Z
  | DateGiven None => false
  | _ => true
  end.

Definition reference_ok (v : jsstr) : bool :=
  match v with Str s => ObjectId.isValid s | _ => false end.

(** A body of POST that is valid in everything but [phone], the enumerated
    fields and [fees], which are left open. *)
Definition rest_ok (now : Z) (b : body) : bool :=
  filled 100 (name b) && filled 500 (address b)
  && reference_ok (serviceCategory b) && filled_any (serviceCategoryName b)
  && negb (subcategory_malformed b)
  && email_field_ok (email b) && birth_ok now (dateOfBirth b)
  && short 100 (city b) && short 100 (state b) && short 20 (zipCode b)
  && short 50 (serviceNumber b) && short 50 (gstNumber b)
  && date_field_ok (deliveryDate b) && date_field_ok (nextRenewalDate b)
  && short 2000 (notes b).

(** An enumerated field that is absent, empty or one of [values]. *)
Definition enum_field_ok (values : list string) (v : jsstr) : bool :=
  negb (truthy v) || includes values (text v).

(** A [fees] that is absent, not a number, or not negative. *)
Definition fees_field_ok (f : option jsnum) : bool :=
  match f with Some (Num q) => Qle_bool 0 q | _ => true end.

Definition enums_and_fees_ok (b : body) : bool :=
  enum_field_ok statuses (status b) && enum_field_ok gstStatuses (gstStatus b)
  && enum_field_ok deliveryStatuses (deliveryStatus b) && fees_field_ok (fees b).

(** The failures the validators of the enumerated paths and of [fees] report
    for a body: POST always sets [fees], PUT only when the body has it. *)
Definition create_enum_fee_errors (b : body) : errors :=
  (enum "status" statuses (Some (or_default (status b) "Active"))
   ++ min0 "fees" "Fees cannot be negative"
        (Some (number_or_zero (match fees b with Some n => n | None => NaN end)))
   ++ enum "gstStatus" gstStatuses (Some (or_default (gstStatus b) "Not Paid"))
   ++ enum "deliveryStatus" deliveryStatuses
        (Some (or_default (deliveryStatus b) "Pending")))%list.

Definition update_enum_fee_errors (b : body) : errors :=
  (enum "status" statuses (Some (or_default (status b) "Active"))
   ++ min0 "fees" "Fees cannot be negative" (option_map number_or_zero (fees b))
   ++ enum "gstStatus" gstStatuses (Some (or_default (gstStatus b) "Not Paid"))
   ++ enum "deliveryStatus" deliveryStatuses
        (Some (or_default (deliveryStatus b) "Pending")))%list.

(** The document POST stores for an accepted body. *)
Definition new_customer (now : Z) (newId : ObjectId.t) (b : body) : Customer :=
  let b' := normalize b in
  set_paths
    (apply_setters
       (customerData b' (ObjectId.cast (text (serviceCategory b')))
                     (if truthy (serviceSubCategory b')
                      then ObjectId.cast (text (serviceSubCategory b')) else None)))
    (defaults newId now).

(** *** The list route and its query builder *)

(** The values a sort compares, in the order the store gives to their
    types: null or missing, numbers, strings, identifiers, dates. *)
Inductive bson : Type :=
| BNull
| BNum (q : Q)
| BStr (s : string)
| BOid (o : ObjectId.t)
| BDate (t : Z).

Definition type_rank (v : bson) : nat :=
  match v with
  | BNull => 0
  | BNum _ => 1
  | BStr _ => 2
  | BOid _ => 3
  | BDate _ => 4
  end.

Definition bson_leb (a b : bson) : bool :=
  match a, b with
  | BNum x, BNum y => Qle_bool x y
  | BStr x, BStr y => String.leb x y
  | BOid x, BOid y => String.leb x y
  | BDate x, BDate y => (x <=? y)%Z
  | _, _ => type_rank a <=? type_rank b
  end.

Definition opt {A} (f : A -> bson) (v : option A) : bson :=
  match v with Some a => f a | None => BNull end.

(** A name the store reads as one field of a document: not empty, without a
    dot (a path into a subdocument) and without a NUL, not starting with a
    dollar sign (an operator), and not [__proto__], which
    [sort[sortBy] = ...] does not keep as a key of [sort]. *)
Definition field_name (path : string) : bool :=
  negb (String.eqb path "") && negb (String.eqb path "__proto__")
  && negb (String.prefix "$" path)
  && forallb (fun c => negb (Ascii.eqb c "." || (Js.code c =? 0))) (Js.chars path).

(** The value a sort on [path] compares. [createdBy] and [updatedBy] are
    paths of the schema that no route sets, and a name that is no path of
    the schema is a field no stored customer has: the value is missing;
    [__v] is 0 in every document the routes store. [None] for a name that
    is not a field name: the embedding does not follow the store there. *)
Definition sort_key (path : string) : option (Customer -> bson) :=
  let named := String.eqb path in
  if negb (field_name path) then None
  else if named "_id" then Some (fun c => BOid (cus_id c))
  else if named "name" then Some (fun c => BStr (cus_name c))
  else if named "dateOfBirth" then Some (fun c => opt BDate (cus_dateOfBirth c))
  else if named "email" then Some (fun c => opt BStr (cus_email c))
  else if named "phone" then Some (fun c => BStr (cus_phone c))
  else if named "address" then Some (fun c => BStr (cus_address c))
  else if named "city" then Some (fun c => opt BStr (cus_city c))
  else if named "state" then Some (fun c => opt BStr (cus_state c))
  else if named "zipCode" then Some (fun c => opt BStr (cus_zipCode c))
  else if named "serviceCategory" then Some (fun c => BOid (cus_serviceCategory c))
  else if named "serviceCategoryName" then Some (fun c => BStr (cus_serviceCategoryName c))
  else if named "serviceSubCategory" then Some (fun c => opt BOid (cus_serviceSubCategory c))
  else if named "serviceSubCategoryName" then
    Some (fun c => opt BStr (cus_serviceSubCategoryName c))
  else if named "serviceNumber" then Some (fun c => opt BStr (cus_serviceNumber c))
  else if named "status" then Some (fun c => BStr (cus_status c))
  else if named "fees" then Some (fun c => opt BNum (cus_fees c))
  else if named "gstStatus" then Some (fun c => BStr (cus_gstStatus c))
  else if named "gstNumber" then Some (fun c => opt BStr (cus_gstNumber c))
  else if named "deliveryDate" then Some (fun c => opt BDate (cus_deliveryDate c))
  else if named "nextRenewalDate" then Some (fun c => opt BDate (cus_nextRenewalDate c))
  else if named "deliveryStatus" then Some (fun c => BStr (cus_deliveryStatus c))
  else if named "notes" then Some (fun c => opt BStr (cus_notes c))
  else if named "createdAt" then Some (fun c => BDate (cus_createdAt c))
  else if named "updatedAt" then Some (fun c => BDate (cus_updatedAt c))
  else if named "__v" then Some (fun _ => BNum 0)
  else Some (fun _ => BNull).

Fixpoint insert_by {A} (le : A -> A -> bool) (x : A) (l : list A) : list A :=
  match l with
  | [] => [x]
  | y :: l' => if le x y then x :: l else y :: insert_by le x l'
  end.

(** Documents with equal keys keep their insertion order. *)
Definition sort_by {A} (le : A -> A -> bool) (l : list A) : list A :=
  fold_right (insert_by le) [] l.

(** [{ [sortBy]: 1 }] and [{ [sortBy]: -1 }] *)
Definition ascending (key : Customer -> bson) (a b : Customer) : bool :=
  bson_leb (key a) (key b).
Definition descending (key : Customer -> bson) (a b : Customer) : bool :=
  bson_leb (key b) (key a).

Record query := {
  search : option string;
  q_status : option string;
  service : option string;
  sortBy : option string;
  sortOrder : option string
}.

Definition given (v : option string) : option string :=
  match v with
  | Some s => if Js.truthy s then Some s else None
  | None => None
  end.

Definition test_opt (r : RegExp.regex) (v : option string) : bool :=
  match v with Some s => RegExp.test r s | None => false end.

(** The [$or] of the four [$regex] clauses. *)
Definition search_clause (r : RegExp.regex) (c : Customer) : bool :=
  RegExp.test r (cus_name c) || test_opt r (cus_email c)
  || RegExp.test r (cus_phone c) || test_opt r (cus_serviceNumber c).

Definition status_clause (s : string) (c : Customer) : bool :=
  String.eqb (cus_status c) s.

Definition service_clause (o : ObjectId.t) (c : Customer) : bool :=
  ObjectId.eqb (cus_serviceCategory c) o.

Definition when {A} (v : option A) (clause : A -> Customer -> bool) (c : Customer) : bool :=
  match v with Some a => clause a c | None => true end.

(** The [$regex] of the search, compiled by the store. *)
Definition store_regex (pattern : string) : M RegExp.regex :=
  match RegExp.compile RegExp.PCRE pattern with
  | RegExp.Compiled r => ret r
  | RegExp.SyntaxError => throw (MongoServerError "Regular expression is invalid")
  | RegExp.OutsideFragment => throw NotModelled
  end.

Definition or_else (v : option string) (fallback : string) : string :=
  match v with Some s => s | None => fallback end.

Definition traverse {A B} (f : A -> M B) (v : option A) : M (option B) :=
  match v with
  | Some a => b <- f a ;; ret (Some b)
  | None => ret None
  end.

(** [GET /api/customers] *)
Definition list_customers (q : query) : M (response (list populated)) :=
  catch_all "Failed to fetch customers" (
    let sortBy := or_else (sortBy q) "createdAt" in
    let sortOrder := or_else (sortOrder q) "desc" in
    service' <- traverse (cast_id "serviceCategory") (given (service q)) ;;
    match sort_key sortBy with
    | None => throw NotModelled
    | Some key =>
      log (Read Customers) ;;
      search' <- traverse store_regex (given (search q)) ;;
      d <- get_db ;;
      let found :=
        filter (fun c => when search' search_clause c
                         && when (given (q_status q)) status_clause c
                         && when service' service_clause c) (customers d) in
      let sorted :=
        sort_by (if String.eqb sortOrder "desc" then descending key else ascending key)
                found in
      customers <- populate_all sorted ;;
      ret (Ok customers)
    end).

(** *** Reading the query *)

(** The identifier the [service] parameter stands for; outer [None] when
    the cast fails. *)
Definition service_filter (q : query) : option (option ObjectId.t) :=
  match given (service q) with
  | Some s => option_map Some (ObjectId.cast s)
  | None => Some None
  end.

(** The pattern of the [search] parameter; outer [None] when the store
    refuses it or the fragment does not cover it. *)
Definition search_pattern (q : query) : option (option RegExp.regex) :=
  match given (search q) with
  | Some s =>
    match RegExp.compile RegExp.PCRE s with
    | RegExp.Compiled r => Some (Some r)
    | _ => None
    end
  | None => Some None
  end.

(** The search string, when there is one, uses nothing the fragment leaves
    out. *)
Definition search_followed (q : query) : bool :=
  match given (search q) with
  | Some s => RegExp.followed RegExp.PCRE (Js.chars s)
  | None => true
  end.

(** The filter the query builder sends. *)
Definition selected (search' : option RegExp.regex) (status' : option string)
    (service' : option ObjectId.t) (c : Customer) : bool :=
  when search' search_clause c && when status' status_clause c
  && when service' service_clause c.

Definition order_of (q : query) (key : Customer -> bson) : Customer -> Customer -> bool :=
  if String.eqb (or_else (sortOrder q) "desc") "desc" then descending key
  else ascending key.

Definition row_customer (r : populated) : Customer := fst (fst r).

(** In the words of the specification: name, email, phone or serviceNumber
    contains the search string, letter case apart. *)
Definition mentions (needle : string) (c : Customer) : bool :=
  Spec.contains_ignoring_case needle (cus_name c)
  || match cus_email c with
     | Some s => Spec.contains_ignoring_case needle s
     | None => false
     end
  || Spec.contains_ignoring_case needle (cus_phone c)
  || match cus_serviceNumber c with
     | Some s => Spec.contains_ignoring_case needle s
     | None => false
     end.

End CustomerRoutes.

(** ** Sample data *)

Module Sample.

Definition idA : ObjectId.t := "aaaaaaaaaaaaaaaaaaaaaaaa".
Definition idB : ObjectId.t := "bbbbbbbbbbbbbbbbbbbbbbbb".
Definition idC : ObjectId.t := "cccccccccccccccccccccccc".
Definition idD : ObjectId.t := "dddddddddddddddddddddddd".

Definition category (id : ObjectId.t) (name : string) : Category :=
  {| cat_id := id; cat_name := name; cat_url := ""; cat_createdAt := 0 |}.

Definition subcategory (id : ObjectId.t) (name : string) (cat : ObjectId.t) : SubCategory :=
  {| sub_id := id; sub_name := name; sub_category := cat; sub_description := "";
     sub_createdAt := 0; sub_updatedAt := 0 |}.

(** One category, named abc. *)
Definition db_abc : db :=
  {| categories := [category idA "abc"]; subcategories := []; customers := [] |}.

(** Two categories and no subcategory. *)
Definition db_two : db :=
  {| categories := [category idA "Languages"; category idB "Tools"];
     subcategories := []; customers := [] |}.

(** A category with one subcategory. *)
Definition db_sub : db :=
  {| categories := [category idA "abc"];
     subcategories := [subcategory idB "abc" idA]; customers := [] |}.

Definition category_body (name : string) : CategoryRoutes.body :=
  {| CategoryRoutes.name := Some name; CategoryRoutes.url := None |}.

Definition subcategory_body (name : string) (categoryId : string) : SubCategoryRoutes.body :=
  {| SubCategoryRoutes.name := Some name;
     SubCategoryRoutes.categoryId := Some categoryId;
     SubCategoryRoutes.description := None |}.

(** A body of POST with the required fields, an e-mail address, and the
    given [phone], [status] and [fees]. *)
Definition customer_body (phone : string) (status : jsstr) (fees : option jsnum)
  : CustomerRoutes.body :=
  {| CustomerRoutes.name := Str "Ann"; CustomerRoutes.email := Str "Ann@Example.com";
     CustomerRoutes.phone := Str phone; CustomerRoutes.dateOfBirth := DateUndefined;
     CustomerRoutes.address := Str "1 Main St"; CustomerRoutes.city := Undefined;
     CustomerRoutes.state := Undefined; CustomerRoutes.zipCode := Undefined;
     CustomerRoutes.serviceCategory := Str idA;
     CustomerRoutes.serviceCategoryName := Str "Tax";
     CustomerRoutes.serviceSubCategory := Undefined;
     CustomerRoutes.serviceSubCategoryName := Undefined;
     CustomerRoutes.serviceNumber := Undefined; CustomerRoutes.status := status;
     CustomerRoutes.fees := fees; CustomerRoutes.gstStatus := Undefined;
     CustomerRoutes.gstNumber := Undefined; CustomerRoutes.deliveryDate := DateUndefined;
     CustomerRoutes.nextRenewalDate := DateUndefined;
     CustomerRoutes.deliveryStatus := Undefined; CustomerRoutes.notes := Undefined |}.

(** A stored customer: inactive, paid, delivered, with a subcategory. *)
Definition customer : Customer :=
  {| cus_id := idC; cus_name := "Ann"; cus_dateOfBirth := None;
     cus_email := Some "ann@example.com"; cus_phone := "1234567890";
     cus_address := "1 Main St"; cus_city := None; cus_state := None;
     cus_zipCode := None; cus_serviceCategory := idA; cus_serviceCategoryName := "Tax";
     cus_serviceSubCategory := Some idB; cus_serviceSubCategoryName := Some "Income tax";
     cus_serviceNumber := None; cus_status := "Inactive"; cus_fees := Some (7 # 1);
     cus_gstStatus := "Paid"; cus_gstNumber := None; cus_deliveryDate := None;
     cus_nextRenewalDate := None; cus_deliveryStatus := "Completed"; cus_notes := None;
     cus_createdAt := 5; cus_updatedAt := 5 |}.

Definition db_customer : db :=
  {| categories := [category idA "Tax"]; subcategories := [subcategory idB "Income tax" idA];
     customers := [customer] |}.

End Sample.

(** ** routes/statuses.js *)

Module StatusRoutes.

(** The values of a list, each once, in the order of their first
    occurrence. The store does not promise an order; nothing below depends
    on the one chosen here. *)
Fixpoint distinct (l : list string) : list string :=
  match l with
  | [] => []
  | x :: l' => x :: filter (fun y => negb (String.eqb y x)) (distinct l')
  end.

(** [Customer.distinct('status')] *)
Definition distinct_status : M (list string) :=
  log (Read Customers) ;;
  d <- get_db ;;
  ret (distinct (map cus_status (customers d))).

(** [GET /] *)
Definition list_statuses : M (response (list string)) :=
  catch_all "Server error" (
    statuses <- distinct_status ;;
    ret (Ok statuses)).

End StatusRoutes.

(** ** The CORS policy of server.js *)

Module Cors.

Definition allowedOrigins : list string :=
  ["https://symphonious-moonbeam-dc0aa2.netlify.app";
   "http://localhost:5173";
   "http://localhost:5174";
   "http://localhost:3000";
   "http://127.0.0.1:3000";
   "http://localhost:5000";
   "http://127.0.0.1:5000"].

(** [s.startsWith(prefix)] *)
Definition startsWith (s prefix : string) : bool := String.prefix prefix s.

Fixpoint drop (n : nat) (s : string) : string :=
  match n, s with
  | S n', String _ s' => drop n' s'
  | _, _ => s
  end.

(** [s.replace(pattern, replacement)] for a pattern that is a string: the
    first occurrence is replaced. The replacement holds no [$]. *)
Fixpoint replace (pattern replacement s : string) {struct s} : string :=
  if String.prefix pattern s then replacement ++ drop (String.length pattern) s
  else
    match s with
    | EmptyString => EmptyString
    | String c s' => String c (replace pattern replacement s')
    end.

(** What the callback is called with: [(null, true)], or an error. *)
Inductive decision : Type := Allow | Refuse (msg : string).

Definition production (node_env : option string) : bool :=
  match node_env with Some e => String.eqb e "production" | None => false end.

Definition allows (origin allowedOrigin : string) : bool :=
  String.eqb origin allowedOrigin
  || startsWith origin (replace "http://" "https://" allowedOrigin).

(** [corsOptions.origin]; [node_env] is [process.env.NODE_ENV], [origin] the
    Origin header of the request. *)
Definition origin (node_env : option string) (origin : option string) : decision :=
  match origin with
  | None => Allow
  | Some o =>
    if negb (Js.truthy o) then Allow
    else if negb (production node_env) then Allow
    else if existsb (allows o) allowedOrigins then Allow
    else Refuse ("The CORS policy for this site does not allow access from the specified Origin: "
                 ++ o ++ ".")
  end.

End Cors.

(** ** routes/auth.js *)

Module AuthRoutes.

(** Modelled from the spec: the User model (models/User.js is not among the
    sources): an identifier, a username and a password. *)
Record User := {
  usr_id : ObjectId.t;
  usr_username : string;
  usr_password : string
}.

Record body := { username : option string; password : option string }.

(** What [jwt.sign(payload, key, { expiresIn: '1d' })] signs, and with which
    key: the payload, the time of issue and the expiry, both in seconds. The
    signature itself is not modelled. *)
Record token := {
  tok_userId : ObjectId.t;
  tok_username : string;
  tok_iat : Z;
  tok_exp : Z;
  tok_key : string
}.

Inductive login_response : Type :=
| LoggedIn (t : token) (id : ObjectId.t) (username : string)
| Invalid (errs : list (string * string))
| Unauthorized (msg : string).

Definition login_status (r : login_response) : nat :=
  match r with
  | LoggedIn _ _ _ => 200
  | Invalid _ => 400
  | Unauthorized _ => 401
  end.

(** [body(field).notEmpty().withMessage(msg)] *)
Definition notEmpty (field msg : string) (v : option string) : list (string * string) :=
  match v with
  | Some s => if Js.truthy s then [] else [(field, msg)]
  | None => [(field, msg)]
  end.

Definition validation_errors (b : body) : list (string * string) :=
  (notEmpty "username" "Username is required" (username b)
   ++ notEmpty "password" "Password is required" (password b))%list.

(** [process.env.JWT_SECRET || 'your_jwt_secret'] *)
Definition key_of (jwt_secret : option string) : string :=
  match jwt_secret with
  | Some s => if Js.truthy s then s else "your_jwt_secret"
  | None => "your_jwt_secret"
  end.

Definition one_day : Z := 86400.

Definition sign (u : User) (key : string) (now : Z) : token :=
  let iat := (now / 1000)%Z in
  {| tok_userId := usr_id u; tok_username := usr_username u;
     tok_iat := iat; tok_exp := (iat + one_day)%Z; tok_key := key |}.

Definition or_empty (o : option string) : string :=
  match o with Some s => s | None => "" end.

(** [POST /login]; [users] is the collection behind [User], [now] the clock
    in milliseconds. *)
Definition login (users : list User) (jwt_secret : option string) (now : Z) (b : body)
  : login_response :=
  match validation_errors b with
  | (_ :: _) as errs => Invalid errs
  | [] =>
    let username := or_empty (username b) in
    let password := or_empty (password b) in
    match find (fun u => String.eqb (usr_username u) username) users with
    | None => Unauthorized "Invalid credentials"
    | Some user =>
      if negb (String.eqb (usr_password user) password) then
        Unauthorized "Invalid credentials"
      else LoggedIn (sign user (key_of jwt_secret) now) (usr_id user) (usr_username user)
    end
  end.

End AuthRoutes.

(** ** What the customer schema asks of a stored document *)

Module CustomerSchema.

Import CustomerModel.

Definition optional {A} (ok : A -> bool) (v : option A) : bool :=
  match v with Some a => ok a | None => true end.

Definition at_most (n : nat) (s : string) : bool := String.length s <=? n.

Definition filled (s : string) : bool := negb (String.eqb s "").

(** Every validator of the schema but the one of [dateOfBirth], which
    depends on the clock, accepts the document. *)
Definition valid (c : Customer) : bool :=
  filled (cus_name c) && at_most 100 (cus_name c)
  && optional (fun s => String.eqb s "" || email_ok s) (cus_email c)
  && phone_ok (cus_phone c)
  && filled (cus_address c) && at_most 500 (cus_address c)
  && optional (at_most 100) (cus_city c)
  && optional (at_most 100) (cus_state c)
  && optional (at_most 20) (cus_zipCode c)
  && ObjectId.isValid (cus_serviceCategory c)
  && filled (cus_serviceCategoryName c)
  && optional ObjectId.isValid (cus_serviceSubCategory c)
  && optional (at_most 50) (cus_serviceNumber c)
  && includes statuses (cus_status c)
  && optional (Qle_bool 0) (cus_fees c)
  && includes gstStatuses (cus_gstStatus c)
  && optional (at_most 50) (cus_gstNumber c)
  && includes deliveryStatuses (cus_deliveryStatus c)
  && optional (at_most 2000) (cus_notes c).

(** The date of birth is not after [now]. *)
Definition born_by (now : Z) (c : Customer) : bool :=
  optional (fun t => (t <=? now)%Z) (cus_dateOfBirth c).

End CustomerSchema.

(** ** The routes as one server *)

Module Server.

(** The requests the routes above answer: those of routes/categories.js,
    of routes/subcategories.js, the customer routes and the list of
    statuses. The clock and the identifier of a new document come with the
    request. *)
Inductive request : Type :=
| GetCategories
| GetCategory (id : string)
| PostCategory (now : Z) (newId : ObjectId.t) (b : CategoryRoutes.body)
| PutCategory (id : string) (b : CategoryRoutes.body)
| DeleteCategory (id : string)
| GetSubCategories
| GetSubCategory (id : string)
| GetSubCategoriesOf (categoryId : string)
| PostSubCategory (now : Z) (newId : ObjectId.t) (b : SubCategoryRoutes.body)
| PutSubCategory (now : Z) (id : string) (b : SubCategoryRoutes.body)
| DeleteSubCategory (id : string)
| GetCustomers (q : CustomerRoutes.query)
| GetCustomer (id : string)
| PostCustomer (now : Z) (newId : ObjectId.t) (b : CustomerRoutes.body)
| PutCustomer (now : Z) (id : string) (b : CustomerRoutes.body)
| DeleteCustomer (id : string)
| GetStatuses.

(** The store a handler leaves. *)
Definition store_after {A} (m : M (response A)) (d : db) : db := snd (fst (handle m d)).

Definition serve (r : request) (d : db) : db :=
  match r with
  | GetCategories => store_after CategoryRoutes.list_categories d
  | GetCategory id => store_after (CategoryRoutes.get_category id) d
  | PostCategory now newId b => store_after (CategoryRoutes.create_category now newId b) d
  | PutCategory id b => store_after (CategoryRoutes.update_category id b) d
  | DeleteCategory id => store_after (CategoryRoutes.delete_category id) d
  | GetSubCategories => store_after SubCategoryRoutes.list_subcategories d
  | GetSubCategory id => store_after (SubCategoryRoutes.get_subcategory id) d
  | GetSubCategoriesOf categoryId =>
    store_after (SubCategoryRoutes.list_by_category categoryId) d
  | PostSubCategory now newId b =>
    store_after (SubCategoryRoutes.create_subcategory now newId b) d
  | PutSubCategory now id b => store_after (SubCategoryRoutes.update_subcategory now id b) d
  | DeleteSubCategory id => store_after (SubCategoryRoutes.delete_subcategory id) d
  | GetCustomers q => store_after (CustomerRoutes.list_customers q) d
  | GetCustomer id => store_after (CustomerRoutes.get_customer id) d
  | PostCustomer now newId b => store_after (CustomerRoutes.create_customer now newId b) d
  | PutCustomer now id b => store_after (CustomerRoutes.update_customer now id b) d
  | DeleteCustomer id => store_after (CustomerRoutes.delete_customer id) d
  | GetStatuses => store_after StatusRoutes.list_statuses d
  end.

(** The routes that only read. *)
Definition reads (r : request) : bool :=
  match r with
  | GetCategories | GetCategory _ | GetSubCategories | GetSubCategory _
  | GetSubCategoriesOf _ | GetCustomers _ | GetCustomer _ | GetStatuses => true
  | _ => false
  end.


(** A sequence of requests, answered one after the other. *)
Definition run (rs : list request) (d : db) : db :=
  fold_left (fun d r => serve r d) rs d.

(** The requests whose category or subcategory name, once trimmed, uses
    nothing the fragment leaves out: [new RegExp] then throws or gives a
    pattern of the fragment. *)
Definition names_followed (r : request) : bool :=
  match r with
  | PostCategory _ _ b | PutCategory _ b =>
    RegExp.followed RegExp.JS
      (Js.chars (Js.trim (CategoryRoutes.or_empty (CategoryRoutes.name b))))
  | PostSubCategory _ _ b | PutSubCategory _ _ b =>
    RegExp.followed RegExp.JS
      (Js.chars (Js.trim (SubCategoryRoutes.or_empty (SubCategoryRoutes.name b))))
  | _ => true
  end.

(** The store a handler leaves when the embedding follows it to its answer;
    [None] when the answer is [Unmodelled]: what the code has stored by
    then is not known. *)
Definition answered {A} (m : M (response A)) (d : db) : option db :=
  match handle m d with
  | (Unmodelled, _, _) => None
  | (_, d', _) => Some d'
  end.

(** One request. A route that writes is followed to its answer; a route
    that only reads calls nothing that writes, whatever it answers. *)
Definition step (r : request) (d : db) : option db :=
  match r with
  | PostCategory now newId b => answered (CategoryRoutes.create_category now newId b) d
  | PutCategory id b => answered (CategoryRoutes.update_category id b) d
  | DeleteCategory id => answered (CategoryRoutes.delete_category id) d
  | PostSubCategory now newId b =>
    answered (SubCategoryRoutes.create_subcategory now newId b) d
  | PutSubCategory now id b => answered (SubCategoryRoutes.update_subcategory now id b) d
  | DeleteSubCategory id => answered (SubCategoryRoutes.delete_subcategory id) d
  | PostCustomer now newId b => answered (CustomerRoutes.create_customer now newId b) d
  | PutCustomer now id b => answered (CustomerRoutes.update_customer now id b) d
  | DeleteCustomer id => answered (CustomerRoutes.delete_customer id) d
  | GetCategories | GetCategory _ | GetSubCategories | GetSubCategory _
  | GetSubCategoriesOf _ | GetCustomers _ | GetCustomer _ | GetStatuses => Some d
  end.

(** A sequence of requests, as far as the embedding follows it. *)
Fixpoint steps (rs : list request) (d : db) : option db :=
  match rs with
  | [] => Some d
  | r :: rs' =>
    match step r d with
    | Some d' => steps rs' d'
    | None => None
    end
  end.

End Server.

(** ** Properties of a store *)

Module Invariant.

(** Every subcategory refers to a stored category. *)
Definition references_hold (d : db) : bool :=
  forallb (fun s => existsb (CategoryModel.by_id (sub_category s)) (categories d))
          (subcategories d).

(** A name as the schemas want it: not empty and trimmed. *)
Definition name_kept (name : string) : bool :=
  negb (String.eqb name "") && String.eqb (Js.trim name) name.

(** The categories have names, and no two of them the same one. *)
Definition categories_in_order (d : db) : bool :=
  forallb (fun c => name_kept (cat_name c)
                    && negb (CategoryModel.name_taken c (categories d)))
          (categories d).

(** The subcategories have names, and no two of a category the same one. *)
Definition subcategories_in_order (d : db) : bool :=
  forallb (fun s => name_kept (sub_name s)
                    && negb (SubCategoryModel.pair_taken s (subcategories d)))
          (subcategories d).

(** Every customer passes the validators of its schema. *)
Definition customers_in_order (d : db) : bool :=
  forallb CustomerSchema.valid (customers d).


End Invariant.

(** ** More sample data *)

Module Cases.

Import Server.

(** Requests on the store that has the category abc and its subcategory:
    a second subcategory, the deletion of the category (refused), a
    subcategory moved to a category that does not exist (refused), the
    deletion of both subcategories and then of the category. *)
Definition requests : list request :=
  [PostSubCategory 1 Sample.idC (Sample.subcategory_body " Python " Sample.idA);
   DeleteCategory Sample.idA;
   PutSubCategory 2 Sample.idC (Sample.subcategory_body "Python" Sample.idD);
   PostCategory 3 Sample.idD (Sample.category_body " Tools ");
   PutCategory Sample.idD (Sample.category_body "TOOLS");
   PostCategory 4 Sample.idC (Sample.category_body "tools");
   PostCustomer 5 Sample.idC (Sample.customer_body "1234567890" Undefined None);
   PutCustomer 6 Sample.idC (CustomerRoutes.notes_only " call back ");
   DeleteSubCategory Sample.idB;
   DeleteSubCategory Sample.idC;
   DeleteCategory Sample.idA;
   GetCustomer Sample.idC;
   DeleteCustomer Sample.idC].

(** Requests on the same store with names that are patterns: a category
    whose name has parentheses, a subcategory of it whose name has a dot,
    the stored subcategory moved under it, the deletion of the category it
    has left and of the one it has joined (refused), a subcategory whose
    name is not a well-formed pattern (refused), and the list of customers
    sorted by a field no customer has. *)
Definition pattern_requests : list request :=
  [PostCategory 1 Sample.idC (Sample.category_body " C (advanced) ");
   PostSubCategory 2 Sample.idD (Sample.subcategory_body "Python 3.x" Sample.idC);
   PutSubCategory 3 Sample.idB (Sample.subcategory_body "abc" Sample.idC);
   DeleteCategory Sample.idA;
   DeleteCategory Sample.idC;
   PostSubCategory 4 Sample.idA (Sample.subcategory_body "C++" Sample.idC);
   PutCategory Sample.idC (Sample.category_body "c (advanced)");
   GetCustomers {| CustomerRoutes.search := None; CustomerRoutes.q_status := None;
                   CustomerRoutes.service := None;
                   CustomerRoutes.sortBy := Some "priority";
                   CustomerRoutes.sortOrder := None |}].

(** The store they leave. *)
Definition pattern_store : db :=
  {| categories :=
       [{| cat_id := Sample.idC; cat_name := "c (advanced)"; cat_url := "";
           cat_createdAt := 1 |}];
     subcategories :=
       [{| sub_id := Sample.idB; sub_name := "abc"; sub_category := Sample.idC;
           sub_description := ""; sub_createdAt := 0; sub_updatedAt := 3 |};
        {| sub_id := Sample.idD; sub_name := "Python 3.x"; sub_category := Sample.idC;
           sub_description := ""; sub_createdAt := 2; sub_updatedAt := 2 |}];
     customers := [] |}.

End Cases.

(** * Properties *)

Local Open Scope list_scope.

(** ** Facts about strings *)

Module JsFacts.
Import Js.

Lemma chars_str (l : list ascii) : chars (str l) = l.
Proof. apply list_ascii_of_string_of_list_ascii. Qed.

Lemma str_chars (s : string) : str (chars s) = s.
Proof. apply string_of_list_ascii_of_string. Qed.

Lemma length_chars (s : string) : length (chars s) = String.length s.
Proof. induction s as [|c s IH]; simpl; [reflexivity | now rewrite IH]. Qed.

Lemma truthy_true (s : string) : truthy s = true <-> s <> ""%string.
Proof.
  unfold truthy. rewrite negb_true_iff. split.
  - intros H E. subst. discriminate.
  - intros H. apply String.eqb_neq. exact H.
Qed.

Lemma dropWhile_idem {A} (p : A -> bool) (l : list A) :
  dropWhile p (dropWhile p l) = dropWhile p l.
Proof.
  induction l as [|x l IH]; simpl; [reflexivity|].
  destruct (p x) eqn:E; [exact IH|]. simpl. now rewrite E.
Qed.

Lemma dropWhile_snoc {A} (p : A -> bool) (l : list A) (x : A) :
  p x = false -> dropWhile p (l ++ [x]) = dropWhile p l ++ [x].
Proof.
  intros Hx. induction l as [|y l IH]; simpl.
  - now rewrite Hx.
  - destruct (p y); [exact IH | reflexivity].
Qed.

Lemma dropWhile_head {A} (p : A -> bool) (l : list A) :
  match dropWhile p l with [] => True | x :: _ => p x = false end.
Proof.
  induction l as [|y l IH]; simpl; [exact I|].
  destruct (p y) eqn:E; [exact IH | exact E].
Qed.

Lemma trimStart_trimEnd (l : list ascii) :
  trimStart (trimEnd (trimStart l)) = trimEnd (trimStart l).
Proof.
  unfold trimStart, trimEnd.
  pose proof (dropWhile_head isWhiteSpace l) as H.
  destruct (dropWhile isWhiteSpace l) as [|x a]; [reflexivity|].
  simpl rev. rewrite (dropWhile_snoc _ _ _ H), rev_app_distr. simpl.
  now rewrite H.
Qed.

Lemma trimEnd_idem (l : list ascii) : trimEnd (trimEnd l) = trimEnd l.
Proof. unfold trimEnd. now rewrite rev_involutive, dropWhile_idem. Qed.

Lemma trim_idem (s : string) : trim (trim s) = trim s.
Proof.
  unfold trim. rewrite chars_str, trimStart_trimEnd, trimEnd_idem. reflexivity.
Qed.

Lemma lower_upper (c : ascii) : toLowerChar (toUpperChar c) = toLowerChar c.
Proof. destruct c as [[] [] [] [] [] [] [] []]; reflexivity. Qed.

Lemma upper_lower (c : ascii) : toUpperChar (toLowerChar c) = toUpperChar c.
Proof. destruct c as [[] [] [] [] [] [] [] []]; reflexivity. Qed.

Lemma upper_eq_lower_eq (x y : ascii) :
  toUpperChar x = toUpperChar y <-> toLowerChar x = toLowerChar y.
Proof.
  split; intros H.
  - rewrite <- (lower_upper x), <- (lower_upper y). now rewrite H.
  - rewrite <- (upper_lower x), <- (upper_lower y). now rewrite H.
Qed.

End JsFacts.

(** ** Facts about the regular expressions *)

Module RegExpFacts.
Import RegExp.

Lemma chars_append (a b : string) :
  Js.chars (a ++ b)%string = Js.chars a ++ Js.chars b.
Proof. induction a as [|c a IH]; simpl; [reflexivity|]. unfold Js.chars in *. simpl. now rewrite IH. Qed.

Lemma parse_plain (d : dialect) (cs rest : list ascii) :
  forallb isPlain cs = true ->
  forall cur stack q,
    parse_loop d (cs ++ rest) cur stack q =
    parse_loop d rest {| alts := alts cur; terms := rev (map Chr cs) ++ terms cur |}
               stack (match cs with [] => q | _ :: _ => true end).
Proof.
  induction cs as [|c cs IH]; intros Hp cur stack q.
  - simpl. now destruct cur.
  - simpl in Hp. apply andb_prop in Hp as [Hc Hcs].
    unfold isPlain in Hc. rewrite negb_true_iff in Hc.
    repeat (apply orb_false_elim in Hc as [Hc ?]).
    simpl app. cbn [parse_loop].
    repeat match goal with H : _ = false |- _ => rewrite H; clear H end.
    rewrite (IH Hcs). cbn [push_term alts terms map rev].
    rewrite <- app_assoc. simpl. now destruct cs.
Qed.

Lemma seq_of_rev (l : list regex) (tail : list regex) :
  fold_left (fun acc t => Seq t acc) (rev l) (seq_of tail) =
  fold_right (fun t acc => Seq t acc) (seq_of tail) l.
Proof. now rewrite <- fold_left_rev_right, rev_involutive. Qed.

Lemma literal_map (cs : list ascii) (tail : regex) :
  fold_right (fun t acc => Seq t acc) tail (map Chr cs) = literal cs tail.
Proof. induction cs as [|c cs IH]; simpl; [reflexivity | now rewrite IH]. Qed.

(** The pattern [^name$] of a plain name. *)
Lemma compile_anchored (d : dialect) (name : string) :
  plain name = true ->
  compile d ("^" ++ name ++ "$")%string =
  Compiled (Seq Bol (literal (Js.chars name) (Seq Eol Eps))).
Proof.
  intros Hp. unfold compile. rewrite !chars_append.
  change (Js.chars "^") with ["^"%char]. change (Js.chars "$") with ["$"%char].
  simpl app. cbn [parse_loop]. cbn [Ascii.eqb Bool.eqb isQuantifier orb andb].
  rewrite (parse_plain d _ _ Hp). cbn [push_term alts terms empty_frame].
  destruct (Js.chars name) eqn:E; cbn [parse_loop]; cbn [Ascii.eqb Bool.eqb isQuantifier orb andb];
  unfold alt_of, seq_of; cbn [alts terms push_term fold_left].
  - reflexivity.
  - f_equal. rewrite fold_left_app. cbn [fold_left]. f_equal.
    change (Seq Eol Eps) with (seq_of [Eol]).
    rewrite seq_of_rev, literal_map. reflexivity.
Qed.

(** A plain pattern as the store compiles it. *)
Lemma compile_plain (d : dialect) (pattern : string) :
  plain pattern = true ->
  compile d pattern = Compiled (literal (Js.chars pattern) Eps).
Proof.
  intros Hp. unfold compile.
  rewrite <- (app_nil_r (Js.chars pattern)) at 1.
  rewrite (parse_plain d _ _ Hp). cbn [parse_loop alts terms empty_frame].
  f_equal. unfold alt_of, seq_of. cbn [alts terms fold_left]. rewrite app_nil_r.
  change Eps with (seq_of []) at 1. rewrite seq_of_rev, literal_map. reflexivity.
Qed.

Lemma run_literal (cs : list ascii) (tail : regex) :
  forall b s k,
    run (literal cs tail) b s k =
    match strip cs s with
    | Some s' => run tail (match cs with [] => b | _ :: _ => false end) s' k
    | None => false
    end.
Proof.
  induction cs as [|c cs IH]; intros b s k; [reflexivity|].
  cbn [literal fold_right run strip]. destruct s as [|x s]; [reflexivity|].
  destruct (Ascii.eqb (canon x) (canon c)); [|reflexivity].
  fold (literal cs tail). rewrite IH. destruct (strip cs s); [|reflexivity].
  now destruct cs.
Qed.

Lemma search_bol_false (r : regex) (s : list ascii) :
  search_from (Seq Bol r) false s = false.
Proof. induction s as [|x s IH]; simpl; [reflexivity | exact IH]. Qed.

(** [^name$] on a subject: the subject spells the name, and a line feed may
    follow. *)
Lemma test_anchored (cs : list ascii) (subject : string) :
  test (Seq Bol (literal cs (Seq Eol Eps))) subject =
  match strip cs (Js.chars subject) with
  | Some rest => atEnd rest
  | None => false
  end.
Proof.
  unfold test. destruct (Js.chars subject) as [|x s] eqn:E.
  - cbn [search_from run]. rewrite run_literal. rewrite orb_false_r.
    destruct (strip cs []); [|reflexivity]. cbn [run]. now destruct (atEnd l).
  - cbn [search_from run]. rewrite search_bol_false, orb_false_r, run_literal.
    destruct (strip cs (x :: s)); [|reflexivity]. cbn [run]. now destruct (atEnd l).
Qed.

Lemma strip_same (cs s : list ascii) :
  map Js.toLowerChar s = map Js.toLowerChar cs -> strip cs s = Some [].
Proof.
  revert s. induction cs as [|c cs IH]; intros [|x s] H; try discriminate; [reflexivity|].
  simpl in H. injection H as Hx Hs. cbn [strip]. unfold canon.
  apply JsFacts.upper_eq_lower_eq in Hx. rewrite Hx, Ascii.eqb_refl. now apply IH.
Qed.

Lemma eqb_canon_lower (x c : ascii) :
  Ascii.eqb (canon x) (canon c) = Ascii.eqb (Js.toLowerChar c) (Js.toLowerChar x).
Proof.
  unfold canon.
  destruct (Ascii.eqb_spec (Js.toUpperChar x) (Js.toUpperChar c)) as [E|E];
  destruct (Ascii.eqb_spec (Js.toLowerChar c) (Js.toLowerChar x)) as [F|F]; try reflexivity.
  - apply JsFacts.upper_eq_lower_eq in E. congruence.
  - symmetry in F. apply JsFacts.upper_eq_lower_eq in F. congruence.
Qed.

Lemma strip_starts_with (cs s : list ascii) :
  match strip cs s with Some _ => true | None => false end =
  Spec.starts_with (map Js.toLowerChar cs) (map Js.toLowerChar s).
Proof.
  revert s. induction cs as [|c cs IH]; intros s; [reflexivity|].
  destruct s as [|x s]; [reflexivity|]. cbn [strip map Spec.starts_with].
  rewrite eqb_canon_lower. destruct (Ascii.eqb _ _); [apply IH | reflexivity].
Qed.

Lemma search_literal (cs : list ascii) (b : bool) (s : list ascii) :
  search_from (literal cs Eps) b s =
  Spec.includes (map Js.toLowerChar cs) (map Js.toLowerChar s).
Proof.
  revert b. induction s as [|x s IH]; intros b.
  - pose proof (strip_starts_with cs []) as H. cbn [map] in *.
    cbn [search_from Spec.includes]. rewrite run_literal, <- H.
    now destruct (strip cs []).
  - pose proof (strip_starts_with cs (x :: s)) as H. cbn [map] in *.
    cbn [search_from Spec.includes]. rewrite run_literal, IH, <- H.
    now destruct (strip cs (x :: s)).
Qed.

(** A plain search string is looked for as it is, letter case apart. *)
Lemma test_plain (needle hay : string) :
  test (literal (Js.chars needle) Eps) hay = Spec.contains_ignoring_case needle hay.
Proof. apply search_literal. Qed.

End RegExpFacts.

(** ** Facts about lists and stores *)

Lemma length_filter_pos {A} (p : A -> bool) (l : list A) :
  (0 <? length (filter p l)) = existsb p l.
Proof.
  induction l as [|x l IH]; simpl; [reflexivity|].
  destruct (p x); simpl; [reflexivity | exact IH].
Qed.

Lemma find_none_filter {A} (p : A -> bool) (l : list A) :
  find p l = None -> filter (fun x => negb (p x)) l = l.
Proof.
  induction l as [|x l IH]; simpl; [reflexivity|].
  destruct (p x); [discriminate|]. intros H. simpl. now rewrite IH.
Qed.

Lemma set_categories_same (d : db) : CategoryModel.set_categories (categories d) d = d.
Proof. now destruct d. Qed.

(** ** Running a handler step by step *)

Section Steps.
Context {A B : Type}.

Lemma bind_return (m : M A) (f : A -> M B) (w w' : world) (a : A) :
  m w = (Return a, w') -> bind m f w = f a w'.
Proof. unfold bind. now intros ->. Qed.

Lemma bind_throw (m : M A) (f : A -> M B) (w w' : world) (e : exn) :
  m w = (Throw e, w') -> bind m f w = (Throw e, w').
Proof. unfold bind. now intros ->. Qed.

Lemma catch_return (m : M A) (h : exn -> M A) (w w' : world) (a : A) :
  m w = (Return a, w') -> try_catch m h w = (Return a, w').
Proof. unfold try_catch. now intros ->. Qed.

Lemma catch_throw (m : M A) (h : exn -> M A) (w w' : world) (e : exn) :
  m w = (Throw e, w') -> try_catch m h w = h e w'.
Proof. unfold try_catch. now intros ->. Qed.
End Steps.

Lemma handle_return {A} (m : M (response A)) (d d' : db) (r : response A)
    (t : list access) :
  m (fresh d) = (Return r, {| store := d'; trace := t |}) -> handle m d = (r, d', t).
Proof. unfold handle. now intros ->. Qed.

Lemma catch_all_return {A} (msg : string) (m : M (response A)) (w w' : world) (r : response A) :
  m w = (Return r, w') -> catch_all msg m w = (Return r, w').
Proof. apply catch_return. Qed.

Lemma cast_isValid (id : string) (o : ObjectId.t) :
  ObjectId.cast id = Some o -> ObjectId.isValid id = true.
Proof. unfold ObjectId.cast. destruct (ObjectId.isValid id); [reflexivity | discriminate]. Qed.

Lemma isValid_cast (id : string) :
  ObjectId.isValid id = true -> ObjectId.cast id = Some (Js.toLowerCase id).
Proof. unfold ObjectId.cast. now intros ->. Qed.

Lemma not_valid_cast (id : string) :
  ObjectId.isValid id = false -> ObjectId.cast id = None.
Proof. unfold ObjectId.cast. now intros ->. Qed.

Lemma isValid_not_empty (id : string) : ObjectId.isValid id = true -> String.eqb id "" = false.
Proof. destruct id; [discriminate | reflexivity]. Qed.

Lemma cast_id_run (path id : string) (o : ObjectId.t) (w : world) :
  ObjectId.cast id = Some o -> cast_id path id w = (Return o, w).
Proof. unfold cast_id. now intros ->. Qed.

Lemma cast_id_fails (path id : string) (w : world) :
  ObjectId.isValid id = false -> cast_id path id w = (Throw (CastError path), w).
Proof. intros H. unfold cast_id. now rewrite (not_valid_cast _ H). Qed.

Lemma find_app_none {A} (p : A -> bool) (l : list A) (x : A) :
  find p l = None -> find p (l ++ [x]) = if p x then Some x else None.
Proof.
  induction l as [|y l IH]; simpl; [reflexivity|].
  destruct (p y); [discriminate | exact IH].
Qed.

Lemma find_none_iff {A} (p : A -> bool) (l : list A) :
  find p l = None <-> forall x, In x l -> p x = false.
Proof.
  split.
  - intros H x Hx. now apply (find_none p l H).
  - induction l as [|y l IH]; intros H; simpl; [reflexivity|].
    rewrite (H y (or_introl eq_refl)). apply IH. intros x Hx. apply H. now right.
Qed.

Lemma existsb_false_iff {A} (p : A -> bool) (l : list A) :
  existsb p l = false <-> forall x, In x l -> p x = false.
Proof.
  induction l as [|y l IH]; simpl.
  - split; [intros _ x [] | reflexivity].
  - rewrite orb_false_iff, IH. split.
    + intros [Hy Hl] x [<-|Hx]; auto.
    + intros H. split; [apply H; now left | intros x Hx; apply H; now right].
Qed.

Module CategoryFacts.
Import CategoryModel.

Lemma category_findById_run (id : string) (o : ObjectId.t) (w : world) :
  ObjectId.cast id = Some o ->
  findById id w = (Return (find (by_id o) (categories (store w))), logged (Read Categories) w).
Proof. intros H. unfold findById. now rewrite (bind_return _ _ _ _ _ (cast_id_run _ _ _ w H)). Qed.

Lemma category_findById_fails (id : string) (w : world) :
  ObjectId.isValid id = false -> findById id w = (Throw (CastError "_id"), w).
Proof. intros H. unfold findById. now rewrite (bind_throw _ _ _ _ _ (cast_id_fails _ _ w H)). Qed.

Lemma category_findOne_run (p : Category -> bool) (w : world) :
  findOne p w = (Return (find p (categories (store w))), logged (Read Categories) w).
Proof. reflexivity. Qed.

End CategoryFacts.

Module SubCategoryFacts.
Import SubCategoryModel.

Lemma subcategory_findById_run (id : string) (o : ObjectId.t) (w : world) :
  ObjectId.cast id = Some o ->
  findById id w =
  (Return (find (by_id o) (subcategories (store w))), logged (Read SubCategories) w).
Proof. intros H. unfold findById. now rewrite (bind_return _ _ _ _ _ (cast_id_run _ _ _ w H)). Qed.

Lemma subcategory_findOne_run (p : SubCategory -> bool) (w : world) :
  findOne p w = (Return (find p (subcategories (store w))), logged (Read SubCategories) w).
Proof. reflexivity. Qed.

Lemma insert_run (s s' : SubCategory) (w : world) :
  validate s = inl s' ->
  pair_taken s' (subcategories (store w)) = false ->
  insert s w =
  (Return s',
   stored (set_subcategories (subcategories (store w) ++ [s']) (store w))
          (logged (Write SubCategories) w)).
Proof.
  intros Hv Ht. unfold insert. rewrite Hv. unfold bind, log, get_db.
  cbn [store logged]. rewrite Ht. reflexivity.
Qed.

Lemma insert_duplicate (s s' : SubCategory) (w : world) :
  validate s = inl s' ->
  pair_taken s' (subcategories (store w)) = true ->
  insert s w = (Throw DuplicateKeyError, logged (Write SubCategories) w).
Proof.
  intros Hv Ht. unfold insert. rewrite Hv. unfold bind, log, get_db.
  cbn [store logged]. rewrite Ht. reflexivity.
Qed.

Lemma populate_run (s : SubCategory) (w : world) :
  populate s w =
  (Return (s, find (CategoryModel.by_id (sub_category s)) (categories (store w))),
   logged (Read Categories) w).
Proof. reflexivity. Qed.

End SubCategoryFacts.

Arguments Js.trim : simpl never.
Arguments Js.toLowerCase : simpl never.
Arguments RegExp.compile : simpl never.
Arguments RegExp.test : simpl never.
Arguments String.eqb : simpl never.
Arguments ObjectId.isValid : simpl never.
Arguments ObjectId.cast : simpl never.


Module SubCategoryRouteFacts.
Import SubCategoryRoutes.

Lemma new_RegExp_run (pattern : string) (r : RegExp.regex) (w : world) :
  RegExp.compile RegExp.JS pattern = RegExp.Compiled r ->
  new_RegExp pattern w = (Return r, w).
Proof. unfold new_RegExp. now intros ->. Qed.

Lemma new_RegExp_fails (pattern : string) (w : world) :
  RegExp.compile RegExp.JS pattern = RegExp.SyntaxError ->
  new_RegExp pattern w = (Throw RegExpSyntaxError, w).
Proof. unfold new_RegExp. now intros ->. Qed.

Lemma categoryId_errors_run (b : body) (cid : string) (o : ObjectId.t) (w : world) :
  categoryId b = Some cid ->
  ObjectId.cast cid = Some o ->
  categoryId_errors b w = (Return (reference_errors o (store w)), logged (Read Categories) w).
Proof.
  intros Hcid Hcast. pose proof (cast_isValid _ _ Hcast) as Hvalid.
  unfold categoryId_errors, reference_errors. rewrite Hcid. cbn [or_empty].
  rewrite (isValid_not_empty _ Hvalid), Hvalid. cbn [negb].
  rewrite (bind_return _ _ _ _ _ (CategoryFacts.category_findById_run _ _ w Hcast)).
  now destruct (find _ _).
Qed.

Lemma name_errors_nil (b : body) :
  Js.trim (or_empty (name b)) <> ""%string -> name_errors b = [].
Proof.
  intros H. unfold name_errors. cbn [sanitize name or_empty].
  apply String.eqb_neq in H. now rewrite H.
Qed.

Lemma trim_description (v : option string) :
  Js.trim (or_empty (option_map Js.trim v)) = Js.trim (or_empty v).
Proof. destruct v as [x|]; cbn [option_map or_empty]; [apply JsFacts.trim_idem | reflexivity]. Qed.

Lemma reload_found (s s' : SubCategory) (w : world) :
  find (SubCategoryModel.by_id (sub_id s)) (subcategories (store w)) = Some s' ->
  reload s w =
  (Return (Some (s', find (CategoryModel.by_id (sub_category s')) (categories (store w)))),
   logged (Read Categories) (logged (Read SubCategories) w)).
Proof.
  intros H. unfold reload.
  rewrite (bind_return _ _ _ _ _ (SubCategoryFacts.subcategory_findOne_run _ _)), H.
  now rewrite (bind_return _ _ _ _ _ (SubCategoryFacts.populate_run _ _)).
Qed.

End SubCategoryRouteFacts.

(** ** Facts about the models *)

Module StoreFacts.

Lemma count_run (id : string) (o : ObjectId.t) (w : world) :
  ObjectId.cast id = Some o ->
  SubCategoryModel.countDocuments id w =
  (Return (length (filter (SubCategoryModel.in_category o) (subcategories (store w)))),
   logged (Read SubCategories) w).
Proof.
  intros H. unfold SubCategoryModel.countDocuments.
  now rewrite (bind_return _ _ _ _ _ (cast_id_run _ _ _ w H)).
Qed.

Lemma delete_category_run (id : string) (o : ObjectId.t) (w : world) :
  ObjectId.cast id = Some o ->
  CategoryModel.findByIdAndDelete id w =
  (Return (find (CategoryModel.by_id o) (categories (store w))),
   stored (CategoryModel.set_categories
             (filter (fun c => negb (CategoryModel.by_id o c)) (categories (store w)))
             (store w))
          (logged (Write Categories) w)).
Proof.
  intros H. unfold CategoryModel.findByIdAndDelete.
  now rewrite (bind_return _ _ _ _ _ (cast_id_run _ _ _ w H)).
Qed.

Lemma delete_subcategory_run (id : string) (o : ObjectId.t) (w : world) :
  ObjectId.cast id = Some o ->
  SubCategoryModel.findByIdAndDelete id w =
  (Return (find (SubCategoryModel.by_id o) (subcategories (store w))),
   stored (SubCategoryModel.set_subcategories
             (filter (fun s => negb (SubCategoryModel.by_id o s)) (subcategories (store w)))
             (store w))
          (logged (Write SubCategories) w)).
Proof.
  intros H. unfold SubCategoryModel.findByIdAndDelete.
  now rewrite (bind_return _ _ _ _ _ (cast_id_run _ _ _ w H)).
Qed.

Lemma delete_customer_run (id : string) (o : ObjectId.t) (w : world) :
  ObjectId.cast id = Some o ->
  CustomerModel.findByIdAndDelete id w =
  (Return (find (CustomerModel.by_id o) (customers (store w))),
   stored (CustomerModel.set_customers
             (filter (fun c => negb (CustomerModel.by_id o c)) (customers (store w)))
             (store w))
          (logged (Write Customers) w)).
Proof.
  intros H. unfold CustomerModel.findByIdAndDelete.
  now rewrite (bind_return _ _ _ _ _ (cast_id_run _ _ _ w H)).
Qed.

Lemma find_customer_run (id : string) (o : ObjectId.t) (w : world) :
  ObjectId.cast id = Some o ->
  CustomerModel.findById id w =
  (Return (find (CustomerModel.by_id o) (customers (store w))), logged (Read Customers) w).
Proof.
  intros H. unfold CustomerModel.findById.
  now rewrite (bind_return _ _ _ _ _ (cast_id_run _ _ _ w H)).
Qed.

Lemma find_customer_fails (id : string) (w : world) :
  ObjectId.isValid id = false ->
  CustomerModel.findById id w = (Throw (CastError "_id"), w).
Proof.
  intros H. unfold CustomerModel.findById.
  now rewrite (bind_throw _ _ _ _ _ (cast_id_fails _ _ w H)).
Qed.

Lemma set_subcategories_same (d : db) :
  SubCategoryModel.set_subcategories (subcategories d) d = d.
Proof. now destruct d. Qed.

Lemma set_customers_same (d : db) : CustomerModel.set_customers (customers d) d = d.
Proof. now destruct d. Qed.

End StoreFacts.

Module CustomerFacts.
Import CustomerModel.

Lemma required_present (path msg : string) (v : option string) :
  present v = true -> required path msg v = [].
Proof.
  unfold present, required. destruct v as [s|]; [|reflexivity].
  now destruct (String.eqb s "").
Qed.

Lemma maxlength_text_ok (path : string) (n : nat) (msg : string) (v : option (option string)) :
  text_ok n v = true -> maxlength path n msg v = [].
Proof.
  unfold text_ok, maxlength. destruct v as [[s|]|]; try reflexivity.
  intros H. apply Nat.leb_le in H. destruct (Nat.ltb_spec n (String.length s)); [lia | reflexivity].
Qed.

Lemma cast_error_date_ok (path : string) (v : option date_value) :
  date_ok v = true -> cast_error path v = [].
Proof. unfold date_ok, cast_error. now destruct v as [[]|]. Qed.

Lemma not_in_future_past (now : Z) (v : option date_value) :
  past now v = true -> not_in_future now v = [].
Proof. unfold past, not_in_future. destruct v as [[]|]; try reflexivity. now intros ->. Qed.

Lemma matches_email (v : option (option string)) :
  email_path_ok v = true ->
  matches "email" "Please enter a valid email address" email_ok v = [].
Proof. unfold email_path_ok, matches. destruct v as [[s|]|]; try reflexivity. now intros ->. Qed.

(** When the other paths are in order, the failures of the validators are
    those of [phone], of the enumerated paths and of [fees]. *)
Lemma others_ok_errors (now : Z) (p : paths) :
  others_ok now p = true ->
  cast_errors p = [] /\ validation_errors now p = phone_errors p ++ enum_fee_errors p.
Proof.
  unfold others_ok. intros H.
  repeat (apply andb_prop in H as [H ?]).
  unfold cast_errors, validation_errors, phone_errors, enum_fee_errors.
  repeat match goal with
  | E : present _ = true |- _ => rewrite (required_present _ _ _ E); clear E
  | E : text_ok _ _ = true |- _ => rewrite (maxlength_text_ok _ _ _ _ E); clear E
  | E : date_ok _ = true |- _ => rewrite (cast_error_date_ok _ _ E); clear E
  | E : past _ _ = true |- _ => rewrite (not_in_future_past _ _ E); clear E
  | E : email_path_ok _ = true |- _ => rewrite (matches_email _ E); clear E
  end.
  split; [reflexivity|]. cbn [app]. now rewrite app_nil_r, <- !app_assoc.
Qed.

Lemma create_run (now : Z) (newId : ObjectId.t) (data : paths) (w : world) :
  others_ok now (apply_setters data) = true ->
  phone_errors (apply_setters data) = [] ->
  enum_fee_errors (apply_setters data) = [] ->
  create now newId data w =
  (Return (set_paths (apply_setters data) (defaults newId now)),
   stored (set_customers
             (customers (store w) ++ [set_paths (apply_setters data) (defaults newId now)])
             (store w))
          (logged (Write Customers) w)).
Proof.
  intros Ho Hp He. destruct (others_ok_errors _ _ Ho) as [Hc Hv].
  unfold create. rewrite Hc, Hv, Hp, He. reflexivity.
Qed.

Lemma create_rejects (now : Z) (newId : ObjectId.t) (data : paths) (w : world) :
  others_ok now (apply_setters data) = true ->
  phone_errors (apply_setters data) = [] ->
  enum_fee_errors (apply_setters data) <> [] ->
  create now newId data w =
  (Throw (ValidationError (enum_fee_errors (apply_setters data))), w).
Proof.
  intros Ho Hp He. destruct (others_ok_errors _ _ Ho) as [Hc Hv].
  unfold create. rewrite Hc, Hv, Hp. cbn [app].
  destruct (enum_fee_errors (apply_setters data)); [contradiction | reflexivity].
Qed.

Lemma update_run (now : Z) (id : string) (o : ObjectId.t) (data : paths) (w : world) :
  ObjectId.cast id = Some o ->
  others_ok now (apply_setters data) = true ->
  phone_errors (apply_setters data) = [] ->
  enum_fee_errors (apply_setters data) = [] ->
  findByIdAndUpdate now id data w =
  match find (by_id o) (customers (store w)) with
  | None => (Return None, logged (Write Customers) w)
  | Some c =>
    (Return (Some (set_paths (apply_setters data) c)),
     stored (set_customers
               (replace (set_paths (apply_setters data) c) (customers (store w)))
               (store w))
            (logged (Write Customers) w))
  end.
Proof.
  intros Hcast Ho Hp He. destruct (others_ok_errors _ _ Ho) as [Hc Hv].
  unfold findByIdAndUpdate.
  rewrite (bind_return _ _ _ _ _ (cast_id_run _ _ _ w Hcast)).
  rewrite Hc, Hv, Hp, He. cbn [app]. unfold bind, log, get_db. cbn [store logged].
  now destruct (find (by_id o) (customers (store w))).
Qed.

Lemma update_rejects (now : Z) (id : string) (o : ObjectId.t) (data : paths) (w : world) :
  ObjectId.cast id = Some o ->
  others_ok now (apply_setters data) = true ->
  phone_errors (apply_setters data) = [] ->
  enum_fee_errors (apply_setters data) <> [] ->
  findByIdAndUpdate now id data w =
  (Throw (ValidationError (enum_fee_errors (apply_setters data))), w).
Proof.
  intros Hcast Ho Hp He. destruct (others_ok_errors _ _ Ho) as [Hc Hv].
  unfold findByIdAndUpdate.
  rewrite (bind_return _ _ _ _ _ (cast_id_run _ _ _ w Hcast)).
  rewrite Hc, Hv, Hp. cbn [app].
  destruct (enum_fee_errors (apply_setters data)); [contradiction | reflexivity].
Qed.

End CustomerFacts.

(** ** Facts about the customer routes *)

Module CustomerRouteFacts.
Import CustomerModel CustomerRoutes.

Lemma truthy_text (v : jsstr) : truthy v = Js.truthy (text v).
Proof. now destruct v. Qed.

Lemma trimmed_not_empty (s : string) :
  String.eqb (Js.trim s) "" = false -> Js.truthy s = true.
Proof. destruct s; [discriminate | reflexivity]. Qed.

Lemma filled_truthy (max : nat) (v : jsstr) : filled max v = true -> truthy v = true.
Proof.
  destruct v as [| |s]; try discriminate. cbn [filled truthy].
  intros H. apply andb_prop in H as [H _]. apply negb_true_iff in H.
  now apply trimmed_not_empty.
Qed.

Lemma filled_any_truthy (v : jsstr) : filled_any v = true -> truthy v = true.
Proof.
  destruct v as [| |s]; try discriminate. cbn [filled_any truthy].
  intros H. apply negb_true_iff in H. now apply trimmed_not_empty.
Qed.

Lemma reference_truthy (v : jsstr) : reference_ok v = true -> truthy v = true.
Proof.
  destruct v as [| |s]; try discriminate. cbn [reference_ok truthy]. intros H.
  unfold Js.truthy. now rewrite (isValid_not_empty _ H).
Qed.

Lemma phone_truthy (v : jsstr) : phone_ok (text v) = true -> truthy v = true.
Proof.
  rewrite truthy_text. destruct (text v); [discriminate | reflexivity].
Qed.

Lemma filled_paths (max : nat) (v : jsstr) :
  filled max v = true ->
  present (trim1 (Some (Js.trim (text v)))) = true
  /\ text_ok max (lift (trim1 (Some (Js.trim (text v))))) = true.
Proof.
  destruct v as [| |s]; try discriminate. cbn [filled text trim1 option_map lift present text_ok].
  rewrite JsFacts.trim_idem. intros H. now apply andb_prop in H.
Qed.

Lemma filled_any_paths (v : jsstr) :
  filled_any v = true -> present (trim1 (trim_or_null v)) = true.
Proof.
  intros H. pose proof (filled_any_truthy _ H) as Ht.
  destruct v as [| |s]; try discriminate. cbn [filled_any truthy] in *.
  cbn [trim_or_null]. rewrite Ht. cbn [trim1 option_map present].
  now rewrite JsFacts.trim_idem.
Qed.

Lemma short_paths (max : nat) (v : jsstr) :
  short max v = true -> text_ok max (trim2 (Some (trim_or_null v))) = true.
Proof.
  destruct v as [| |s]; try reflexivity. cbn [short trim_or_null].
  destruct (Js.truthy s); [|reflexivity].
  cbn [trim2 option_map text_ok]. now rewrite JsFacts.trim_idem.
Qed.

Lemma email_paths (v : jsstr) :
  email_field_ok v = true ->
  email_path_ok (option_map (option_map (fun s => Js.toLowerCase (Js.trim s)))
                            (Some (trim_or_null v))) = true.
Proof.
  destruct v as [| |s]; try reflexivity. cbn [email_field_ok trim_or_null].
  destruct (Js.truthy s); [|reflexivity].
  cbn [option_map email_path_ok]. now rewrite JsFacts.trim_idem.
Qed.

Lemma birth_paths (now : Z) (v : jsdate) :
  birth_ok now v = true ->
  date_ok (Some (date_or_null v)) = true /\ past now (Some (date_or_null v)) = true.
Proof. destruct v as [| |[t|]]; cbn; auto. Qed.

Lemma date_paths (v : jsdate) :
  date_field_ok v = true -> date_ok (Some (date_or_null v)) = true.
Proof. now destruct v as [| |[t|]]. Qed.

Lemma digit_not_space (c : ascii) : Js.isDigit c = true -> Js.isWhiteSpace c = false.
Proof.
  unfold Js.isDigit, Js.isWhiteSpace. intros H. apply andb_prop in H as [H1 H2].
  apply Nat.leb_le in H1, H2.
  destruct (Nat.leb_spec 9 (Js.code c)), (Nat.leb_spec (Js.code c) 13),
           (Nat.eqb_spec (Js.code c) 32), (Nat.eqb_spec (Js.code c) 160);
    cbn; try reflexivity; lia.
Qed.

Lemma dropWhile_none {A} (p : A -> bool) (l : list A) :
  (forall x, In x l -> p x = false) -> Js.dropWhile p l = l.
Proof.
  destruct l as [|x l]; [reflexivity|]. intros H. cbn.
  now rewrite (H x (or_introl eq_refl)).
Qed.

Lemma trim_digits (s : string) :
  forallb Js.isDigit (Js.chars s) = true -> Js.trim s = s.
Proof.
  intros H. rewrite forallb_forall in H.
  assert (Hws : forall x, In x (Js.chars s) -> Js.isWhiteSpace x = false)
    by (intros x Hx; apply digit_not_space, H, Hx).
  unfold Js.trim, Js.trimStart, Js.trimEnd.
  rewrite (dropWhile_none _ _ Hws), dropWhile_none.
  - rewrite rev_involutive. apply JsFacts.str_chars.
  - intros x Hx. apply Hws. now apply in_rev.
Qed.

Lemma phone_paths (v : jsstr) :
  phone_ok (text v) = true ->
  required "phone" "Phone number is required" (trim1 (Some (Js.trim (text v)))) = []
  /\ matches "phone" "Please enter a valid 10-digit phone number" phone_ok
       (lift (trim1 (Some (Js.trim (text v))))) = [].
Proof.
  intros H. pose proof H as H'. unfold phone_ok in H'. apply andb_prop in H' as [Hlen Hd].
  cbn [trim1 option_map lift required matches].
  rewrite !(trim_digits _ Hd), H, orb_true_r.
  destruct (text v); [discriminate | now split].
Qed.

(** An accepted body gives the model paths that pass every validator but,
    possibly, those of the enumerated paths and of [fees]. *)
Lemma rest_ok_paths (now : Z) (b : body) (sc ssc : option ObjectId.t) :
  rest_ok now b = true ->
  phone_ok (text (phone b)) = true ->
  others_ok now (apply_setters (customerData (normalize b) sc ssc)) = true
  /\ phone_errors (apply_setters (customerData (normalize b) sc ssc)) = [].
Proof.
  unfold rest_ok. intros H Hphone. repeat (apply andb_prop in H as [H ?]).
  assert (E : forall f : body -> jsstr,
             (f = name \/ f = phone \/ f = address \/ f = email \/ f = city \/ f = state
              \/ f = zipCode \/ f = serviceCategoryName \/ f = serviceNumber
              \/ f = gstNumber \/ f = notes) -> f (normalize b) = f b).
  { intros f Hf. unfold normalize. destruct (negb (truthy (serviceSubCategory b)));
      [|reflexivity]. repeat destruct Hf as [->|Hf]; try subst f; reflexivity. }
  assert (Ed : dateOfBirth (normalize b) = dateOfBirth b
               /\ deliveryDate (normalize b) = deliveryDate b
               /\ nextRenewalDate (normalize b) = nextRenewalDate b).
  { unfold normalize. now destruct (negb (truthy (serviceSubCategory b))). }
  destruct Ed as (Ed1 & Ed2 & Ed3).
  unfold others_ok, phone_errors, apply_setters, customerData.
  cbn [p_name p_email p_phone p_dateOfBirth p_address p_city p_state p_zipCode
       p_serviceCategoryName p_serviceNumber p_gstNumber p_deliveryDate
       p_nextRenewalDate p_notes].
  rewrite !E by tauto. rewrite Ed1, Ed2, Ed3.
  destruct (filled_paths _ _ H) as [-> ->].
  match goal with X : filled 500 _ = true |- _ => destruct (filled_paths _ _ X) as [-> ->] end.
  match goal with X : filled_any _ = true |- _ => rewrite (filled_any_paths _ X) end.
  match goal with X : email_field_ok _ = true |- _ => rewrite (email_paths _ X) end.
  match goal with X : birth_ok _ _ = true |- _ => destruct (birth_paths _ _ X) as [-> ->] end.
  repeat match goal with
  | X : short _ _ = true |- _ => rewrite (short_paths _ _ X); clear X
  | X : date_field_ok _ = true |- _ => rewrite (date_paths _ X); clear X
  end.
  destruct (phone_paths _ Hphone) as [-> ->]. split; reflexivity.
Qed.

End CustomerRouteFacts.

Module CustomerRouteFacts2.
Import CustomerModel CustomerRoutes CustomerRouteFacts.

Lemma objectId_or_null_run (v : jsstr) (x : option ObjectId.t) (w : world) :
  object_id v = Some x -> objectId_or_null v w = (Return x, w).
Proof.
  unfold object_id, objectId_or_null, new_ObjectId. destruct (truthy v).
  - destruct (ObjectId.cast (text v)); [|discriminate]. now intros [= <-].
  - now intros [= <-].
Qed.

Lemma objectId_or_null_fails (v : jsstr) (w : world) :
  object_id v = None -> objectId_or_null v w = (Throw BSONTypeError, w).
Proof.
  unfold object_id, objectId_or_null, new_ObjectId. destruct (truthy v); [|discriminate].
  now destruct (ObjectId.cast (text v)).
Qed.

Lemma normalize_subcategory (b : body) :
  subcategory_malformed b = false ->
  object_id (serviceSubCategory (normalize b)) =
  Some (if truthy (serviceSubCategory (normalize b))
        then ObjectId.cast (text (serviceSubCategory (normalize b))) else None).
Proof.
  unfold subcategory_malformed, normalize, object_id.
  destruct (serviceSubCategory b) as [| |s] eqn:E; cbn [truthy negb]; try reflexivity.
  destruct (Js.truthy s) eqn:Et; cbn [negb andb]; [|reflexivity].
  rewrite E. cbn [truthy text]. rewrite Et. intros H. apply negb_false_iff in H.
  now rewrite (isValid_cast _ H).
Qed.

Lemma normalize_serviceCategory (b : body) :
  serviceCategory (normalize b) = serviceCategory b.
Proof. unfold normalize. now destruct (negb (truthy (serviceSubCategory b))). Qed.

Lemma normalize_enums (b : body) :
  status (normalize b) = status b /\ gstStatus (normalize b) = gstStatus b
  /\ deliveryStatus (normalize b) = deliveryStatus b /\ fees (normalize b) = fees b.
Proof. unfold normalize. now destruct (negb (truthy (serviceSubCategory b))). Qed.

Lemma normalize_required (b : body) :
  requiredFields (normalize b) = requiredFields b.
Proof. unfold normalize. now destruct (negb (truthy (serviceSubCategory b))). Qed.

Lemma rest_ok_missing (now : Z) (b : body) :
  rest_ok now b = true -> phone_ok (text (phone b)) = true ->
  missingFields (normalize b) = [].
Proof.
  unfold rest_ok. intros H Hp. repeat (apply andb_prop in H as [H ?]).
  unfold missingFields. rewrite normalize_required. unfold requiredFields.
  cbn [filter snd map].
  rewrite (filled_truthy _ _ H), (phone_truthy _ Hp).
  repeat match goal with
  | X : filled _ _ = true |- _ => rewrite (filled_truthy _ _ X); clear X
  | X : filled_any _ = true |- _ => rewrite (filled_any_truthy _ X); clear X
  | X : reference_ok _ = true |- _ => rewrite (reference_truthy _ X); clear X
  end.
  reflexivity.
Qed.

Lemma rest_ok_subcategory (now : Z) (b : body) :
  rest_ok now b = true -> subcategory_malformed b = false.
Proof.
  unfold rest_ok. intros H. repeat (apply andb_prop in H as [H ?]).
  now apply negb_true_iff.
Qed.

Lemma rest_ok_serviceCategory (now : Z) (b : body) :
  rest_ok now b = true ->
  object_id (serviceCategory (normalize b)) =
  Some (ObjectId.cast (text (serviceCategory (normalize b)))).
Proof.
  unfold rest_ok. intros H. repeat (apply andb_prop in H as [H ?]).
  rewrite normalize_serviceCategory. unfold object_id.
  match goal with X : reference_ok _ = true |- _ =>
    rewrite (reference_truthy _ X); destruct (serviceCategory b) as [| |s]; try discriminate;
    cbn [reference_ok text] in *; now rewrite (isValid_cast _ X) end.
Qed.

Lemma create_paths_enum_fee_errors (b : body) (sc ssc : option ObjectId.t) :
  enum_fee_errors (apply_setters (customerData (normalize b) sc ssc)) =
  create_enum_fee_errors b.
Proof.
  destruct (normalize_enums b) as (E1 & E2 & E3 & E4).
  unfold enum_fee_errors, create_enum_fee_errors, apply_setters, customerData.
  cbn [p_status p_fees p_gstStatus p_deliveryStatus]. now rewrite E1, E2, E3, E4.
Qed.

(** POST on a body that is in order but for the enumerated fields and
    [fees]: the answer is decided by their validators alone. *)
Lemma create_customer_run (now : Z) (newId : ObjectId.t) (b : body) (d : db) :
  rest_ok now b = true ->
  phone_ok (text (phone b)) = true ->
  handle (create_customer now newId b) d =
  match create_enum_fee_errors b with
  | [] => (Created (new_customer now newId b),
           set_customers (customers d ++ [new_customer now newId b]) d,
           [Write Customers])
  | errs => (BadRequest (ValidationFailed errs), d, [])
  end.
Proof.
  intros Hrest Hphone.
  pose proof (rest_ok_paths now b
    (ObjectId.cast (text (serviceCategory (normalize b))))
    (if truthy (serviceSubCategory (normalize b))
     then ObjectId.cast (text (serviceSubCategory (normalize b))) else None)
    Hrest Hphone) as [Ho Hp].
  assert (Hph : phone_ok (text (phone (normalize b))) = true).
  { unfold normalize. now destruct (negb (truthy (serviceSubCategory b))). }
  destruct (create_enum_fee_errors b) as [|e errs] eqn:E.
  - apply handle_return. unfold create_customer, catch_create. apply catch_return.
    rewrite (rest_ok_subcategory _ _ Hrest), (rest_ok_missing _ _ Hrest Hphone), Hph.
    cbn [negb].
    rewrite (bind_return _ _ _ _ _
               (objectId_or_null_run _ _ _ (rest_ok_serviceCategory _ _ Hrest))).
    rewrite (bind_return _ _ _ _ _
               (objectId_or_null_run _ _ _
                  (normalize_subcategory _ (rest_ok_subcategory _ _ Hrest)))).
    erewrite bind_return; cycle 1.
    { apply CustomerFacts.create_run; [exact Ho | exact Hp |].
      now rewrite create_paths_enum_fee_errors. }
    reflexivity.
  - unfold handle, create_customer, catch_create.
    erewrite catch_throw; cycle 1.
    { rewrite (rest_ok_subcategory _ _ Hrest), (rest_ok_missing _ _ Hrest Hphone), Hph.
      cbn [negb].
      rewrite (bind_return _ _ _ _ _
                 (objectId_or_null_run _ _ _ (rest_ok_serviceCategory _ _ Hrest))).
      rewrite (bind_return _ _ _ _ _
                 (objectId_or_null_run _ _ _
                    (normalize_subcategory _ (rest_ok_subcategory _ _ Hrest)))).
      erewrite bind_throw; [reflexivity|].
      apply CustomerFacts.create_rejects; [exact Ho | exact Hp |].
      rewrite create_paths_enum_fee_errors, E. discriminate. }
    rewrite create_paths_enum_fee_errors, E. reflexivity.
Qed.

End CustomerRouteFacts2.

Module CustomerRouteFacts3.
Import CustomerModel CustomerRoutes CustomerRouteFacts CustomerRouteFacts2.

Lemma or_default_falsy (v : jsstr) (fallback : string) :
  truthy v = false -> or_default v fallback = fallback.
Proof. destruct v as [| |s]; try reflexivity. cbn [truthy or_default]. now intros ->. Qed.

Lemma or_default_truthy (v : jsstr) (fallback : string) :
  truthy v = true -> or_default v fallback = text v.
Proof. destruct v as [| |s]; try discriminate. cbn [truthy or_default text]. now intros ->. Qed.

(** The validator of an enumerated path on what the routes hand it. *)
Lemma enum_or_default (path : string) (values : list string) (v : jsstr) (fallback : string) :
  includes values fallback = true ->
  enum path values (Some (or_default v fallback)) =
  if enum_field_ok values v then []
  else [(path, ("`" ++ text v ++ "` is not a valid enum value for path `" ++ path ++ "`.")%string)].
Proof.
  intros Hd. unfold enum_field_ok, enum. destruct (truthy v) eqn:Et; cbn [negb orb].
  - rewrite (or_default_truthy _ _ Et). now destruct (includes values (text v)).
  - rewrite (or_default_falsy _ _ Et), Hd. reflexivity.
Qed.

Lemma min0_number_or_zero (n : jsnum) :
  min0 "fees" "Fees cannot be negative" (Some (number_or_zero n)) =
  if fees_field_ok (Some n) then [] else [("fees", "Fees cannot be negative")%string].
Proof.
  unfold min0, number_or_zero, fees_field_ok. destruct n as [|q]; [reflexivity|].
  destruct (Qeq_bool q 0) eqn:E; [|reflexivity].
  apply Qeq_bool_iff in E.
  assert (H : Qle_bool 0 q = true) by (apply Qle_bool_iff; rewrite E; apply Qle_refl).
  now rewrite H.
Qed.

Lemma create_errors_nil (b : body) :
  enums_and_fees_ok b = true <-> create_enum_fee_errors b = [].
Proof.
  unfold enums_and_fees_ok, create_enum_fee_errors.
  rewrite !enum_or_default by reflexivity.
  assert (F : min0 "fees" "Fees cannot be negative"
                (Some (number_or_zero match fees b with Some n => n | None => NaN end)) =
              if fees_field_ok (fees b) then [] else [("fees", "Fees cannot be negative")%string]).
  { destruct (fees b) as [n|]; [apply min0_number_or_zero | reflexivity]. }
  rewrite F.
  destruct (enum_field_ok statuses (status b)), (fees_field_ok (fees b)),
           (enum_field_ok gstStatuses (gstStatus b)),
           (enum_field_ok deliveryStatuses (deliveryStatus b));
    cbn; split; intros; congruence.
Qed.

Lemma update_errors_nil (b : body) :
  enums_and_fees_ok b = true <-> update_enum_fee_errors b = [].
Proof.
  unfold enums_and_fees_ok, update_enum_fee_errors.
  rewrite !enum_or_default by reflexivity.
  assert (F : min0 "fees" "Fees cannot be negative" (option_map number_or_zero (fees b)) =
              if fees_field_ok (fees b) then [] else [("fees", "Fees cannot be negative")%string]).
  { destruct (fees b) as [n|]; [apply min0_number_or_zero | reflexivity]. }
  rewrite F.
  destruct (enum_field_ok statuses (status b)), (fees_field_ok (fees b)),
           (enum_field_ok gstStatuses (gstStatus b)),
           (enum_field_ok deliveryStatuses (deliveryStatus b));
    cbn; split; intros; congruence.
Qed.

Lemma update_paths_enum_fee_errors (now : Z) (b : body) (p : paths) :
  update_paths now b = Some p -> enum_fee_errors p = update_enum_fee_errors b.
Proof.
  unfold update_paths. destruct (subcategory_malformed b); [discriminate|].
  destruct (object_id (serviceCategory (normalize b))); [|discriminate].
  destruct (object_id (serviceSubCategory (normalize b))); [|discriminate].
  intros [= <-]. destruct (normalize_enums b) as (E1 & E2 & E3 & E4).
  unfold enum_fee_errors, update_enum_fee_errors, apply_setters, updateData.
  cbn [p_status p_fees p_gstStatus p_deliveryStatus]. now rewrite E1, E2, E3, E4.
Qed.

(** PUT on a body whose other paths are in order. *)
Lemma update_customer_run (now : Z) (id : string) (o : ObjectId.t) (b : body)
    (p : paths) (d : db) :
  ObjectId.cast id = Some o ->
  update_paths now b = Some p ->
  others_ok now p = true ->
  phone_errors p = [] ->
  handle (update_customer now id b) d =
  match update_enum_fee_errors b with
  | [] =>
    match find (by_id o) (customers d) with
    | None => (NotFound "Customer not found", d, [Write Customers])
    | Some c => (Ok (set_paths p c), set_customers (replace (set_paths p c) (customers d)) d,
                 [Write Customers])
    end
  | errs => (BadRequest (ValidationFailed errs), d, [])
  end.
Proof.
  intros Hcast Hpaths Ho Hp.
  pose proof (update_paths_enum_fee_errors _ _ _ Hpaths) as He.
  unfold update_paths in Hpaths.
  destruct (subcategory_malformed b) eqn:Hm; [discriminate|].
  destruct (object_id (serviceCategory (normalize b))) as [sc|] eqn:Hsc; [|discriminate].
  destruct (object_id (serviceSubCategory (normalize b))) as [ssc|] eqn:Hssc; [|discriminate].
  injection Hpaths as <-.
  destruct (update_enum_fee_errors b) as [|e errs] eqn:E.
  - pose proof (CustomerFacts.update_run now id o _ (fresh d) Hcast Ho Hp He) as R.
    cbn [store fresh] in R.
    assert (S : forall k : option Customer -> M (response Customer),
      (bind (objectId_or_null (serviceCategory (normalize b))) (fun sc' =>
       bind (objectId_or_null (serviceSubCategory (normalize b))) (fun ssc' =>
       bind (findByIdAndUpdate now id (updateData now (normalize b) sc' ssc')) k)))
        (fresh d) =
      bind (findByIdAndUpdate now id (updateData now (normalize b) sc ssc)) k (fresh d)).
    { intros k.
      rewrite (bind_return _ _ _ _ _ (objectId_or_null_run _ _ _ Hsc)).
      now rewrite (bind_return _ _ _ _ _ (objectId_or_null_run _ _ _ Hssc)). }
    unfold handle, update_customer, catch_update, try_catch.
    rewrite (cast_isValid _ _ Hcast), Hm. cbn [negb]. rewrite S. unfold bind at 1.
    rewrite R. now destruct (find (by_id o) (customers d)).
  - unfold handle, update_customer, catch_update.
    erewrite catch_throw; cycle 1.
    { rewrite (cast_isValid _ _ Hcast), Hm. cbn [negb].
      rewrite (bind_return _ _ _ _ _ (objectId_or_null_run _ _ _ Hsc)).
      rewrite (bind_return _ _ _ _ _ (objectId_or_null_run _ _ _ Hssc)).
      erewrite bind_throw; [reflexivity|].
      apply (CustomerFacts.update_rejects _ _ _ _ _ Hcast Ho Hp). rewrite He. discriminate. }
    rewrite He. reflexivity.
Qed.

End CustomerRouteFacts3.

(** ** Facts about sorting *)

Module SortFacts.
Import CustomerRoutes.

Section Insertion.
Context {A : Type} (le : A -> A -> bool).
Hypothesis le_total : forall a b, le a b = false -> le b a = true.

Let R (a b : A) : Prop := le a b = true.

Lemma insert_perm (x : A) (l : list A) : Permutation (insert_by le x l) (x :: l).
Proof.
  induction l as [|y l IH]; cbn; [reflexivity|].
  destruct (le x y); [reflexivity|].
  rewrite IH. apply perm_swap.
Qed.

Lemma sort_perm (l : list A) : Permutation (sort_by le l) l.
Proof.
  induction l as [|x l IH]; cbn; [reflexivity|].
  fold (sort_by le l). rewrite insert_perm. now apply perm_skip.
Qed.

Lemma insert_hd (x y : A) (l : list A) :
  R y x -> HdRel R y l -> HdRel R y (insert_by le x l).
Proof.
  intros Hyx Hl. destruct l as [|z l]; cbn; [now constructor|].
  destruct (le x z); constructor; [exact Hyx | now inversion Hl].
Qed.

Lemma insert_sorted (x : A) (l : list A) : Sorted R l -> Sorted R (insert_by le x l).
Proof.
  induction 1 as [|y l Hs IH Hhd]; cbn; [repeat constructor|].
  destruct (le x y) eqn:E.
  - constructor; [now constructor | now constructor].
  - constructor; [exact IH|]. apply insert_hd; [now apply le_total | exact Hhd].
Qed.

Lemma sort_sorted (l : list A) : Sorted R (sort_by le l).
Proof.
  induction l as [|x l IH]; cbn; [constructor|]. now apply insert_sorted.
Qed.
End Insertion.

Lemma bson_leb_total (a b : bson) : bson_leb a b = false -> bson_leb b a = true.
Proof.
  destruct a, b; cbn; try discriminate; try reflexivity.
  - intros H. apply Qle_bool_iff. apply Qlt_le_weak, Qnot_le_lt.
    intros Hle. apply Qle_bool_iff in Hle. congruence.
  - intros H. destruct (String.leb_total s s0) as [E|E]; congruence.
  - intros H. destruct (String.leb_total o o0) as [E|E]; congruence.
  - intros H. apply Z.leb_le. apply Z.leb_gt in H. lia.
Qed.

Lemma order_total (q : query) (key : Customer -> bson) (a b : Customer) :
  order_of q key a b = false -> order_of q key b a = true.
Proof.
  unfold order_of, descending, ascending.
  destruct (String.eqb _ _); apply bson_leb_total.
Qed.

End SortFacts.

(** ** More facts about the regular expressions *)

Module RegExpFacts2.
Import RegExp RegExpFacts.

Lemma strip_split (cs s rest : list ascii) :
  strip cs s = Some rest ->
  exists pre, s = pre ++ rest /\ map Js.toLowerChar pre = map Js.toLowerChar cs.
Proof.
  revert s. induction cs as [|c cs IH]; intros s H.
  - injection H as <-. now exists [].
  - destruct s as [|x s]; [discriminate|]. cbn [strip] in H.
    destruct (Ascii.eqb_spec (canon x) (canon c)) as [E|E]; [|discriminate].
    destruct (IH _ H) as (pre & -> & Hpre). exists (x :: pre). split; [reflexivity|].
    cbn [map]. rewrite Hpre. f_equal. now apply JsFacts.upper_eq_lower_eq.
Qed.

Lemma lower_chars (a b : string) :
  Spec.same_ignoring_case a b = true <->
  map Js.toLowerChar (Js.chars a) = map Js.toLowerChar (Js.chars b).
Proof.
  unfold Spec.same_ignoring_case, Js.toLowerCase. rewrite String.eqb_eq. split; intros H.
  - apply (f_equal Js.chars) in H. now rewrite !JsFacts.chars_str in H.
  - now rewrite H.
Qed.

(** On a subject that does not end with a line feed, [^name$] holds exactly
    when the subject is the name, letter case apart. *)
Lemma test_anchored_same (name subject : string) :
  ends_with_line_feed subject = false ->
  test (Seq Bol (literal (Js.chars name) (Seq Eol Eps))) subject =
  Spec.same_ignoring_case subject name.
Proof.
  intros Hlf. rewrite test_anchored.
  destruct (Spec.same_ignoring_case subject name) eqn:E.
  - apply lower_chars in E. now rewrite (strip_same _ _ E).
  - destruct (strip (Js.chars name) (Js.chars subject)) as [rest|] eqn:S; [|reflexivity].
    destruct (strip_split _ _ _ S) as (pre & Hs & Hpre).
    destruct rest as [|c [|c' rest]]; [| |reflexivity].
    + rewrite app_nil_r in Hs. subst pre. apply lower_chars in Hpre. congruence.
    + unfold ends_with_line_feed in Hlf. rewrite Hs, rev_app_distr in Hlf. exact Hlf.
Qed.

(** The same, for a subject that is the name. *)
Lemma test_anchored_hit (name subject : string) :
  Spec.same_ignoring_case subject name = true ->
  test (Seq Bol (literal (Js.chars name) (Seq Eol Eps))) subject = true.
Proof.
  intros E. rewrite test_anchored. apply lower_chars in E. now rewrite (strip_same _ _ E).
Qed.

End RegExpFacts2.

(** ** Patterns of the fragment *)

Module FragmentFacts.
Import RegExp.

Lemma followed_tail (d : dialect) (c : ascii) (cs : list ascii) :
  followed d (c :: cs) = true -> followed d cs = true.
Proof. cbn [followed]. intros H. now apply andb_prop in H as [_ H]. Qed.

(** The two places where [parse_loop] looks one code unit ahead, by cases on
    that code unit. *)
Lemma after_parenthesis (d : dialect) (cs' : list ascii) (cur : frame) (stack : list frame) :
  match cs' with
  | "?"%char :: _ => OutsideFragment
  | "*"%char :: _ => match d with JS => SyntaxError | PCRE => OutsideFragment end
  | _ => parse_loop d cs' empty_frame (cur :: stack) false
  end =
  match cs' with
  | c' :: _ =>
    if Ascii.eqb c' "?" then OutsideFragment
    else if Ascii.eqb c' "*" then match d with JS => SyntaxError | PCRE => OutsideFragment end
    else parse_loop d cs' empty_frame (cur :: stack) false
  | [] => parse_loop d cs' empty_frame (cur :: stack) false
  end.
Proof.
  destruct cs' as [|c' cs'']; [reflexivity|].
  destruct (Ascii.eqb_spec c' "?") as [->|H1]; [reflexivity|].
  destruct (Ascii.eqb_spec c' "*") as [->|H2]; [reflexivity|].
  destruct c' as [[] [] [] [] [] [] [] []]; try reflexivity; congruence.
Qed.

Lemma after_quantifier (d : dialect) (cs' : list ascii) (cur' : frame) (stack : list frame) :
  match cs' with
  | "?"%char :: cs'' => parse_loop d cs'' cur' stack false
  | "+"%char :: _ => match d with JS => SyntaxError | PCRE => OutsideFragment end
  | _ => parse_loop d cs' cur' stack false
  end =
  match cs' with
  | c' :: cs'' =>
    if Ascii.eqb c' "?" then parse_loop d cs'' cur' stack false
    else if Ascii.eqb c' "+" then match d with JS => SyntaxError | PCRE => OutsideFragment end
    else parse_loop d cs' cur' stack false
  | [] => parse_loop d cs' cur' stack false
  end.
Proof.
  destruct cs' as [|c' cs'']; [reflexivity|].
  destruct (Ascii.eqb_spec c' "?") as [->|H1]; [reflexivity|].
  destruct (Ascii.eqb_spec c' "+") as [->|H2]; [reflexivity|].
  destruct c' as [[] [] [] [] [] [] [] []]; try reflexivity; congruence.
Qed.

(** The parser never gives up on a pattern that is followed. *)
Lemma followed_parse (d : dialect) (n : nat) :
  forall cs cur stack q,
    length cs <= n -> followed d cs = true ->
    parse_loop d cs cur stack q <> OutsideFragment.
Proof.
  induction n as [|n IH]; intros cs cur stack q Hlen Hf.
  - destruct cs; [|cbn in Hlen; lia]. cbn. now destruct stack.
  - destruct cs as [|c cs']; [cbn; now destruct stack|].
    cbn [length] in Hlen. assert (Hn : length cs' <= n) by lia.
    pose proof (followed_tail _ _ _ Hf) as Hf'.
    cbn [followed] in Hf. apply andb_prop in Hf as [Hf _].
    apply andb_prop in Hf as [Hc Hnext]. apply negb_true_iff in Hc.
    cbn [parse_loop].
    destruct (Ascii.eqb c "(") eqn:Hparen.
    { rewrite after_parenthesis. destruct cs' as [|c' cs'']; [now apply IH|].
      cbn [andb] in Hnext. apply andb_prop in Hnext as [H1 H2].
      apply negb_true_iff in H1. rewrite H1.
      destruct (Ascii.eqb c' "*") eqn:Hstar; [|now apply IH].
      destruct d; [discriminate|]. cbn in H2. discriminate. }
    destruct (Ascii.eqb c ")"). { destruct stack; [discriminate|now apply IH]. }
    destruct (Ascii.eqb c "|"). { now apply IH. }
    destruct (isQuantifier c) eqn:Hq.
    { destruct q; [|discriminate]. destruct (terms cur); [discriminate|].
      rewrite after_quantifier. destruct cs' as [|c' cs'']; [now apply IH|].
      destruct (Ascii.eqb c' "?") eqn:Hlazy.
      - apply IH; [cbn [length] in Hn; lia | now apply followed_tail in Hf'].
      - destruct (Ascii.eqb c' "+") eqn:Hplus; [|now apply IH].
        destruct d; [discriminate|].
        apply andb_prop in Hnext as [_ H2]. cbn in H2. discriminate. }
    destruct (Ascii.eqb c "^"). { now apply IH. }
    destruct (Ascii.eqb c "$"). { now apply IH. }
    destruct (Ascii.eqb c "."). { now apply IH. }
    rewrite Hc. now apply IH.
Qed.

Lemma followed_compile (d : dialect) (pattern : string) :
  followed d (Js.chars pattern) = true -> compile d pattern <> OutsideFragment.
Proof. intros H. unfold compile. now apply (followed_parse d (length (Js.chars pattern))). Qed.

(** A followed name between its anchors. *)
Lemma followed_end (d : dialect) (cs : list ascii) :
  followed d cs = true -> followed d (cs ++ ["$"%char]) = true.
Proof.
  induction cs as [|c cs IH]; intros H; [reflexivity|].
  pose proof (followed_tail _ _ _ H) as Ht.
  cbn [followed app] in *. rewrite (IH Ht), andb_true_r.
  apply andb_prop in H as [H _]. apply andb_prop in H as [Hc Hnext]. rewrite Hc.
  destruct cs as [|c' cs']; [|exact Hnext].
  cbn [app andb]. change (Ascii.eqb "$" "?") with false. change (Ascii.eqb "$" "*") with false.
  change (Ascii.eqb "$" "+") with false. rewrite !andb_false_r. now destruct d.
Qed.

Lemma followed_anchored (name : string) :
  followed JS (Js.chars name) = true ->
  compile JS ("^" ++ name ++ "$")%string <> OutsideFragment.
Proof.
  intros H. apply followed_compile. rewrite !RegExpFacts.chars_append.
  change (Js.chars "^") with ["^"%char]. change (Js.chars "$") with ["$"%char].
  apply followed_end in H. cbn [app]. cbn [followed]. rewrite H.
  change (isUnsupported "^") with false. change (Ascii.eqb "^" "(") with false.
  cbn [negb andb]. now destruct (Js.chars name ++ ["$"%char]).
Qed.

End FragmentFacts.
(** ** Facts about the category routes *)

Module CategoryRouteFacts.
Import CategoryRoutes SubCategoryRouteFacts RegExpFacts RegExpFacts2.

Lemma find_some_in {A} (p : A -> bool) (l : list A) (x : A) :
  In x l -> p x = true -> exists y, find p l = Some y.
Proof.
  induction l as [|z l IH]; intros [] Hp; cbn.
  - subst. rewrite Hp. now eexists.
  - destruct (p z); [now eexists | now apply IH].
Qed.

Lemma category_insert_run (c c' : Category) (w : world) :
  CategoryModel.validate c = inl c' ->
  CategoryModel.name_taken c' (categories (store w)) = false ->
  CategoryModel.insert c w =
  (Return c',
   stored (CategoryModel.set_categories (categories (store w) ++ [c']) (store w))
          (logged (Write Categories) w)).
Proof.
  intros Hv Ht. unfold CategoryModel.insert. rewrite Hv. unfold bind, log, get_db.
  cbn [store logged]. rewrite Ht. reflexivity.
Qed.

Lemma validation_errors_nil (b : body) :
  Js.trim (or_empty (name b)) <> ""%string -> validation_errors b = [].
Proof.
  intros H. unfold validation_errors. cbn [sanitize name or_empty].
  apply String.eqb_neq in H. now rewrite H.
Qed.

(** The three routes that take an identifier do not check its form: a
    malformed one makes the query raise a cast error, which the [catch]
    block answers with a 500. *)
Lemma get_category_malformed (id : string) (d : db) :
  ObjectId.isValid id = false ->
  handle (get_category id) d = (ServerError "Server error", d, []).
Proof.
  intros H. unfold handle, get_category, catch_all.
  erewrite catch_throw
    by (now rewrite (bind_throw _ _ _ _ _ (CategoryFacts.category_findById_fails _ _ H))).
  reflexivity.
Qed.

Lemma delete_category_malformed (id : string) (d : db) :
  ObjectId.isValid id = false ->
  handle (delete_category id) d = (ServerError "Failed to delete category", d, []).
Proof.
  intros H. unfold handle, delete_category, catch_all.
  erewrite catch_throw
    by (now rewrite (bind_throw _ _ _ _ _ (CategoryFacts.category_findById_fails _ _ H))).
  reflexivity.
Qed.

Lemma update_category_malformed (id : string) (b : body) (d : db) :
  ObjectId.isValid id = false ->
  validation_errors b = [] ->
  handle (update_category id b) d = (ServerError "Failed to update category", d, []).
Proof.
  intros H Hb. unfold handle, update_category, catch_all.
  rewrite Hb.
  erewrite catch_throw
    by (now rewrite (bind_throw _ _ _ _ _ (CategoryFacts.category_findById_fails _ _ H))).
  reflexivity.
Qed.

(** For a name without pattern syntax the duplicate check does what its
    comment says: a stored category with that name, letter case apart, makes
    the creation fail with the duplicate-name error. *)
Lemma create_category_duplicate_plain
    (now : Z) (newId : ObjectId.t) (b : body) (d : db) (c : Category) :
  Js.trim (or_empty (name b)) <> ""%string ->
  RegExp.plain (Js.trim (or_empty (name b))) = true ->
  In c (categories d) ->
  Spec.same_ignoring_case (cat_name c) (Js.trim (or_empty (name b))) = true ->
  handle (create_category now newId b) d =
  (BadRequest (ErrorMsg "Category with this name already exists"), d, [Read Categories]).
Proof.
  intros Hname Hplain Hin Hsame.
  apply handle_return. unfold create_category. apply catch_all_return.
  rewrite (validation_errors_nil _ Hname). cbn [sanitize name url or_empty].
  erewrite bind_return
    by (apply new_RegExp_run; unfold name_pattern; apply (compile_anchored _ _ Hplain)).
  rewrite (bind_return _ _ _ _ _ (CategoryFacts.category_findOne_run _ _)).
  cbn [store logged fresh].
  destruct (find_some_in (name_matches (RegExp.Seq RegExp.Bol
              (RegExp.literal (Js.chars (Js.trim (or_empty (name b))))
                 (RegExp.Seq RegExp.Eol RegExp.Eps)))) _ c Hin) as [y ->].
  - unfold name_matches. now apply test_anchored_hit.
  - reflexivity.
Qed.

(** And when no stored name is that name, letter case apart (stored names
    are trimmed, so none ends with a line feed), the category is created. *)
Lemma create_category_fresh_plain
    (now : Z) (newId : ObjectId.t) (b : body) (d : db) :
  Js.trim (or_empty (name b)) <> ""%string ->
  RegExp.plain (Js.trim (or_empty (name b))) = true ->
  (forall c, In c (categories d) ->
     RegExp.ends_with_line_feed (cat_name c) = false
     /\ Spec.same_ignoring_case (cat_name c) (Js.trim (or_empty (name b))) = false) ->
  let c := {| cat_id := newId; cat_name := Js.trim (or_empty (name b));
              cat_url := Js.trim (or_empty (url b)); cat_createdAt := now |} in
  handle (create_category now newId b) d =
  (Created c, CategoryModel.set_categories (categories d ++ [c]) d,
   [Read Categories; Write Categories]).
Proof.
  intros Hname Hplain Hnone c.
  assert (Hfind : find (name_matches (RegExp.Seq RegExp.Bol
              (RegExp.literal (Js.chars (Js.trim (or_empty (name b))))
                 (RegExp.Seq RegExp.Eol RegExp.Eps)))) (categories d) = None).
  { apply find_none_iff. intros x Hx. destruct (Hnone x Hx) as [Hlf Hdiff].
    unfold name_matches. now rewrite (test_anchored_same _ _ Hlf). }
  assert (Hfree : CategoryModel.name_taken c (categories d) = false).
  { apply existsb_false_iff. intros x Hx. destruct (Hnone x Hx) as [_ Hdiff].
    cbn [cat_name cat_id c].
    destruct (String.eqb_spec (cat_name x) (Js.trim (or_empty (name b)))) as [E|E];
      [|apply andb_false_r].
    unfold Spec.same_ignoring_case in Hdiff. rewrite E, String.eqb_refl in Hdiff.
    discriminate. }
  assert (Hval : CategoryModel.validate
            {| cat_id := newId; cat_name := Js.trim (or_empty (name b));
               cat_url := or_empty (option_map Js.trim (url b)); cat_createdAt := now |}
            = inl c).
  { unfold CategoryModel.validate. cbn [cat_name cat_id cat_url cat_createdAt].
    rewrite JsFacts.trim_idem.
    assert (E : Js.trim (or_empty (option_map Js.trim (url b))) = Js.trim (or_empty (url b))).
    { destruct (url b); cbn [option_map or_empty];
        [apply JsFacts.trim_idem | reflexivity]. }
    rewrite E. apply String.eqb_neq in Hname. now rewrite Hname. }
  apply handle_return. unfold create_category. apply catch_all_return.
  rewrite (validation_errors_nil _ Hname). cbn [sanitize name url or_empty].
  erewrite bind_return
    by (apply new_RegExp_run; unfold name_pattern; apply (compile_anchored _ _ Hplain)).
  rewrite (bind_return _ _ _ _ _ (CategoryFacts.category_findOne_run _ _)).
  cbn [store logged fresh]. rewrite Hfind.
  erewrite bind_return by (apply (category_insert_run _ _ _ Hval); exact Hfree).
  reflexivity.
Qed.

End CategoryRouteFacts.
(** ** Facts about the subcategory routes *)

Module SubCategoryRouteFacts2.
Import SubCategoryRoutes SubCategoryRouteFacts RegExpFacts RegExpFacts2.

(** POST, once the validators have passed and neither the duplicate check nor
    the unique index finds a conflict. *)
Lemma create_subcategory_accepts
    (now : Z) (newId : ObjectId.t) (b : body) (d : db)
    (cid : string) (o : ObjectId.t) (c : Category) (r : RegExp.regex) :
  categoryId b = Some cid ->
  ObjectId.cast cid = Some o ->
  find (CategoryModel.by_id o) (categories d) = Some c ->
  Js.trim (or_empty (name b)) <> ""%string ->
  RegExp.compile RegExp.JS (name_pattern (Js.trim (or_empty (name b)))) = RegExp.Compiled r ->
  (forall s, In s (subcategories d) -> sub_category s = o ->
             RegExp.test r (sub_name s) = false
             /\ sub_name s <> Js.trim (or_empty (name b))) ->
  (forall s, In s (subcategories d) -> sub_id s <> newId) ->
  let s := {| sub_id := newId; sub_name := Js.trim (or_empty (name b));
              sub_category := o;
              sub_description := Js.trim (or_empty (description b));
              sub_createdAt := now; sub_updatedAt := now |} in
  handle (create_subcategory now newId b) d =
    (Created (Some (s, Some c)),
     SubCategoryModel.set_subcategories (subcategories d ++ [s]) d,
     [Read Categories; Read SubCategories; Write SubCategories;
      Read SubCategories; Read Categories]).
Proof.
  intros Hcid Hcast Hfind Hname Hre Hdup Hfresh s.
  assert (Hnomatch : find (fun s => name_matches r s && SubCategoryModel.in_category o s)
                          (subcategories d) = None).
  { apply find_none_iff. intros x Hx. unfold name_matches, SubCategoryModel.in_category.
    destruct (ObjectId.eqb (sub_category x) o) eqn:E; [|apply andb_false_r].
    apply String.eqb_eq in E. destruct (Hdup x Hx E) as [-> _]. reflexivity. }
  assert (Hfree : SubCategoryModel.pair_taken s (subcategories d) = false).
  { apply existsb_false_iff. intros x Hx. cbn [sub_id sub_name sub_category s].
    destruct (ObjectId.eqb (sub_category x) o) eqn:E; [|apply andb_false_r].
    apply String.eqb_eq in E. destruct (Hdup x Hx E) as [_ Hn].
    apply String.eqb_neq in Hn. rewrite Hn. now rewrite andb_false_r. }
  assert (Hnew : find (SubCategoryModel.by_id newId) (subcategories d) = None).
  { apply find_none_iff. intros x Hx. unfold SubCategoryModel.by_id, ObjectId.eqb.
    apply String.eqb_neq. now apply Hfresh. }
  assert (Hval : SubCategoryModel.validate
            {| sub_id := newId; sub_name := Js.trim (or_empty (name b)); sub_category := o;
               sub_description := or_empty (option_map Js.trim (description b));
               sub_createdAt := now; sub_updatedAt := now |} = inl s).
  { unfold SubCategoryModel.validate. cbn [sub_name sub_id sub_category sub_description
      sub_createdAt sub_updatedAt].
    rewrite JsFacts.trim_idem, trim_description.
    apply String.eqb_neq in Hname. now rewrite Hname. }
  apply handle_return.
  unfold create_subcategory.
  erewrite bind_return
    by (apply catch_return, (categoryId_errors_run _ _ _ _ Hcid Hcast)).
  unfold reference_errors. cbn [store logged fresh]. rewrite Hfind.
  apply catch_all_return. rewrite (name_errors_nil _ Hname). cbn [app].
  cbn [sanitize name categoryId description or_empty]. rewrite Hcid. cbn [or_empty].
  erewrite bind_return by (apply new_RegExp_run; exact Hre).
  erewrite bind_return by (apply cast_id_run; exact Hcast).
  rewrite (bind_return _ _ _ _ _ (SubCategoryFacts.subcategory_findOne_run _ _)).
  cbn [store logged fresh]. rewrite Hnomatch.
  erewrite bind_return by (apply (SubCategoryFacts.insert_run _ _ _ Hval); exact Hfree).
  erewrite bind_return; cycle 1.
  { apply (reload_found s s).
    cbn [store logged stored fresh SubCategoryModel.set_subcategories subcategories sub_id s].
    rewrite (find_app_none _ _ _ Hnew).
    unfold SubCategoryModel.by_id, ObjectId.eqb. cbn [sub_id]. now rewrite String.eqb_refl. }
  cbn [store logged stored fresh SubCategoryModel.set_subcategories categories sub_category s].
  rewrite Hfind. reflexivity.
Qed.

(** For a name without pattern syntax the duplicate check does what its
    comment says, within the category. *)
Lemma create_subcategory_duplicate_plain
    (now : Z) (newId : ObjectId.t) (b : body) (d : db)
    (cid : string) (o : ObjectId.t) (c : Category) (s : SubCategory) :
  categoryId b = Some cid ->
  ObjectId.cast cid = Some o ->
  find (CategoryModel.by_id o) (categories d) = Some c ->
  Js.trim (or_empty (name b)) <> ""%string ->
  RegExp.plain (Js.trim (or_empty (name b))) = true ->
  In s (subcategories d) -> sub_category s = o ->
  Spec.same_ignoring_case (sub_name s) (Js.trim (or_empty (name b))) = true ->
  handle (create_subcategory now newId b) d =
  (BadRequest (ErrorMsg
     "A subcategory with this name already exists in the specified category"),
   d, [Read Categories; Read SubCategories]).
Proof.
  intros Hcid Hcast Hfind Hname Hplain Hin Hcat Hsame.
  apply handle_return. unfold create_subcategory.
  erewrite bind_return
    by (apply catch_return, (categoryId_errors_run _ _ _ _ Hcid Hcast)).
  unfold reference_errors. cbn [store logged fresh]. rewrite Hfind.
  apply catch_all_return. rewrite (name_errors_nil _ Hname). cbn [app].
  cbn [sanitize name categoryId description or_empty]. rewrite Hcid. cbn [or_empty].
  erewrite bind_return
    by (apply new_RegExp_run; unfold name_pattern; apply (compile_anchored _ _ Hplain)).
  erewrite bind_return by (apply cast_id_run; exact Hcast).
  rewrite (bind_return _ _ _ _ _ (SubCategoryFacts.subcategory_findOne_run _ _)).
  cbn [store logged fresh].
  destruct (CategoryRouteFacts.find_some_in
              (fun s => name_matches (RegExp.Seq RegExp.Bol
                 (RegExp.literal (Js.chars (Js.trim (or_empty (name b))))
                    (RegExp.Seq RegExp.Eol RegExp.Eps))) s
                 && SubCategoryModel.in_category o s) _ s Hin) as [y ->].
  - unfold name_matches, SubCategoryModel.in_category, ObjectId.eqb.
    rewrite (test_anchored_hit _ _ Hsame), Hcat. apply String.eqb_refl.
  - reflexivity.
Qed.

(** And when the category holds no subcategory of that name, letter case
    apart, the subcategory is created, whatever the other categories hold. *)
Lemma create_subcategory_fresh_plain
    (now : Z) (newId : ObjectId.t) (b : body) (d : db)
    (cid : string) (o : ObjectId.t) (c : Category) :
  categoryId b = Some cid ->
  ObjectId.cast cid = Some o ->
  find (CategoryModel.by_id o) (categories d) = Some c ->
  Js.trim (or_empty (name b)) <> ""%string ->
  RegExp.plain (Js.trim (or_empty (name b))) = true ->
  (forall s, In s (subcategories d) -> sub_category s = o ->
     RegExp.ends_with_line_feed (sub_name s) = false
     /\ Spec.same_ignoring_case (sub_name s) (Js.trim (or_empty (name b))) = false) ->
  (forall s, In s (subcategories d) -> sub_id s <> newId) ->
  let s := {| sub_id := newId; sub_name := Js.trim (or_empty (name b));
              sub_category := o;
              sub_description := Js.trim (or_empty (description b));
              sub_createdAt := now; sub_updatedAt := now |} in
  handle (create_subcategory now newId b) d =
    (Created (Some (s, Some c)),
     SubCategoryModel.set_subcategories (subcategories d ++ [s]) d,
     [Read Categories; Read SubCategories; Write SubCategories;
      Read SubCategories; Read Categories]).
Proof.
  intros Hcid Hcast Hfind Hname Hplain Hnone Hfresh.
  apply (create_subcategory_accepts now newId b d cid o c _ Hcid Hcast Hfind Hname
           (compile_anchored _ _ Hplain)); [|exact Hfresh].
  intros x Hx Hcat. destruct (Hnone x Hx Hcat) as [Hlf Hdiff]. split.
  - now rewrite (test_anchored_same _ _ Hlf).
  - intros E. unfold Spec.same_ignoring_case in Hdiff.
    rewrite E, String.eqb_refl in Hdiff. discriminate.
Qed.

End SubCategoryRouteFacts2.

Lemma get_customer_malformed (id : string) (d : db) :
  ObjectId.isValid id = false ->
  handle (CustomerRoutes.get_customer id) d = (ServerError "Failed to fetch customer", d, []).
Proof.
  intros H. unfold handle, CustomerRoutes.get_customer, catch_all.
  erewrite catch_throw
    by (now rewrite (bind_throw _ _ _ _ _ (StoreFacts.find_customer_fails _ _ H))).
  reflexivity.
Qed.

(** * The claims *)

(** ** A partial update of a customer *)

Section C1.
Import CustomerModel CustomerRoutes CustomerRouteFacts CustomerRouteFacts2 CustomerRouteFacts3.

(** C1 as stated fails: the stored customer is inactive, paid and
    delivered and has a subcategory; after an update with the payload
    [{ notes: "x" }] its status, gstStatus and deliveryStatus are back to their
    defaults and its subcategory and subcategory name are null. *)
Lemma C1_counterexample :
  exists c',
    handle (update_customer 9 Sample.idC (notes_only "x")) Sample.db_customer =
      (Ok c', set_customers [c'] Sample.db_customer, [Write Customers])
    /\ (cus_status Sample.customer = "Inactive" /\ cus_status c' = "Active")%string
    /\ (cus_gstStatus Sample.customer = "Paid" /\ cus_gstStatus c' = "Not Paid")%string
    /\ (cus_deliveryStatus Sample.customer = "Completed"
        /\ cus_deliveryStatus c' = "Pending")%string
    /\ (cus_serviceSubCategory Sample.customer = Some Sample.idB
        /\ cus_serviceSubCategory c' = None)
    /\ (cus_serviceSubCategoryName Sample.customer = Some "Income tax"%string
        /\ cus_serviceSubCategoryName c' = None).
Proof. eexists. vm_compute. repeat split. Qed.

(** C1, amended. For every stored customer, an update whose payload has only
    [notes] (of at most 2000 characters once trimmed) succeeds; it stores the
    trimmed notes (null for an empty string), sets status, gstStatus and
    deliveryStatus to their defaults, sets serviceSubCategory and
    serviceSubCategoryName to null, sets updatedAt to the time of the
    update, which is later than the former one whenever the clock has moved
    on, and leaves every other field of the stored record unchanged. *)
Theorem C1_update_with_notes_only
    (now : Z) (id : string) (o : ObjectId.t) (s : string) (d : db) (c : Customer) :
  ObjectId.cast id = Some o ->
  find (by_id o) (customers d) = Some c ->
  String.length (Js.trim s) <= 2000 ->
  let c' :=
    {| cus_id := cus_id c; cus_name := cus_name c; cus_dateOfBirth := cus_dateOfBirth c;
       cus_email := cus_email c; cus_phone := cus_phone c; cus_address := cus_address c;
       cus_city := cus_city c; cus_state := cus_state c; cus_zipCode := cus_zipCode c;
       cus_serviceCategory := cus_serviceCategory c;
       cus_serviceCategoryName := cus_serviceCategoryName c;
       cus_serviceSubCategory := None; cus_serviceSubCategoryName := None;
       cus_serviceNumber := cus_serviceNumber c; cus_status := "Active";
       cus_fees := cus_fees c; cus_gstStatus := "Not Paid";
       cus_gstNumber := cus_gstNumber c; cus_deliveryDate := cus_deliveryDate c;
       cus_nextRenewalDate := cus_nextRenewalDate c; cus_deliveryStatus := "Pending";
       cus_notes := if Js.truthy s then Some (Js.trim s) else None;
       cus_createdAt := cus_createdAt c; cus_updatedAt := now |} in
  handle (update_customer now id (notes_only s)) d =
    (Ok c', set_customers (replace c' (customers d)) d, [Write Customers])
  /\ ((cus_updatedAt c < now)%Z -> (cus_updatedAt c < cus_updatedAt c')%Z).
Proof.
  intros Hcast Hfind Hlen c'. split; [|intros H; exact H].
  assert (Hc' : set_paths (apply_setters
                  (updateData now (normalize (notes_only s)) None None)) c = c').
  { unfold c', set_paths, apply_setters, updateData, normalize, notes_only.
    cbn -[Js.truthy]. destruct (Js.truthy s); cbn; [now rewrite JsFacts.trim_idem | reflexivity]. }
  erewrite (update_customer_run now id o _ _ d Hcast); [| reflexivity | |].
  - change (update_enum_fee_errors (notes_only s)) with (@nil (string * string)).
    rewrite Hfind, Hc'. reflexivity.
  - unfold others_ok, apply_setters, updateData, normalize, notes_only.
    cbn -[Js.truthy Nat.leb]. destruct (Js.truthy s); cbn -[Nat.leb]; [|reflexivity].
    rewrite JsFacts.trim_idem. now apply Nat.leb_le.
  - reflexivity.
Qed.

(** C1 at work: the stored customer of the sample, updated at 9. *)
Lemma C1_witness :
  exists c',
    handle (update_customer 9 Sample.idC (notes_only "x")) Sample.db_customer =
      (Ok c', set_customers (replace c' (customers Sample.db_customer)) Sample.db_customer,
       [Write Customers])
    /\ cus_notes c' = Some "x"%string
    /\ cus_name c' = cus_name Sample.customer
    /\ (cus_updatedAt Sample.customer < cus_updatedAt c')%Z.
Proof.
  destruct (C1_update_with_notes_only 9 Sample.idC Sample.idC "x" Sample.db_customer
              Sample.customer eq_refl eq_refl) as [H1 H2].
  - cbv. lia.
  - eexists. split; [exact H1|]. split; [reflexivity|]. split; [reflexivity|].
    apply H2. reflexivity.
Defined.

End C1.

(** ** Identifiers *)

Section C2.
Import CustomerModel CustomerRouteFacts3 SubCategoryRouteFacts.

(** C2 as stated fails. With a malformed identifier, the three category
    routes and the customer read end in an internal error (500), not in the
    invalid-identifier failure; the subcategory update looks the referenced
    category up before it answers. With a well-formed identifier of no
    stored record, an update whose payload fails validation is answered with
    the validation failure (400), not with not-found. *)
Lemma C2_counterexample :
  handle (CategoryRoutes.get_category "42") Sample.db_abc =
    (ServerError "Server error", Sample.db_abc, [])
  /\ handle (CategoryRoutes.update_category "42" (Sample.category_body "x")) Sample.db_abc =
    (ServerError "Failed to update category", Sample.db_abc, [])
  /\ handle (CategoryRoutes.delete_category "42") Sample.db_abc =
    (ServerError "Failed to delete category", Sample.db_abc, [])
  /\ handle (CustomerRoutes.get_customer "42") Sample.db_customer =
    (ServerError "Failed to fetch customer", Sample.db_customer, [])
  /\ handle (SubCategoryRoutes.update_subcategory 9 "42"
               (Sample.subcategory_body "x" Sample.idA)) Sample.db_sub =
    (BadRequest (ValidatorErrors [("id", "Invalid subcategory ID format")]),
     Sample.db_sub, [Read Categories])
  /\ handle (SubCategoryRoutes.update_subcategory 9 Sample.idD
               (Sample.subcategory_body "" Sample.idA)) Sample.db_sub =
    (BadRequest (ValidatorErrors [("name", "Subcategory name is required")]),
     Sample.db_sub, [Read Categories])
  /\ handle (CategoryRoutes.update_category Sample.idD (Sample.category_body ""))
            Sample.db_abc =
    (BadRequest (ValidatorErrors [("name", "Category name is required")]),
     Sample.db_abc, []).
Proof. vm_compute. repeat split. Qed.

Lemma categoryId_errors_total (b : SubCategoryRoutes.body) (w : world) :
  exists errs w',
    SubCategoryRoutes.categoryId_errors b w = (Return errs, w')
    /\ store w' = store w
    /\ (trace w' = trace w \/ trace w' = trace w ++ [Read Categories]).
Proof.
  unfold SubCategoryRoutes.categoryId_errors.
  destruct (ObjectId.isValid (SubCategoryRoutes.or_empty (SubCategoryRoutes.categoryId b)))
    eqn:E; cbn [negb].
  - rewrite (bind_return _ _ _ _ _ (CategoryFacts.category_findById_run _ _ w (isValid_cast _ E))).
    destruct (find _ _); do 2 eexists; (split; [reflexivity|]); split; auto.
  - do 2 eexists. split; [reflexivity|]. auto.
Qed.

(** C2, amended. A malformed identifier is answered with the
    invalid-identifier failure (400) before any storage access by the read
    and the delete of a subcategory and by the update and the delete of a
    customer; the update of a subcategory reports it among its validation
    failures (400), having at most looked the referenced category up, and
    changes nothing. A well-formed identifier of no stored record is
    answered with not-found (404), the store unchanged, by the read and the
    delete of every entity, and by the update of every entity when the
    payload passes the validation that runs before the lookup. *)
Theorem C2_identifier_checks (now : Z) (id : string) (d : db) :
  (ObjectId.isValid id = false ->
     handle (SubCategoryRoutes.get_subcategory id) d =
       (BadRequest (ErrorMsg "Invalid subcategory ID"), d, [])
     /\ handle (SubCategoryRoutes.delete_subcategory id) d =
       (BadRequest (ErrorMsg "Invalid subcategory ID"), d, [])
     /\ (forall b, handle (CustomerRoutes.update_customer now id b) d =
                   (BadRequest (ErrorMsg "Invalid customer ID format"), d, []))
     /\ handle (CustomerRoutes.delete_customer id) d =
       (BadRequest (ErrorMsg "Invalid customer ID format"), d, [])
     /\ (forall b, exists errs t,
           handle (SubCategoryRoutes.update_subcategory now id b) d =
             (BadRequest (ValidatorErrors (("id", "Invalid subcategory ID format") :: errs)),
              d, t)
           /\ (t = [] \/ t = [Read Categories])))
  /\
  (forall o : ObjectId.t,
     ObjectId.cast id = Some o ->
     (find (CategoryModel.by_id o) (categories d) = None ->
        handle (CategoryRoutes.get_category id) d =
          (NotFound "Category not found", d, [Read Categories])
        /\ handle (CategoryRoutes.delete_category id) d =
          (NotFound "Category not found", d, [Read Categories])
        /\ (forall b, CategoryRoutes.validation_errors b = [] ->
              handle (CategoryRoutes.update_category id b) d =
                (NotFound "Category not found", d, [Read Categories])))
     /\ (find (SubCategoryModel.by_id o) (subcategories d) = None ->
        handle (SubCategoryRoutes.get_subcategory id) d =
          (NotFound "Subcategory not found", d, [Read SubCategories])
        /\ handle (SubCategoryRoutes.delete_subcategory id) d =
          (NotFound "Subcategory not found", d, [Read SubCategories])
        /\ (forall b cid oc c,
              SubCategoryRoutes.name_errors b = [] ->
              SubCategoryRoutes.categoryId b = Some cid ->
              ObjectId.cast cid = Some oc ->
              find (CategoryModel.by_id oc) (categories d) = Some c ->
              handle (SubCategoryRoutes.update_subcategory now id b) d =
                (NotFound "Subcategory not found", d, [Read Categories; Read SubCategories])))
     /\ (find (by_id o) (customers d) = None ->
        handle (CustomerRoutes.get_customer id) d =
          (NotFound "Customer not found", d, [Read Customers])
        /\ handle (CustomerRoutes.delete_customer id) d =
          (NotFound "Customer not found", d, [Write Customers])
        /\ (forall b p,
              CustomerRoutes.update_paths now b = Some p ->
              others_ok now p = true -> phone_errors p = [] ->
              CustomerRoutes.enums_and_fees_ok b = true ->
              handle (CustomerRoutes.update_customer now id b) d =
                (NotFound "Customer not found", d, [Write Customers])))).
Proof.
  split.
  - intros Hbad. repeat split.
    + apply handle_return. unfold SubCategoryRoutes.get_subcategory. apply catch_all_return.
      now rewrite Hbad.
    + apply handle_return. unfold SubCategoryRoutes.delete_subcategory. apply catch_all_return.
      now rewrite Hbad.
    + intros b. apply handle_return. unfold CustomerRoutes.update_customer,
        CustomerRoutes.catch_update. apply catch_return. now rewrite Hbad.
    + apply handle_return. unfold CustomerRoutes.delete_customer. apply catch_all_return.
      now rewrite Hbad.
    + intros b.
      destruct (categoryId_errors_total b (fresh d)) as (cerrs & w' & Hrun & Hstore & Htrace).
      exists (SubCategoryRoutes.name_errors b ++ cerrs), (trace w').
      split; [|exact Htrace].
      unfold handle, SubCategoryRoutes.update_subcategory.
      erewrite bind_return by (apply catch_return; exact Hrun).
      erewrite catch_all_return; cycle 1.
      { unfold SubCategoryRoutes.id_errors. rewrite Hbad. cbn [negb app]. reflexivity. }
      now rewrite Hstore.
  - intros o Hcast. pose proof (cast_isValid _ _ Hcast) as Hvalid. repeat split.
    + apply handle_return. unfold CategoryRoutes.get_category. apply catch_all_return.
      rewrite (bind_return _ _ _ _ _ (CategoryFacts.category_findById_run _ _ _ Hcast)).
      cbn [store fresh]. now rewrite H.
    + apply handle_return. unfold CategoryRoutes.delete_category. apply catch_all_return.
      rewrite (bind_return _ _ _ _ _ (CategoryFacts.category_findById_run _ _ _ Hcast)).
      cbn [store fresh]. now rewrite H.
    + intros b Hb. apply handle_return. unfold CategoryRoutes.update_category.
      apply catch_all_return. rewrite Hb.
      rewrite (bind_return _ _ _ _ _ (CategoryFacts.category_findById_run _ _ _ Hcast)).
      cbn [store fresh]. now rewrite H.
    + apply handle_return. unfold SubCategoryRoutes.get_subcategory. apply catch_all_return.
      rewrite Hvalid. cbn [negb].
      rewrite (bind_return _ _ _ _ _ (SubCategoryFacts.subcategory_findById_run _ _ _ Hcast)).
      cbn [store fresh]. now rewrite H.
    + apply handle_return. unfold SubCategoryRoutes.delete_subcategory. apply catch_all_return.
      rewrite Hvalid. cbn [negb].
      rewrite (bind_return _ _ _ _ _ (SubCategoryFacts.subcategory_findById_run _ _ _ Hcast)).
      cbn [store fresh]. now rewrite H.
    + intros b cid oc c Hn Hcid Hoc Hc. apply handle_return.
      unfold SubCategoryRoutes.update_subcategory.
      erewrite bind_return
        by (apply catch_return, (categoryId_errors_run _ _ _ _ Hcid Hoc)).
      unfold SubCategoryRoutes.reference_errors. cbn [store logged fresh]. rewrite Hc.
      apply catch_all_return.
      unfold SubCategoryRoutes.id_errors. rewrite Hvalid, Hn. cbn [negb app].
      rewrite (bind_return _ _ _ _ _ (SubCategoryFacts.subcategory_findById_run _ _ _ Hcast)).
      cbn [store logged fresh]. now rewrite H.
    + apply handle_return. unfold CustomerRoutes.get_customer. apply catch_all_return.
      rewrite (bind_return _ _ _ _ _ (StoreFacts.find_customer_run _ _ _ Hcast)).
      cbn [store fresh]. now rewrite H.
    + apply handle_return. unfold CustomerRoutes.delete_customer. apply catch_all_return.
      rewrite Hvalid. cbn [negb].
      rewrite (bind_return _ _ _ _ _ (StoreFacts.delete_customer_run _ _ _ Hcast)).
      cbn [store fresh logged stored]. rewrite H, (find_none_filter _ _ H).
      now rewrite StoreFacts.set_customers_same.
    + intros b p Hp Ho Hph Hok.
      rewrite (update_customer_run _ _ _ _ _ _ Hcast Hp Ho Hph).
      apply update_errors_nil in Hok. now rewrite Hok, H.
Qed.

(** C2 at work: a malformed identifier, and one of no stored record. *)
Lemma C2_witness :
  handle (SubCategoryRoutes.get_subcategory "42") Sample.db_sub =
    (BadRequest (ErrorMsg "Invalid subcategory ID"), Sample.db_sub, [])
  /\ handle (CustomerRoutes.delete_customer "42") Sample.db_customer =
    (BadRequest (ErrorMsg "Invalid customer ID format"), Sample.db_customer, [])
  /\ handle (CategoryRoutes.get_category Sample.idD) Sample.db_abc =
    (NotFound "Category not found", Sample.db_abc, [Read Categories])
  /\ handle (CustomerRoutes.update_customer 9 Sample.idD (CustomerRoutes.notes_only "x"))
            Sample.db_customer =
    (NotFound "Customer not found", Sample.db_customer, [Write Customers]).
Proof.
  pose proof (proj1 (C2_identifier_checks 9 "42" Sample.db_sub) eq_refl) as (H1 & _).
  pose proof (proj1 (C2_identifier_checks 9 "42" Sample.db_customer) eq_refl)
    as (_ & _ & _ & H2 & _).
  pose proof (proj1 (proj2 (C2_identifier_checks 9 Sample.idD Sample.db_abc)
                      Sample.idD eq_refl) eq_refl) as (H3 & _).
  pose proof (proj2 (proj2 (proj2 (C2_identifier_checks 9 Sample.idD Sample.db_customer)
                      Sample.idD eq_refl)) eq_refl) as (_ & _ & H4).
  exact (conj H1 (conj H2 (conj H3
    (H4 (CustomerRoutes.notes_only "x") _ eq_refl eq_refl eq_refl eq_refl)))).
Defined.

End C2.

(** ** Enumerated fields and fees *)

Section C3.
Import CustomerModel CustomerRoutes CustomerRouteFacts CustomerRouteFacts2 CustomerRouteFacts3.

(** C3 as stated fails: a status outside its set and a negative fees are
    each answered with a validation failure (400), on create and on update,
    and nothing is stored or changed. *)
Lemma C3_counterexample :
  handle (create_customer 9 Sample.idC
            (Sample.customer_body "1234567890" (Str "Archived") None)) empty_db =
    (BadRequest (ValidationFailed
       [("status", "`Archived` is not a valid enum value for path `status`.")]),
     empty_db, [])
  /\ handle (create_customer 9 Sample.idC
               (Sample.customer_body "1234567890" Undefined (Some (Num (-5 # 1))))) empty_db =
    (BadRequest (ValidationFailed [("fees", "Fees cannot be negative")]), empty_db, [])
  /\ handle (update_customer 9 Sample.idC
               (Sample.customer_body "1234567890" (Str "Archived") None)) Sample.db_customer =
    (BadRequest (ValidationFailed
       [("status", "`Archived` is not a valid enum value for path `status`.")]),
     Sample.db_customer, [])
  /\ handle (update_customer 9 Sample.idC
               (Sample.customer_body "1234567890" Undefined (Some (Num (-5 # 1)))))
            Sample.db_customer =
    (BadRequest (ValidationFailed [("fees", "Fees cannot be negative")]),
     Sample.db_customer, []).
Proof. vm_compute. repeat split. Qed.

Lemma enum_error_in (path : string) (values : list string) (v : jsstr) (fallback : string)
    (before after : errors) :
  includes values fallback = true ->
  enum_field_ok values v = false ->
  In (path, ("`" ++ text v ++ "` is not a valid enum value for path `" ++ path ++ "`.")%string)
     (before ++ enum path values (Some (or_default v fallback)) ++ after).
Proof.
  intros Hd H. rewrite (enum_or_default _ _ _ _ Hd), H.
  apply in_or_app. right. now left.
Qed.

(** C3, amended. For a create or update input that is in order otherwise:
    an enumerated field (status, gstStatus, deliveryStatus) that is absent or
    empty is stored as its default and one that is in its set is stored as
    it is; a fees that is absent (on create), not a number or zero is stored
    as 0 and a positive one as it is (on update an absent fees leaves the
    stored one); the operation succeeds. A non-empty enumerated value
    outside its set and a negative fees are answered with a validation
    failure (400) that names the field, and nothing is stored or changed. *)
Theorem C3_enumerated_fields_and_fees
    (now : Z) (newId : ObjectId.t) (b : body) (d : db) :
  (rest_ok now b = true -> phone_ok (text (phone b)) = true ->
     (enums_and_fees_ok b = true ->
        let c := new_customer now newId b in
        handle (create_customer now newId b) d =
          (Created c, set_customers (customers d ++ [c]) d, [Write Customers])
        /\ cus_status c = (if truthy (status b) then text (status b) else "Active"%string)
        /\ cus_gstStatus c =
           (if truthy (gstStatus b) then text (gstStatus b) else "Not Paid"%string)
        /\ cus_deliveryStatus c =
           (if truthy (deliveryStatus b) then text (deliveryStatus b) else "Pending"%string)
        /\ cus_fees c =
           Some (match fees b with
                 | Some (Num q) => if Qeq_bool q 0 then 0%Q else q
                 | _ => 0%Q
                 end))
     /\ (enums_and_fees_ok b = false ->
        handle (create_customer now newId b) d =
          (BadRequest (ValidationFailed (create_enum_fee_errors b)), d, [])
        /\ create_enum_fee_errors b <> []
        /\ (enum_field_ok statuses (status b) = false ->
            In ("status"%string,
                ("`" ++ text (status b) ++ "` is not a valid enum value for path `status`.")%string)
               (create_enum_fee_errors b))
        /\ (fees_field_ok (fees b) = false ->
            In ("fees"%string, "Fees cannot be negative"%string) (create_enum_fee_errors b))))
  /\
  (forall (id : string) (o : ObjectId.t) (p : paths) (c0 : Customer),
     ObjectId.cast id = Some o ->
     find (by_id o) (customers d) = Some c0 ->
     update_paths now b = Some p -> others_ok now p = true -> phone_errors p = [] ->
     (enums_and_fees_ok b = true ->
        let c := set_paths p c0 in
        handle (update_customer now id b) d =
          (Ok c, set_customers (replace c (customers d)) d, [Write Customers])
        /\ cus_status c = (if truthy (status b) then text (status b) else "Active"%string)
        /\ cus_gstStatus c =
           (if truthy (gstStatus b) then text (gstStatus b) else "Not Paid"%string)
        /\ cus_deliveryStatus c =
           (if truthy (deliveryStatus b) then text (deliveryStatus b) else "Pending"%string)
        /\ cus_fees c =
           match fees b with
           | Some (Num q) => Some (if Qeq_bool q 0 then 0%Q else q)
           | Some NaN => Some 0%Q
           | None => cus_fees c0
           end)
     /\ (enums_and_fees_ok b = false ->
        handle (update_customer now id b) d =
          (BadRequest (ValidationFailed (update_enum_fee_errors b)), d, [])
        /\ update_enum_fee_errors b <> []
        /\ (enum_field_ok statuses (status b) = false ->
            In ("status"%string,
                ("`" ++ text (status b) ++ "` is not a valid enum value for path `status`.")%string)
               (update_enum_fee_errors b))
        /\ (fees_field_ok (fees b) = false ->
            In ("fees"%string, "Fees cannot be negative"%string) (update_enum_fee_errors b)))).
Proof.
  assert (OD : forall v fb, or_default v fb = if truthy v then text v else fb).
  { intros v fb. destruct (truthy v) eqn:E;
      [apply or_default_truthy | apply or_default_falsy]; exact E. }
  destruct (normalize_enums b) as (E1 & E2 & E3 & E4).
  split.
  - intros Hrest Hphone. rewrite (create_customer_run _ _ _ _ Hrest Hphone). split.
    + intros Hok. apply create_errors_nil in Hok. rewrite Hok.
      split; [reflexivity|].
      unfold new_customer, customerData, apply_setters, set_paths.
      cbn [cus_status cus_gstStatus cus_deliveryStatus cus_fees p_status p_gstStatus
           p_deliveryStatus p_fees or_old option_map].
      rewrite E1, E2, E3, E4, !OD. repeat split.
      now destruct (fees b) as [[|q]|].
    + intros Hbad.
      assert (Hne : create_enum_fee_errors b <> []).
      { intros E. apply create_errors_nil in E. congruence. }
      split; [|split; [exact Hne|split]].
      * destruct (create_enum_fee_errors b); [contradiction | reflexivity].
      * intros H. apply (enum_error_in "status" statuses (status b) "Active" []); auto.
      * intros H. unfold create_enum_fee_errors. apply in_or_app. right.
        apply in_or_app. left.
        destruct (fees b) as [n|]; [|discriminate].
        rewrite min0_number_or_zero, H. now left.
  - intros id o p c0 Hcast Hfind Hpaths Ho Hp.
    rewrite (update_customer_run _ _ _ _ _ _ Hcast Hpaths Ho Hp). split.
    + intros Hok. apply update_errors_nil in Hok. rewrite Hok, Hfind.
      split; [reflexivity|].
      unfold update_paths in Hpaths.
      destruct (subcategory_malformed b); [discriminate|].
      destruct (object_id (serviceCategory (normalize b))); [|discriminate].
      destruct (object_id (serviceSubCategory (normalize b))); [|discriminate].
      injection Hpaths as <-.
      unfold updateData, apply_setters, set_paths.
      cbn [cus_status cus_gstStatus cus_deliveryStatus cus_fees p_status p_gstStatus
           p_deliveryStatus p_fees or_old option_map].
      rewrite E1, E2, E3, E4, !OD. repeat split.
      now destruct (fees b) as [[|q]|].
    + intros Hbad.
      assert (Hne : update_enum_fee_errors b <> []).
      { intros E. apply update_errors_nil in E. congruence. }
      split; [|split; [exact Hne|split]].
      * destruct (update_enum_fee_errors b); [contradiction | reflexivity].
      * intros H. apply (enum_error_in "status" statuses (status b) "Active" []); auto.
      * intros H. unfold update_enum_fee_errors. apply in_or_app. right.
        apply in_or_app. left.
        destruct (fees b) as [n|]; [|discriminate].
        cbn [option_map]. rewrite min0_number_or_zero, H. now left.
Qed.

(** C3 at work: a create without status and with a fees that is not a
    number, and the same body as an update of the stored customer. *)
Lemma C3_witness :
  let b := Sample.customer_body "1234567890" Undefined (Some NaN) in
  (exists c,
     handle (create_customer 9 Sample.idD b) empty_db =
       (Created c, set_customers [c] empty_db, [Write Customers])
     /\ cus_status c = "Active"%string /\ cus_fees c = Some 0%Q)
  /\ (exists c,
        handle (update_customer 9 Sample.idC b) Sample.db_customer =
          (Ok c, set_customers [c] Sample.db_customer, [Write Customers])
        /\ cus_status c = "Active"%string /\ cus_fees c = Some 0%Q).
Proof.
  intros b. split.
  - exists (new_customer 9 Sample.idD b).
    destruct (proj1 (proj1 (C3_enumerated_fields_and_fees 9 Sample.idD b empty_db)
                       eq_refl eq_refl) eq_refl) as (H1 & H2 & _ & _ & H3).
    exact (conj H1 (conj H2 H3)).
  - destruct (proj1 (proj2 (C3_enumerated_fields_and_fees 9 Sample.idD b Sample.db_customer)
                       Sample.idC Sample.idC _ Sample.customer eq_refl eq_refl eq_refl
                       eq_refl eq_refl) eq_refl) as (H1 & H2 & _ & _ & H3).
    eexists. exact (conj H1 (conj H2 H3)).
Defined.

End C3.

(** ** Names of categories and subcategories *)

(** C4 on the code. A category named [C (advanced)] is created through the
    route; creating [c (advanced)] afterwards is accepted (201) and the
    store then holds two categories whose names differ only in letter
    case: the parentheses of the name are read as a group of the pattern,
    which no longer matches the stored name. *)
Theorem C4_case_variant_with_parentheses_accepted :
  exists c1 d1 c2 d2,
    handle (CategoryRoutes.create_category 1 Sample.idA (Sample.category_body "C (advanced)"))
           empty_db = (Created c1, d1, [Read Categories; Write Categories])
    /\ handle (CategoryRoutes.create_category 2 Sample.idB (Sample.category_body "c (advanced)"))
              d1 = (Created c2, d2, [Read Categories; Write Categories])
    /\ categories d2 = [c1; c2]
    /\ cat_name c1 = "C (advanced)" /\ cat_name c2 = "c (advanced)"
    /\ Spec.same_ignoring_case (cat_name c1) (cat_name c2) = true.
Proof. do 4 eexists. vm_compute. repeat split. Qed.

(** C5 on the code. Under one category, a subcategory named a+b is created
    through the route. Creating a+b again under the same category is not
    answered with the duplicate-name failure (400) but with an internal error
    (500) raised by the unique index, because the pattern a+b does not match
    the name a+b; creating A+B under the same category is accepted (201);
    and creating C++ under either of two categories fails (500), the name
    not being a well-formed pattern. *)
Theorem C5_duplicate_check_misses_names_with_syntax :
  exists s1 d1 s2 d2,
    handle (SubCategoryRoutes.create_subcategory 1 Sample.idC
              (Sample.subcategory_body "a+b" Sample.idA)) Sample.db_two =
      (Created (Some (s1, Some (Sample.category Sample.idA "Languages"))), d1,
       [Read Categories; Read SubCategories; Write SubCategories;
        Read SubCategories; Read Categories])
    /\ handle (SubCategoryRoutes.create_subcategory 2 Sample.idD
                 (Sample.subcategory_body "a+b" Sample.idA)) d1 =
       (ServerError "Failed to create subcategory", d1,
        [Read Categories; Read SubCategories; Write SubCategories])
    /\ handle (SubCategoryRoutes.create_subcategory 2 Sample.idD
                 (Sample.subcategory_body "A+B" Sample.idA)) d1 =
       (Created (Some (s2, Some (Sample.category Sample.idA "Languages"))), d2,
        [Read Categories; Read SubCategories; Write SubCategories;
         Read SubCategories; Read Categories])
    /\ subcategories d2 = [s1; s2]
    /\ sub_category s1 = sub_category s2
    /\ Spec.same_ignoring_case (sub_name s1) (sub_name s2) = true
    /\ handle (SubCategoryRoutes.create_subcategory 1 Sample.idC
                 (Sample.subcategory_body "C++" Sample.idA)) Sample.db_two =
       (ServerError "Failed to create subcategory", Sample.db_two, [Read Categories])
    /\ handle (SubCategoryRoutes.create_subcategory 1 Sample.idC
                 (Sample.subcategory_body "C++" Sample.idB)) Sample.db_two =
       (ServerError "Failed to create subcategory", Sample.db_two, [Read Categories]).
Proof. do 4 eexists. vm_compute. repeat split. Qed.

(** ** Deleting a category *)

Section C6.
Import CategoryRoutes.

(** C6. Deleting a stored category that at least one subcategory refers to
    fails with the dependents error (400) and leaves the store as it was;
    deleting a stored category that no subcategory refers to succeeds, and a
    list made afterwards returns the other categories and none with the
    deleted identifier. *)
Theorem C6_delete_category_guarded_by_dependents
    (d : db) (id : string) (o : ObjectId.t) (c : Category) :
  ObjectId.cast id = Some o ->
  find (CategoryModel.by_id o) (categories d) = Some c ->
  (existsb (SubCategoryModel.in_category o) (subcategories d) = true ->
   handle (delete_category id) d =
   (BadRequest (ErrorMsg
      "Cannot delete category with existing subcategories. Please delete subcategories first."),
    d, [Read Categories; Read SubCategories]))
  /\
  (existsb (SubCategoryModel.in_category o) (subcategories d) = false ->
   exists d',
     handle (delete_category id) d =
     (Ok "Category deleted successfully"%string, d',
      [Read Categories; Read SubCategories; Write Categories])
     /\ handle list_categories d' = (Ok (categories d'), d', [Read Categories])
     /\ (forall c', In c' (categories d') <-> In c' (categories d) /\ cat_id c' <> o)
     /\ subcategories d' = subcategories d
     /\ customers d' = customers d).
Proof.
  intros Hcast Hfind.
  split; intros Hdep.
  - apply handle_return. unfold delete_category. apply catch_all_return.
    rewrite (bind_return _ _ _ _ _ (CategoryFacts.category_findById_run _ _ _ Hcast)).
    cbn [store logged fresh]. rewrite Hfind.
    rewrite (bind_return _ _ _ _ _ (StoreFacts.count_run _ _ _ Hcast)).
    cbn [store logged fresh].
    rewrite length_filter_pos, Hdep. reflexivity.
  - exists (CategoryModel.set_categories
              (filter (fun c => negb (CategoryModel.by_id o c)) (categories d)) d).
    split; [|split; [reflexivity|split; [|split; reflexivity]]].
    + apply handle_return. unfold delete_category. apply catch_all_return.
      rewrite (bind_return _ _ _ _ _ (CategoryFacts.category_findById_run _ _ _ Hcast)).
      cbn [store logged fresh]. rewrite Hfind.
      rewrite (bind_return _ _ _ _ _ (StoreFacts.count_run _ _ _ Hcast)).
    cbn [store logged fresh].
      rewrite length_filter_pos, Hdep.
      rewrite (bind_return _ _ _ _ _ (StoreFacts.delete_category_run _ _ _ Hcast)).
      reflexivity.
    + intros c'. cbn. rewrite filter_In. unfold CategoryModel.by_id, ObjectId.eqb.
      rewrite negb_true_iff, String.eqb_neq. tauto.
Qed.

(** C6 at work: the category abc with a subcategory, and without. *)
Lemma C6_witness :
  handle (delete_category Sample.idA) Sample.db_sub =
    (BadRequest (ErrorMsg
       "Cannot delete category with existing subcategories. Please delete subcategories first."),
     Sample.db_sub, [Read Categories; Read SubCategories])
  /\ exists d',
       handle (delete_category Sample.idA) Sample.db_abc =
       (Ok "Category deleted successfully"%string, d',
        [Read Categories; Read SubCategories; Write Categories])
       /\ handle list_categories d' = (Ok (categories d'), d', [Read Categories])
       /\ (forall c', In c' (categories d') <->
                      In c' (categories Sample.db_abc) /\ cat_id c' <> Sample.idA)
       /\ subcategories d' = subcategories Sample.db_abc
       /\ customers d' = customers Sample.db_abc.
Proof.
  split.
  - exact (proj1 (C6_delete_category_guarded_by_dependents Sample.db_sub Sample.idA
             Sample.idA (Sample.category Sample.idA "abc") eq_refl eq_refl) eq_refl).
  - exact (proj2 (C6_delete_category_guarded_by_dependents Sample.db_abc Sample.idA
             Sample.idA (Sample.category Sample.idA "abc") eq_refl eq_refl) eq_refl).
Defined.

End C6.

(** ** The category of a subcategory *)

(** C7 on the code. The category Languages is stored and is looked up: a
    subcategory under an identifier that names no category is refused with
    [Category not found], and the subcategory Cpp under Languages is
    created. But C++ under Languages, a name that passes the validators in
    a category that has no subcategory at all, ends in an internal error
    (500) with nothing stored, the name not being a well-formed pattern; and
    with the subcategory abc stored under the category abc, a.c under that
    category, a name that no stored subcategory has in any letter case, is
    refused as a duplicate (400). *)
Theorem C7_valid_name_under_existing_category_fails :
  let under_missing := Sample.subcategory_body "Cpp" Sample.idD in
  let cpp := Sample.subcategory_body "Cpp" Sample.idA in
  let c_plus_plus := Sample.subcategory_body "C++" Sample.idA in
  let a_c := Sample.subcategory_body "a.c" Sample.idA in
  (find (CategoryModel.by_id Sample.idD) (categories Sample.db_two) = None
   /\ handle (SubCategoryRoutes.create_subcategory 1 Sample.idC under_missing) Sample.db_two =
      (BadRequest (ValidatorErrors [("categoryId", "Category not found")]),
       Sample.db_two, [Read Categories]))
  /\ (exists s d',
        handle (SubCategoryRoutes.create_subcategory 1 Sample.idC cpp) Sample.db_two =
        (Created (Some (s, Some (Sample.category Sample.idA "Languages"))), d',
         [Read Categories; Read SubCategories; Write SubCategories;
          Read SubCategories; Read Categories])
        /\ subcategories d' = [s] /\ sub_name s = "Cpp" /\ sub_category s = Sample.idA)
  /\ (find (CategoryModel.by_id Sample.idA) (categories Sample.db_two) =
        Some (Sample.category Sample.idA "Languages")
      /\ SubCategoryRoutes.name_errors c_plus_plus = []
      /\ subcategories Sample.db_two = []
      /\ handle (SubCategoryRoutes.create_subcategory 1 Sample.idC c_plus_plus) Sample.db_two =
         (ServerError "Failed to create subcategory", Sample.db_two, [Read Categories]))
  /\ (find (CategoryModel.by_id Sample.idA) (categories Sample.db_sub) =
        Some (Sample.category Sample.idA "abc")
      /\ SubCategoryRoutes.name_errors a_c = []
      /\ existsb (fun s => Spec.same_ignoring_case (sub_name s) "a.c")
                 (subcategories Sample.db_sub) = false
      /\ handle (SubCategoryRoutes.create_subcategory 1 Sample.idC a_c) Sample.db_sub =
         (BadRequest (ErrorMsg
            "A subcategory with this name already exists in the specified category"),
          Sample.db_sub, [Read Categories; Read SubCategories])).
Proof.
  split; [vm_compute; split; reflexivity|].
  split; [do 2 eexists; vm_compute; repeat split|].
  split; vm_compute; repeat split.
Qed.

(** ** The customer list *)

Section C8.
Import CustomerModel CustomerRoutes SortFacts.

(** C8 as stated fails: the search string a.n returns the customer Ann,
    none of whose name, email, phone and serviceNumber contains a.n; the dot
    of the search string is read as "any character". *)
Lemma C8_counterexample :
  let q := {| search := Some "a.n"%string; q_status := None; service := None;
              sortBy := None; sortOrder := None |} in
  exists row,
    handle (list_customers q) Sample.db_customer =
      (Ok [row], Sample.db_customer, [Read Customers; Read Categories; Read SubCategories])
    /\ row_customer row = Sample.customer
    /\ mentions "a.n" Sample.customer = false.
Proof. eexists. vm_compute. repeat split. Qed.

Lemma populate_all_run (l : list Customer) (w : world) :
  exists t, populate_all l w =
            (Return (map (fun c => populate c (store w)) l),
             {| store := store w; trace := t |}).
Proof.
  destruct w as [d0 t0]. unfold populate_all, bind, log, ret, get_db.
  destruct (negb (length l =? 0)), (existsb has_subcategory l); eexists; reflexivity.
Qed.

Lemma service_filter_run (q : query) (x : option ObjectId.t) (w : world) :
  service_filter q = Some x ->
  traverse (cast_id "serviceCategory") (given (service q)) w = (Return x, w).
Proof.
  unfold service_filter, traverse. destruct (given (service q)) as [s|].
  - destruct (ObjectId.cast s) as [o|] eqn:E; [|discriminate]. intros [= <-].
    now rewrite (bind_return _ _ _ _ _ (cast_id_run _ _ _ w E)).
  - now intros [= <-].
Qed.

Lemma search_pattern_run (q : query) (x : option RegExp.regex) (w : world) :
  search_pattern q = Some x ->
  traverse store_regex (given (search q)) w = (Return x, w).
Proof.
  unfold search_pattern, traverse, store_regex, bind. destruct (given (search q)) as [s|].
  - destruct (RegExp.compile RegExp.PCRE s); try discriminate. now intros [= <-].
  - now intros [= <-].
Qed.

(** A followed search string that gives no pattern is one the store
    refuses. *)
Lemma search_pattern_refused (q : query) (w : world) :
  search_followed q = true ->
  search_pattern q = None ->
  traverse store_regex (given (search q)) w =
  (Throw (MongoServerError "Regular expression is invalid"), w).
Proof.
  unfold search_followed, search_pattern, traverse, store_regex, bind.
  destruct (given (search q)) as [s|]; [|discriminate]. intros Hf.
  apply FragmentFacts.followed_compile in Hf.
  now destruct (RegExp.compile RegExp.PCRE s).
Qed.

Lemma field_name_key (path : string) :
  field_name path = true -> exists key, sort_key path = Some key.
Proof.
  intros H. unfold sort_key. rewrite H. cbn [negb].
  repeat match goal with
         | |- exists _, (if ?b then _ else _) = _ => destruct b; [eexists; reflexivity|]
         end.
  eexists; reflexivity.
Qed.

Lemma map_row_customer (l : list Customer) (d : db) :
  map row_customer (map (fun c => populate c d) l) = l.
Proof. rewrite map_map. cbn. apply map_id. Qed.

(** C8, amended. Take a query whose service parameter, if given and not
    empty, is a well-formed identifier, whose search string, if given and
    not empty, uses nothing the fragment leaves out (no backslash, bracket,
    brace, code unit above 127, opening parenthesis followed by a question
    mark or an asterisk, or quantifier followed by a plus sign), and whose sortBy
    (createdAt when absent) is a field name (not empty, no dot, no NUL, no
    leading dollar sign, not __proto__). When the store refuses the search
    string as a regular expression, the answer is 500. Otherwise the list
    route returns exactly the stored customers that satisfy the conjunction
    of: name, email, phone or serviceNumber matches the search string read
    as a case-insensitive regular expression, which for a search string
    without pattern syntax means that one of them contains it, letter case
    apart; status equals the status parameter; serviceCategory is the
    identifier of the service parameter. A parameter that is absent or empty
    imposes no constraint. Each row comes with its category and subcategory
    as stored at that time. The rows are sorted by the value of the sortBy
    field, a missing value coming first in ascending order: descending when
    sortOrder is desc or absent and ascending otherwise. *)
Theorem C8_customer_list (q : query) (d : db) (service' : option ObjectId.t) :
  service_filter q = Some service' ->
  search_followed q = true ->
  field_name (or_else (sortBy q) "createdAt") = true ->
  exists key,
    sort_key (or_else (sortBy q) "createdAt") = Some key
    /\ match search_pattern q with
       | None =>
         handle (list_customers q) d =
         (ServerError "Failed to fetch customers", d, [Read Customers])
       | Some search' =>
         let keep := selected search' (given (q_status q)) service' in
         exists rows t,
           handle (list_customers q) d = (Ok rows, d, t)
           /\ (forall r, In r rows -> r = populate (row_customer r) d)
           /\ (forall c, In c (map row_customer rows) <-> In c (customers d) /\ keep c = true)
           /\ Permutation (map row_customer rows) (filter keep (customers d))
           /\ Sorted (fun a b => order_of q key a b = true) (map row_customer rows)
           /\ (forall c,
                 keep c =
                 match search' with Some r => search_clause r c | None => true end
                 && match given (q_status q) with
                    | Some s => String.eqb (cus_status c) s
                    | None => true
                    end
                 && match service' with
                    | Some o => ObjectId.eqb (cus_serviceCategory c) o
                    | None => true
                    end)
           /\ (search q = None \/ search q = Some ""%string -> search' = None)
           /\ (q_status q = None \/ q_status q = Some ""%string ->
               given (q_status q) = None)
           /\ (service q = None \/ service q = Some ""%string -> service' = None)
           /\ (forall s r, search q = Some s -> RegExp.plain s = true ->
                 search' = Some r -> forall c, search_clause r c = mentions s c)
       end.
Proof.
  intros Hservice Hfollowed Hfield.
  destruct (field_name_key _ Hfield) as [key Hkey]. exists key. split; [exact Hkey|].
  destruct (search_pattern q) as [search'|] eqn:Hsearch.
  2:{ unfold handle, list_customers, catch_all.
      erewrite catch_throw; cycle 1.
      { rewrite (bind_return _ _ _ _ _ (service_filter_run _ _ _ Hservice)), Hkey.
        unfold bind at 1. cbn [log].
        exact (bind_throw _ _ _ _ _ (search_pattern_refused _ _ Hfollowed Hsearch)). }
      reflexivity. }
  intros keep.
  destruct (populate_all_run
              (sort_by (order_of q key) (filter keep (customers d)))
              (logged (Read Customers) (fresh d))) as [t Hpop].
  exists (map (fun c => populate c d) (sort_by (order_of q key) (filter keep (customers d)))), t.
  assert (Hperm := sort_perm (order_of q key) (filter keep (customers d))).
  rewrite map_row_customer.
  split; [|split; [|split; [|split; [exact Hperm|split;
    [apply sort_sorted, order_total|split; [reflexivity|repeat split]]]]]].
  - apply handle_return. unfold list_customers. apply catch_all_return.
    rewrite (bind_return _ _ _ _ _ (service_filter_run _ _ _ Hservice)), Hkey.
    unfold bind at 1. cbn [log].
    rewrite (bind_return _ _ _ _ _ (search_pattern_run _ _ _ Hsearch)).
    unfold bind at 1. cbn [get_db store logged fresh].
    fold (selected search' (given (q_status q)) service'). fold keep.
    fold (order_of q key).
    erewrite bind_return by exact Hpop. reflexivity.
  - intros r Hr. apply in_map_iff in Hr as (c & <- & _). reflexivity.
  - intros c. rewrite <- filter_In. split; intros H.
    + now apply (Permutation_in _ Hperm).
    + now apply (Permutation_in _ (Permutation_sym Hperm)).
  - intros [H|H]; unfold search_pattern in Hsearch; rewrite H in Hsearch;
      cbv in Hsearch; congruence.
  - intros [H|H]; rewrite H; reflexivity.
  - intros [H|H]; unfold service_filter in Hservice; rewrite H in Hservice;
      cbv in Hservice; now injection Hservice as <-.
  - intros s r Hs Hplain Hr c. subst search'.
    unfold search_pattern in Hsearch. rewrite Hs in Hsearch. cbn [given] in Hsearch.
    destruct (Js.truthy s); [|discriminate].
    rewrite (RegExpFacts.compile_plain _ _ Hplain) in Hsearch. injection Hsearch as <-.
    unfold search_clause, mentions, test_opt.
    rewrite !RegExpFacts.test_plain.
    destruct (cus_email c), (cus_serviceNumber c); now rewrite ?RegExpFacts.test_plain.
Qed.

(** C8 at work: the inactive customers of a category who match a.n, sorted
    by name; and a search string that the store refuses. *)
Lemma C8_witness :
  let q := {| search := Some "a.n"%string; q_status := Some "Inactive"%string;
              service := Some Sample.idA; sortBy := Some "name"%string;
              sortOrder := Some "asc"%string |} in
  let q' := {| search := Some "(ann"%string; q_status := None; service := None;
               sortBy := Some "priority"%string; sortOrder := None |} in
  (exists rows t,
     handle (list_customers q) Sample.db_customer = (Ok rows, Sample.db_customer, t)
     /\ map row_customer rows = [Sample.customer])
  /\ handle (list_customers q') Sample.db_customer =
     (ServerError "Failed to fetch customers", Sample.db_customer, [Read Customers]).
Proof.
  intros q q'. split.
  - destruct (C8_customer_list q Sample.db_customer (Some Sample.idA)
                eq_refl eq_refl eq_refl) as (key & _ & H).
    destruct (search_pattern q) as [search'|] eqn:E; [|discriminate].
    destruct H as (rows & t & H1 & _ & _ & Hperm & _).
    exists rows, t. split; [exact H1|].
    injection E as <-. apply Permutation_sym, Permutation_length_1_inv in Hperm.
    exact Hperm.
  - destruct (C8_customer_list q' Sample.db_customer None eq_refl eq_refl eq_refl)
      as (key & _ & H).
    exact H.
Defined.

End C8.

(** ** The phone of a customer *)

Section C9.
Import CustomerModel CustomerRoutes CustomerRouteFacts CustomerRouteFacts2 CustomerRouteFacts3.

(** C9. Customer creation rejects (400) every body whose phone is not
    exactly ten digits, before any storage access and storing nothing. The
    failure is the format failure of [phone] when the phone is present and
    the body is in order up to that check; so it is for 12345. A creation
    that is valid otherwise and has the phone 1234567890 succeeds (201) and
    stores the customer with that phone. *)
Theorem C9_phone_is_exactly_ten_digits
    (now : Z) (newId : ObjectId.t) (b : body) (d : db) :
  (phone_ok (text (phone b)) = false ->
     exists e, handle (create_customer now newId b) d = (BadRequest e, d, []))
  /\
  (forall p : string,
     phone b = Str p -> p <> ""%string -> phone_ok p = false ->
     subcategory_malformed b = false ->
     truthy (name b) = true -> truthy (address b) = true ->
     truthy (serviceCategory b) = true -> truthy (serviceCategoryName b) = true ->
     handle (create_customer now newId b) d =
     (BadRequest (ValidationFailed
        [("phone", "Please enter a valid 10-digit phone number")]), d, []))
  /\ phone_ok "12345" = false
  /\ (phone b = Str "1234567890" ->
      rest_ok now b = true -> enums_and_fees_ok b = true ->
      handle (create_customer now newId b) d =
      (Created (new_customer now newId b),
       set_customers (customers d ++ [new_customer now newId b]) d,
       [Write Customers])
      /\ cus_phone (new_customer now newId b) = "1234567890"%string).
Proof.
  assert (E : phone (normalize b) = phone b).
  { unfold normalize. now destruct (negb (truthy (serviceSubCategory b))). }
  split; [|split; [|split; [reflexivity|]]].
  - intros Hbad. unfold handle, create_customer, catch_create, try_catch.
    destruct (subcategory_malformed b); [now eexists|].
    destruct (missingFields (normalize b)); [|now eexists].
    rewrite E, Hbad. now eexists.
  - intros p Hp Hne Hbad Hm Hn Ha Hsc Hscn. clear E.
    apply handle_return. unfold create_customer, catch_create. apply catch_return.
    rewrite Hm. unfold missingFields. rewrite normalize_required. unfold requiredFields.
    cbn [filter snd map]. rewrite Hn, Ha, Hsc, Hscn, Hp. cbn [truthy].
    apply JsFacts.truthy_true in Hne. rewrite Hne. cbn [negb map].
    assert (E : phone (normalize b) = Str p).
    { unfold normalize. now destruct (negb (truthy (serviceSubCategory b))). }
    rewrite E. cbn [text]. rewrite Hbad. reflexivity.
  - intros Hp Hrest Hok. clear E.
    assert (Hphone : phone_ok (text (phone b)) = true) by now rewrite Hp.
    rewrite (create_customer_run _ _ _ _ Hrest Hphone).
    apply create_errors_nil in Hok. rewrite Hok. split; [reflexivity|].
    unfold new_customer, customerData, apply_setters, set_paths.
    cbn [cus_phone p_phone or_old trim1 option_map].
    assert (E : phone (normalize b) = Str "1234567890").
    { unfold normalize. now destruct (negb (truthy (serviceSubCategory b))). }
    rewrite E. reflexivity.
Qed.

(** C9 at work: the phones 12345 and 1234567890. *)
Lemma C9_witness :
  handle (create_customer 9 Sample.idC (Sample.customer_body "12345" Undefined None)) empty_db =
    (BadRequest (ValidationFailed
       [("phone", "Please enter a valid 10-digit phone number")]), empty_db, [])
  /\ handle (create_customer 9 Sample.idC (Sample.customer_body "1234567890" Undefined None))
            empty_db =
    (Created (new_customer 9 Sample.idC (Sample.customer_body "1234567890" Undefined None)),
     set_customers [new_customer 9 Sample.idC (Sample.customer_body "1234567890" Undefined None)]
                   empty_db,
     [Write Customers]).
Proof.
  split.
  - refine (proj1 (proj2 (C9_phone_is_exactly_ten_digits 9 Sample.idC
             (Sample.customer_body "12345" Undefined None) empty_db))
             "12345"%string eq_refl _ eq_refl eq_refl eq_refl eq_refl eq_refl eq_refl).
    discriminate.
  - exact (proj1 (proj2 (proj2 (proj2 (C9_phone_is_exactly_ten_digits 9 Sample.idC
             (Sample.customer_body "1234567890" Undefined None) empty_db)))
             eq_refl eq_refl eq_refl)).
Defined.

End C9.

(** ** The name read as a pattern *)

(** C10. The duplicate checks of Category and SubCategory put the raw name
    into a regular expression. With a category (a subcategory) named abc
    stored, creating a.c is refused as a duplicate although no stored name
    is a.c in any letter case; and creating C++, a name that passes the
    validators and is not a well-formed pattern, ends in an internal error
    (500), with nothing stored. *)
Theorem C10_name_is_read_as_a_pattern :
  let a_c := Sample.category_body "a.c" in
  let cpp := Sample.category_body "C++" in
  let sub_a_c := Sample.subcategory_body "a.c" Sample.idA in
  let sub_cpp := Sample.subcategory_body "C++" Sample.idA in
  (handle (CategoryRoutes.create_category 1 Sample.idB a_c) Sample.db_abc =
     (BadRequest (ErrorMsg "Category with this name already exists"),
      Sample.db_abc, [Read Categories])
   /\ existsb (fun c => Spec.same_ignoring_case (cat_name c) "a.c")
              (categories Sample.db_abc) = false)
  /\ (CategoryRoutes.validation_errors cpp = []
      /\ handle (CategoryRoutes.create_category 1 Sample.idB cpp) Sample.db_abc =
         (ServerError "Failed to create category", Sample.db_abc, []))
  /\ (handle (SubCategoryRoutes.create_subcategory 1 Sample.idC sub_a_c) Sample.db_sub =
        (BadRequest (ErrorMsg
           "A subcategory with this name already exists in the specified category"),
         Sample.db_sub, [Read Categories; Read SubCategories])
      /\ existsb (fun s => Spec.same_ignoring_case (sub_name s) "a.c")
                 (subcategories Sample.db_sub) = false)
  /\ (SubCategoryRoutes.name_errors sub_cpp = []
      /\ handle (SubCategoryRoutes.create_subcategory 1 Sample.idC sub_cpp) Sample.db_sub =
         (ServerError "Failed to create subcategory", Sample.db_sub, [Read Categories])).
Proof. vm_compute. repeat split. Qed.

(** * Further properties *)

(** ** What a request does to the store *)

Module Effects.
Import Server.

Lemma store_after_run {A} (m : M (response A)) (d : db) :
  store_after m d = store (snd (m (fresh d))).
Proof. unfold store_after, handle. now destruct (m (fresh d)) as [[r|e] w]. Qed.

(** Case analysis on what a handler examines, innermost first. *)
Ltac break :=
  match goal with
  | |- context [match ?x with _ => _ end] =>
    lazymatch x with
    | context [match _ with _ => _ end] => fail
    | _ => destruct x eqn:?
    end
  end.

Ltac tidy := cbn [fst snd store trace fresh stored logged app negb].

Ltac unfold_handler :=
  cbv beta iota delta
    [bind ret throw try_catch log get_db put_db catch_all cast_id new_RegExp
     CustomerRoutes.catch_create CustomerRoutes.catch_update
     CategoryModel.find_all CategoryModel.findById CategoryModel.findOne
     CategoryModel.insert CategoryModel.update CategoryModel.findByIdAndDelete
     SubCategoryModel.find_where SubCategoryModel.findById SubCategoryModel.findOne
     SubCategoryModel.countDocuments SubCategoryModel.insert SubCategoryModel.update
     SubCategoryModel.findByIdAndDelete SubCategoryModel.populate
     CustomerModel.create CustomerModel.findByIdAndUpdate CustomerModel.findById
     CustomerModel.findByIdAndDelete CustomerModel.populate_all
     SubCategoryRoutes.categoryId_errors SubCategoryRoutes.populate_all
     SubCategoryRoutes.reload CustomerRoutes.new_ObjectId CustomerRoutes.objectId_or_null
     CustomerRoutes.store_regex CustomerRoutes.traverse
     StatusRoutes.distinct_status];
  tidy.

Ltac run_handler := rewrite store_after_run; unfold_handler.

Ltac cases := repeat (break; tidy).

Lemma create_category_effect (now : Z) (newId : ObjectId.t) (b : CategoryRoutes.body) (d : db) :
  let d' := store_after (CategoryRoutes.create_category now newId b) d in
  d' = d
  \/ exists c c',
       CategoryModel.validate c = inl c'
       /\ cat_id c = newId
       /\ CategoryModel.name_taken c' (categories d) = false
       /\ d' = CategoryModel.set_categories (categories d ++ [c']) d.
Proof.
  unfold CategoryRoutes.create_category. run_handler. cases; auto.
  right. eexists _, _. split; [eassumption|]. split; [reflexivity|]. now split.
Qed.


Lemma update_category_effect (id : string) (b : CategoryRoutes.body) (d : db) :
  let d' := store_after (CategoryRoutes.update_category id b) d in
  d' = d
  \/ exists old c c',
       CategoryModel.validate c = inl c'
       /\ In old (categories d)
       /\ cat_id c = cat_id old
       /\ CategoryModel.name_taken c' (categories d) = false
       /\ d' = CategoryModel.set_categories (CategoryModel.replace c' (categories d)) d.
Proof.
  unfold CategoryRoutes.update_category. run_handler. cases; auto.
  all: right; eexists _, _, _; (split; [eassumption|]);
    (split; [eapply find_some; eassumption|]); split; [reflexivity|]; now split.
Qed.


Lemma delete_category_effect (id : string) (d : db) :
  let d' := store_after (CategoryRoutes.delete_category id) d in
  d' = d
  \/ exists o,
       existsb (SubCategoryModel.in_category o) (subcategories d) = false
       /\ d' = CategoryModel.set_categories
                 (filter (fun c => negb (CategoryModel.by_id o c)) (categories d)) d.
Proof.
  unfold CategoryRoutes.delete_category. run_handler. cases; auto.
  right. eexists. split; [|reflexivity].
  rewrite length_filter_pos in *. eassumption.
Qed.

Lemma create_subcategory_effect (now : Z) (newId : ObjectId.t) (b : SubCategoryRoutes.body)
    (d : db) :
  let d' := store_after (SubCategoryRoutes.create_subcategory now newId b) d in
  d' = d
  \/ exists s s' cat,
       SubCategoryModel.validate s = inl s'
       /\ sub_id s = newId
       /\ find (CategoryModel.by_id (sub_category s)) (categories d) = Some cat
       /\ SubCategoryModel.pair_taken s' (subcategories d) = false
       /\ d' = SubCategoryModel.set_subcategories (subcategories d ++ [s']) d.
Proof.
  unfold SubCategoryRoutes.create_subcategory. run_handler.
  destruct (SubCategoryRoutes.name_errors b); tidy; cases; auto.
  all: right; eexists _, _, _; (split; [eassumption|]); (split; [reflexivity|]);
    (split; [eassumption|]); now split.
Qed.

Lemma update_subcategory_effect (now : Z) (id : string) (b : SubCategoryRoutes.body) (d : db) :
  let d' := store_after (SubCategoryRoutes.update_subcategory now id b) d in
  d' = d
  \/ exists old s s' cat,
       SubCategoryModel.validate s = inl s'
       /\ In old (subcategories d)
       /\ sub_id s = sub_id old
       /\ find (CategoryModel.by_id (sub_category s)) (categories d) = Some cat
       /\ SubCategoryModel.pair_taken (SubCategoryModel.touch now s') (subcategories d) = false
       /\ d' = SubCategoryModel.set_subcategories
                 (SubCategoryModel.replace (SubCategoryModel.touch now s') (subcategories d)) d.
Proof.
  unfold SubCategoryRoutes.update_subcategory. run_handler.
  destruct (SubCategoryRoutes.id_errors id), (SubCategoryRoutes.name_errors b); tidy; cases; auto.
  all: right; eexists _, _, _, _; (split; [eassumption|]);
    (split; [eapply find_some; eassumption|]); (split; [reflexivity|]);
    (split; [eassumption|]); now split.
Qed.

Lemma delete_subcategory_effect (id : string) (d : db) :
  let d' := store_after (SubCategoryRoutes.delete_subcategory id) d in
  d' = d
  \/ exists o,
       d' = SubCategoryModel.set_subcategories
              (filter (fun s => negb (SubCategoryModel.by_id o s)) (subcategories d)) d.
Proof.
  unfold SubCategoryRoutes.delete_subcategory. run_handler. cases; auto.
  all: right; eexists; reflexivity.
Qed.

Lemma delete_customer_effect (id : string) (d : db) :
  let d' := store_after (CustomerRoutes.delete_customer id) d in
  d' = d
  \/ exists o,
       d' = CustomerModel.set_customers
              (filter (fun c => negb (CustomerModel.by_id o c)) (customers d)) d.
Proof.
  unfold CustomerRoutes.delete_customer. run_handler. cases; auto.
  all: right; eexists; reflexivity.
Qed.

(** The routes that read leave the store as it is. *)
Lemma read_effect (r : request) (d : db) : reads r = true -> serve r d = d.
Proof.
  destruct r; try discriminate; intros _; cbn [serve].
  - unfold CategoryRoutes.list_categories. now run_handler.
  - unfold CategoryRoutes.get_category. run_handler. now cases.
  - unfold SubCategoryRoutes.list_subcategories. run_handler. now cases.
  - unfold SubCategoryRoutes.get_subcategory. run_handler. now cases.
  - unfold SubCategoryRoutes.list_by_category. run_handler. now cases.
  - unfold CustomerRoutes.list_customers. run_handler. now cases.
  - unfold CustomerRoutes.get_customer. run_handler. now cases.
  - unfold StatusRoutes.list_statuses. now run_handler.
Qed.

End Effects.

(** ** Documents that pass the validators *)

Module SchemaFacts.
Import CustomerModel CustomerSchema.

Lemma hex_lower (c : ascii) : Js.isHexDigit c = true -> Js.isHexDigit (Js.toLowerChar c) = true.
Proof. destruct c as [[] [] [] [] [] [] [] []]; vm_compute; congruence. Qed.

Lemma length_str (l : list ascii) : String.length (Js.str l) = length l.
Proof. now rewrite <- JsFacts.length_chars, JsFacts.chars_str. Qed.

(** A cast identifier is in canonical form, and well formed. *)
Lemma cast_valid (s : string) (o : ObjectId.t) :
  ObjectId.cast s = Some o -> ObjectId.isValid o = true.
Proof.
  unfold ObjectId.cast. destruct (ObjectId.isValid s) eqn:E; [|discriminate].
  intros [= <-]. unfold ObjectId.isValid in *. apply andb_prop in E as [Hlen Hhex].
  unfold Js.toLowerCase. rewrite length_str, length_map, JsFacts.length_chars, Hlen.
  rewrite JsFacts.chars_str. cbn [andb].
  rewrite forallb_forall in *. intros c Hc. apply in_map_iff in Hc as (x & <- & Hx).
  now apply hex_lower, Hhex.
Qed.

Lemma or_old_required (path msg : string) (v : option string) (old : string) :
  required path msg v = [] -> v <> None \/ filled old = true ->
  filled (or_old v old) = true.
Proof.
  unfold required, filled. destruct v as [s|]; cbn [or_old].
  - now destruct (String.eqb s "").
  - intros _ [H|H]; [contradiction | exact H].
Qed.

Lemma or_old_length (path : string) (n : nat) (msg : string) (v : option string)
    (old : string) :
  maxlength path n msg (lift v) = [] -> v <> None \/ at_most n old = true ->
  at_most n (or_old v old) = true.
Proof.
  unfold maxlength, at_most. destruct v as [s|]; cbn [or_old lift option_map].
  - destruct (Nat.ltb_spec n (String.length s)); [discriminate|]. intros _ _.
    now apply Nat.leb_le.
  - intros _ [H|H]; [contradiction | exact H].
Qed.

Lemma or_old_maxlength (path : string) (n : nat) (msg : string)
    (v : option (option string)) (old : option string) :
  maxlength path n msg v = [] -> optional (at_most n) old = true ->
  optional (at_most n) (or_old v old) = true.
Proof.
  unfold maxlength, at_most. destruct v as [[s|]|]; cbn [or_old optional]; auto.
  destruct (Nat.ltb_spec n (String.length s)); [discriminate|]. intros _ _.
  now apply Nat.leb_le.
Qed.

Lemma or_old_matches (path msg : string) (ok : string -> bool)
    (v : option (option string)) (old : option string) :
  matches path msg ok v = [] ->
  optional (fun s => String.eqb s "" || ok s) old = true ->
  optional (fun s => String.eqb s "" || ok s) (or_old v old) = true.
Proof.
  unfold matches. destruct v as [[s|]|]; cbn [or_old optional]; auto.
  now destruct (String.eqb s "" || ok s).
Qed.

Lemma or_old_phone (msg msg' : string) (v : option string) (old : string) :
  required "phone" msg v = [] -> matches "phone" msg' phone_ok (lift v) = [] ->
  v <> None \/ phone_ok old = true ->
  phone_ok (or_old v old) = true.
Proof.
  unfold required, matches. destruct v as [s|]; cbn [or_old lift option_map].
  - destruct (String.eqb s ""); [discriminate|]. cbn [orb].
    now destruct (phone_ok s).
  - intros _ _ [H|H]; [contradiction | exact H].
Qed.

Lemma or_old_enum (path : string) (values : list string) (v : option string) (old : string) :
  enum path values v = [] -> includes values old = true ->
  includes values (or_old v old) = true.
Proof.
  unfold enum. destruct v as [s|]; cbn [or_old]; auto.
  now destruct (includes values s).
Qed.

Lemma or_old_min0 (path msg : string) (v : option Q) (old : option Q) :
  min0 path msg v = [] -> optional (Qle_bool 0) old = true ->
  optional (Qle_bool 0) (or_old (option_map Some v) old) = true.
Proof.
  unfold min0. destruct v as [q|]; cbn [or_old option_map optional]; auto.
  now destruct (Qle_bool 0 q).
Qed.

Lemma or_old_optional {A} (ok : A -> bool) (v : option A) (old : A) :
  optional ok v = true -> v <> None \/ ok old = true -> ok (or_old v old) = true.
Proof.
  destruct v as [a|]; cbn [or_old optional]; auto. intros _ [H|H]; [contradiction | exact H].
Qed.

Lemma or_old_optional2 {A} (ok : A -> bool) (v : option (option A)) (old : option A) :
  optional (optional ok) v = true -> optional ok old = true ->
  optional ok (or_old v old) = true.
Proof. destruct v as [a|]; cbn [or_old optional]; auto. Qed.

(** The validators passed, a document is in order once its paths are set:
    an update of a document that is in order, or a new document with the
    required paths given. *)
Lemma set_paths_valid (now : Z) (p : paths) (c : Customer) :
  validation_errors now p = [] ->
  optional ObjectId.isValid (p_serviceCategory p) = true ->
  optional (optional ObjectId.isValid) (p_serviceSubCategory p) = true ->
  valid c = true
  \/ ((exists newId t, c = defaults newId t)
      /\ p_name p <> None /\ p_phone p <> None /\ p_address p <> None
      /\ p_serviceCategory p <> None /\ p_serviceCategoryName p <> None) ->
  valid (set_paths p c) = true.
Proof.
  intros Hv Hsc Hssc Hc.
  assert (R : (p_name p <> None \/ filled (cus_name c) = true)
              /\ (p_name p <> None \/ at_most 100 (cus_name c) = true)
              /\ (p_phone p <> None \/ phone_ok (cus_phone c) = true)
              /\ (p_address p <> None \/ filled (cus_address c) = true)
              /\ (p_address p <> None \/ at_most 500 (cus_address c) = true)
              /\ (p_serviceCategory p <> None \/ ObjectId.isValid (cus_serviceCategory c) = true)
              /\ (p_serviceCategoryName p <> None \/ filled (cus_serviceCategoryName c) = true)).
  { destruct Hc as [Hc|(_ & ? & ? & ? & ? & ?)]; [|tauto].
    unfold valid in Hc. repeat (apply andb_prop in Hc as [Hc ?]). tauto. }
  assert (O : optional (fun s => String.eqb s "" || email_ok s) (cus_email c) = true
              /\ optional (at_most 100) (cus_city c) = true
              /\ optional (at_most 100) (cus_state c) = true
              /\ optional (at_most 20) (cus_zipCode c) = true
              /\ optional ObjectId.isValid (cus_serviceSubCategory c) = true
              /\ optional (at_most 50) (cus_serviceNumber c) = true
              /\ includes statuses (cus_status c) = true
              /\ optional (Qle_bool 0) (cus_fees c) = true
              /\ includes gstStatuses (cus_gstStatus c) = true
              /\ optional (at_most 50) (cus_gstNumber c) = true
              /\ includes deliveryStatuses (cus_deliveryStatus c) = true
              /\ optional (at_most 2000) (cus_notes c) = true).
  { destruct Hc as [Hc|((newId & t & ->) & _)]; [|now vm_compute].
    unfold valid in Hc. repeat (apply andb_prop in Hc as [Hc ?]). tauto. }
  clear Hc. destruct R as (R1 & R2 & R3 & R4 & R5 & R6 & R7).
  destruct O as (O1 & O2 & O3 & O4 & O5 & O6 & O7 & O8 & O9 & O10 & O11 & O12).
  unfold validation_errors in Hv. repeat (apply app_eq_nil in Hv as [? Hv]).
  unfold valid.
  cbn [set_paths cus_name cus_email cus_phone cus_address cus_city cus_state cus_zipCode
       cus_serviceCategory cus_serviceCategoryName cus_serviceSubCategory cus_serviceNumber
       cus_status cus_fees cus_gstStatus cus_gstNumber cus_deliveryStatus cus_notes].
  repeat match goal with |- (_ && _) = true => apply andb_true_intro; split end.
  - eapply or_old_required; eassumption.
  - eapply or_old_length; eassumption.
  - eapply or_old_matches; eassumption.
  - eapply or_old_phone; eassumption.
  - eapply or_old_required; eassumption.
  - eapply or_old_length; eassumption.
  - eapply or_old_maxlength; eassumption.
  - eapply or_old_maxlength; eassumption.
  - eapply or_old_maxlength; eassumption.
  - apply or_old_optional; assumption.
  - eapply or_old_required; eassumption.
  - apply or_old_optional2; assumption.
  - eapply or_old_maxlength; eassumption.
  - eapply or_old_enum; eassumption.
  - eapply or_old_min0; eassumption.
  - eapply or_old_enum; eassumption.
  - eapply or_old_maxlength; eassumption.
  - eapply or_old_enum; eassumption.
  - eapply or_old_maxlength; eassumption.
Qed.

End SchemaFacts.

Module CustomerEffects.
Import Server Effects SchemaFacts CustomerModel CustomerSchema CustomerRoutes.

Lemma missing_nil (b : body) :
  missingFields b = [] ->
  truthy (name b) = true /\ truthy (phone b) = true /\ truthy (address b) = true
  /\ truthy (serviceCategory b) = true /\ truthy (serviceCategoryName b) = true.
Proof.
  unfold missingFields, requiredFields. cbn [filter map snd].
  destruct (truthy (name b)), (truthy (phone b)), (truthy (address b)),
           (truthy (serviceCategory b)), (truthy (serviceCategoryName b));
    cbn; intros; try discriminate; auto.
Qed.

Lemma trim_or_null_truthy (v : jsstr) :
  truthy v = true -> trim_or_null v = Some (Js.trim (text v)).
Proof. destruct v as [| |s]; try discriminate. cbn [truthy trim_or_null text]. now intros ->. Qed.

(** What POST stores passes the validators of the schema. *)
Lemma created_valid (now : Z) (newId : ObjectId.t) (b : body) (sc ssc : option ObjectId.t) :
  let p := apply_setters (customerData b sc ssc) in
  missingFields b = [] ->
  cast_errors p ++ validation_errors now p = [] ->
  sc <> None -> optional ObjectId.isValid sc = true -> optional ObjectId.isValid ssc = true ->
  valid (set_paths p (defaults newId now)) = true
  /\ born_by now (set_paths p (defaults newId now)) = true.
Proof.
  intros p Hm He Hsc Hvsc Hvssc. apply app_eq_nil in He as [_ He].
  apply missing_nil in Hm as (_ & _ & _ & _ & Hscn). split.
  - apply (set_paths_valid now); [exact He | exact Hvsc | exact Hvssc |].
    right. split; [now eexists _, _|].
    subst p. unfold apply_setters, customerData.
    cbn [p_name p_phone p_address p_serviceCategory p_serviceCategoryName trim1 option_map].
    rewrite (trim_or_null_truthy _ Hscn). cbn [option_map].
    repeat split; try discriminate. exact Hsc.
  - unfold validation_errors in He. apply app_eq_nil in He as [_ He].
    apply app_eq_nil in He as [_ He]. apply app_eq_nil in He as [He _].
    subst p. unfold born_by. cbn [set_paths cus_dateOfBirth apply_setters customerData
      p_dateOfBirth option_map or_old] in *.
    unfold not_in_future in He. destruct (date_or_null (dateOfBirth b)); cbn; try reflexivity.
    now destruct (t <=? now)%Z.
Qed.

Lemma create_customer_effect (now : Z) (newId : ObjectId.t) (b : body) (d : db) :
  let d' := store_after (create_customer now newId b) d in
  d' = d
  \/ exists c,
       valid c = true /\ born_by now c = true
       /\ cus_id c = newId /\ cus_createdAt c = now /\ cus_updatedAt c = now
       /\ d' = set_customers (customers d ++ [c]) d.
Proof.
  unfold create_customer. run_handler. cases; auto.
  all: match goal with
       | H : missingFields _ = [], T : truthy (serviceCategory _) = false |- _ =>
         apply missing_nil in H as (_ & _ & _ & H & _); congruence
       | _ => idtac
       end.
  all: right; eexists; split; [|split; [|repeat split]];
    try (eapply created_valid; try eassumption; try discriminate; cbn [optional];
         eauto using cast_valid); reflexivity.
Qed.

Lemma update_customer_effect (now : Z) (id : string) (b : body) (d : db) :
  let d' := store_after (update_customer now id b) d in
  d' = d
  \/ exists old p,
       In old (customers d)
       /\ validation_errors now p = []
       /\ optional ObjectId.isValid (p_serviceCategory p) = true
       /\ optional (optional ObjectId.isValid) (p_serviceSubCategory p) = true
       /\ d' = set_customers (replace (set_paths p old) (customers d)) d.
Proof.
  unfold update_customer. run_handler. cases; auto.
  all: right; eexists _, _; (split; [eapply find_some; eassumption|]);
    (split; [eassumption|]); unfold apply_setters, updateData;
    cbn [p_serviceCategory p_serviceSubCategory optional];
    repeat split; eauto using cast_valid.
Qed.

(** POST answers 201 only at the end of its handler. *)
Lemma create_customer_created (now : Z) (newId : ObjectId.t) (b : body) (d : db)
    (P : Customer -> db -> list access -> Prop) :
  (forall sc ssc,
     let p := apply_setters (customerData (normalize b) sc ssc) in
     missingFields (normalize b) = [] ->
     object_id (serviceCategory (normalize b)) = Some sc ->
     object_id (serviceSubCategory (normalize b)) = Some ssc ->
     cast_errors p ++ validation_errors now p = [] ->
     P (set_paths p (defaults newId now))
       (set_customers (customers d ++ [set_paths p (defaults newId now)]) d)
       [Write Customers]) ->
  forall c d' t,
    handle (create_customer now newId b) d = (Created c, d', t) -> P c d' t.
Proof.
  intros HP c d' t. unfold handle, create_customer. unfold_handler.
  cases; intros [= <- <- <-]; apply HP; try assumption; unfold object_id;
    repeat match goal with H : truthy _ = _ |- _ => rewrite H; clear H end;
    repeat match goal with H : ObjectId.cast _ = _ |- _ => rewrite H; clear H end;
    reflexivity.
Qed.

(** PUT answers 200 only at the end of its handler. *)
Lemma update_customer_updated (now : Z) (id : string) (b : body) (d : db)
    (P : Customer -> db -> list access -> Prop) :
  (forall o old p,
     ObjectId.cast id = Some o ->
     find (by_id o) (customers d) = Some old ->
     update_paths now b = Some p ->
     validation_errors now p = [] ->
     P (set_paths p old) (set_customers (replace (set_paths p old) (customers d)) d)
       [Write Customers]) ->
  forall c d' t,
    handle (update_customer now id b) d = (Ok c, d', t) -> P c d' t.
Proof.
  intros HP c d' t. unfold handle, update_customer. unfold_handler.
  cases; intros [= <- <- <-]; eapply HP; try eassumption; unfold update_paths, object_id;
    repeat match goal with H : subcategory_malformed _ = _ |- _ => rewrite H; clear H end;
    repeat match goal with H : truthy _ = _ |- _ => rewrite H; clear H end;
    repeat match goal with H : ObjectId.cast (text _) = _ |- _ => rewrite H; clear H end;
    reflexivity.
Qed.

End CustomerEffects.

(** ** Invariants of the store *)

Module InvariantFacts.
Import Server Effects Invariant.

Lemma by_id_eq (o : ObjectId.t) (c : Category) :
  CategoryModel.by_id o c = true <-> cat_id c = o.
Proof. apply String.eqb_eq. Qed.

Lemma references_iff (d : db) :
  references_hold d = true <->
  forall s, In s (subcategories d) -> exists c, In c (categories d) /\ cat_id c = sub_category s.
Proof.
  unfold references_hold. rewrite forallb_forall. split; intros H s Hs.
  - destruct (proj1 (existsb_exists _ _) (H s Hs)) as (c & Hc & E).
    exists c. split; [exact Hc | now apply by_id_eq].
  - destruct (H s Hs) as (c & Hc & E). apply existsb_exists. exists c.
    split; [exact Hc | now apply by_id_eq].
Qed.

Lemma category_validated (c c' : Category) :
  CategoryModel.validate c = inl c' ->
  cat_id c' = cat_id c /\ cat_name c' = Js.trim (cat_name c) /\ cat_name c' <> ""%string
  /\ cat_url c' = Js.trim (cat_url c) /\ cat_createdAt c' = cat_createdAt c.
Proof.
  unfold CategoryModel.validate.
  destruct (String.eqb_spec (Js.trim (cat_name c)) ""); [discriminate|].
  intros [= <-]. cbn. auto.
Qed.

Lemma subcategory_validated (s s' : SubCategory) :
  SubCategoryModel.validate s = inl s' ->
  sub_id s' = sub_id s /\ sub_name s' = Js.trim (sub_name s) /\ sub_name s' <> ""%string
  /\ sub_category s' = sub_category s
  /\ sub_description s' = Js.trim (sub_description s)
  /\ sub_createdAt s' = sub_createdAt s /\ sub_updatedAt s' = sub_updatedAt s.
Proof.
  unfold SubCategoryModel.validate.
  destruct (String.eqb_spec (Js.trim (sub_name s)) ""); [discriminate|].
  intros [= <-]. cbn. repeat split; auto.
Qed.

Lemma in_category_replace (c : Category) (l : list Category) (x : Category) :
  In x (CategoryModel.replace c l) ->
  (x = c /\ exists y, In y l /\ cat_id y = cat_id c) \/ (In x l /\ cat_id x <> cat_id c).
Proof.
  unfold CategoryModel.replace. intros H. apply in_map_iff in H as (y & E & Hy).
  destruct (CategoryModel.by_id (cat_id c) y) eqn:B.
  - left. split; [now symmetry|]. exists y. split; [exact Hy | now apply by_id_eq].
  - right. subst x. split; [exact Hy|]. intros E. apply by_id_eq in E. congruence.
Qed.

Lemma category_replace_in (c : Category) (l : list Category) (y : Category) :
  In y l -> In (if CategoryModel.by_id (cat_id c) y then c else y) (CategoryModel.replace c l).
Proof. intros H. unfold CategoryModel.replace. apply in_map_iff. now exists y. Qed.

Lemma in_subcategory_replace (s : SubCategory) (l : list SubCategory) (x : SubCategory) :
  In x (SubCategoryModel.replace s l) ->
  (x = s /\ exists y, In y l /\ sub_id y = sub_id s) \/ (In x l /\ sub_id x <> sub_id s).
Proof.
  unfold SubCategoryModel.replace. intros H. apply in_map_iff in H as (y & E & Hy).
  destruct (SubCategoryModel.by_id (sub_id s) y) eqn:B.
  - left. split; [now symmetry|]. exists y. split; [exact Hy | now apply String.eqb_eq].
  - right. subst x. split; [exact Hy|]. intros E.
    unfold SubCategoryModel.by_id, ObjectId.eqb in B. apply String.eqb_neq in B. congruence.
Qed.

Ltac effect_of lem :=
  let E := fresh "E" in
  pose proof lem as E; cbv zeta in E.

(** No request leaves a subcategory without its category. *)
Lemma references_step (r : request) (d : db) :
  references_hold d = true -> references_hold (serve r d) = true.
Proof.
  intros H. destruct (reads r) eqn:R; [now rewrite read_effect|].
  rewrite references_iff in *.
  destruct r; try discriminate; cbn [serve].
  - effect_of (create_category_effect now newId b d).
    destruct E as [->|(c & c' & _ & _ & _ & ->)]; [exact H|].
    intros s Hs. destruct (H s Hs) as (x & Hx & E). exists x. split; [|exact E].
    cbn. apply in_or_app. now left.
  - effect_of (update_category_effect id b d).
    destruct E as [->|(old & c & c' & Hv & Hold & Hid & _ & ->)]; [exact H|].
    apply category_validated in Hv as (Hid' & _).
    intros s Hs. destruct (H s Hs) as (x & Hx & E). cbn [categories CategoryModel.set_categories].
    eexists. split; [apply (category_replace_in c' _ x Hx)|].
    destruct (CategoryModel.by_id (cat_id c') x) eqn:B; [|exact E].
    apply by_id_eq in B. congruence.
  - effect_of (delete_category_effect id d).
    destruct E as [->|(o & Hdep & ->)]; [exact H|].
    intros s Hs. cbn in Hs. destruct (H s Hs) as (x & Hx & E). exists x. split; [|exact E].
    cbn. apply filter_In. split; [exact Hx|]. apply negb_true_iff.
    destruct (CategoryModel.by_id o x) eqn:B; [|reflexivity].
    apply by_id_eq in B. rewrite existsb_false_iff in Hdep. specialize (Hdep s Hs).
    unfold SubCategoryModel.in_category, ObjectId.eqb in Hdep. apply String.eqb_neq in Hdep.
    congruence.
  - effect_of (create_subcategory_effect now newId b d).
    destruct E as [->|(s0 & s' & cat & Hv & _ & Hcat & _ & ->)]; [exact H|].
    apply subcategory_validated in Hv as (_ & _ & _ & Hc & _).
    intros s Hs. cbn in Hs. apply in_app_or in Hs as [Hs|[<-|[]]]; [now apply H|].
    exists cat. apply find_some in Hcat as [Hin B]. apply by_id_eq in B.
    split; [exact Hin | congruence].
  - effect_of (update_subcategory_effect now id b d).
    destruct E as [->|(old & s0 & s' & cat & Hv & _ & _ & Hcat & _ & ->)]; [exact H|].
    apply subcategory_validated in Hv as (_ & _ & _ & Hc & _).
    intros s Hs. cbn in Hs. apply in_subcategory_replace in Hs as [[-> _]|[Hs _]];
      [|now apply H].
    exists cat. apply find_some in Hcat as [Hin B]. apply by_id_eq in B.
    split; [exact Hin|]. cbn. congruence.
  - effect_of (delete_subcategory_effect id d).
    destruct E as [->|(o & ->)]; [exact H|].
    intros s Hs. cbn in Hs. apply filter_In in Hs as [Hs _]. now apply H.
  - effect_of (CustomerEffects.create_customer_effect now newId b d).
    destruct E as [->|(c & _ & _ & _ & _ & _ & ->)]; exact H.
  - effect_of (CustomerEffects.update_customer_effect now id b d).
    destruct E as [->|(old & p & _ & _ & _ & _ & ->)]; exact H.
  - effect_of (delete_customer_effect id d).
    destruct E as [->|(o & ->)]; exact H.
Qed.

Lemma run_invariant (inv : db -> bool) :
  (forall r d, inv d = true -> inv (serve r d) = true) ->
  forall rs d, inv d = true -> inv (run rs d) = true.
Proof.
  intros Hstep rs. induction rs as [|r rs IH]; intros d H; [exact H|].
  cbn. apply IH, Hstep, H.
Qed.


(** *** Names *)

Lemma name_kept_iff (name : string) :
  name_kept name = true <-> name <> ""%string /\ Js.trim name = name.
Proof.
  unfold name_kept. rewrite andb_true_iff, negb_true_iff, String.eqb_neq, String.eqb_eq.
  tauto.
Qed.

Lemma name_free (c : Category) (l : list Category) :
  CategoryModel.name_taken c l = false <->
  forall x, In x l -> cat_name x = cat_name c -> cat_id x = cat_id c.
Proof.
  unfold CategoryModel.name_taken. rewrite existsb_false_iff. split; intros H x Hx.
  - intros E. specialize (H x Hx). apply andb_false_iff in H as [H|H].
    + apply negb_false_iff in H. now apply String.eqb_eq in H.
    + apply String.eqb_neq in H. contradiction.
  - destruct (String.eqb_spec (cat_name x) (cat_name c)) as [E|E]; [|apply andb_false_r].
    unfold ObjectId.eqb. rewrite (H x Hx E), String.eqb_refl. reflexivity.
Qed.

Lemma categories_iff (d : db) :
  categories_in_order d = true <->
  (forall c, In c (categories d) -> cat_name c <> ""%string /\ Js.trim (cat_name c) = cat_name c)
  /\ (forall x y, In x (categories d) -> In y (categories d) ->
        cat_name x = cat_name y -> cat_id x = cat_id y).
Proof.
  unfold categories_in_order. rewrite forallb_forall. split.
  - intros H. split.
    + intros c Hc. specialize (H c Hc). apply andb_prop in H as [H _].
      now apply name_kept_iff.
    + intros x y Hx Hy. specialize (H y Hy). apply andb_prop in H as [_ H].
      apply negb_true_iff in H. rewrite name_free in H. now apply H.
  - intros [H1 H2] c Hc. apply andb_true_intro. split.
    + now apply name_kept_iff, H1.
    + apply negb_true_iff, name_free. intros x Hx. now apply H2.
Qed.

Lemma pair_free (s : SubCategory) (l : list SubCategory) :
  SubCategoryModel.pair_taken s l = false <->
  forall x, In x l -> sub_name x = sub_name s -> sub_category x = sub_category s ->
            sub_id x = sub_id s.
Proof.
  unfold SubCategoryModel.pair_taken. rewrite existsb_false_iff. split; intros H x Hx.
  - intros E1 E2. specialize (H x Hx). unfold ObjectId.eqb in H.
    rewrite E1, E2, !String.eqb_refl, !andb_true_r in H.
    apply negb_false_iff in H. now apply String.eqb_eq in H.
  - unfold ObjectId.eqb.
    destruct (String.eqb_spec (sub_name x) (sub_name s)) as [E1|E1];
      [|now rewrite andb_false_r].
    destruct (String.eqb_spec (sub_category x) (sub_category s)) as [E2|E2];
      [|now rewrite andb_false_r].
    rewrite (H x Hx E1 E2), String.eqb_refl. reflexivity.
Qed.

Lemma subcategories_iff (d : db) :
  subcategories_in_order d = true <->
  (forall s, In s (subcategories d) ->
     sub_name s <> ""%string /\ Js.trim (sub_name s) = sub_name s)
  /\ (forall x y, In x (subcategories d) -> In y (subcategories d) ->
        sub_name x = sub_name y -> sub_category x = sub_category y -> sub_id x = sub_id y).
Proof.
  unfold subcategories_in_order. rewrite forallb_forall. split.
  - intros H. split.
    + intros c Hc. specialize (H c Hc). apply andb_prop in H as [H _].
      now apply name_kept_iff.
    + intros x y Hx Hy. specialize (H y Hy). apply andb_prop in H as [_ H].
      apply negb_true_iff in H. rewrite pair_free in H. now apply H.
  - intros [H1 H2] c Hc. apply andb_true_intro. split.
    + now apply name_kept_iff, H1.
    + apply negb_true_iff, pair_free. intros x Hx. now apply H2.
Qed.

(** The category routes keep the names in order; the other routes do not
    touch the categories. *)
Lemma categories_step (r : request) (d : db) :
  categories_in_order d = true -> categories_in_order (serve r d) = true.
Proof.
  intros H. destruct (reads r) eqn:R; [now rewrite read_effect|].
  rewrite categories_iff in *. destruct H as [Hname Huniq].
  destruct r; try discriminate; cbn [serve].
  - effect_of (create_category_effect now newId b d).
    destruct E as [->|(c & c' & Hv & _ & Hfree & ->)]; [now split|].
    apply category_validated in Hv as (_ & Hn & Hne & _). rewrite name_free in Hfree.
    cbn [categories CategoryModel.set_categories]. split.
    + intros x Hx. apply in_app_or in Hx as [Hx|[<-|[]]]; [now apply Hname|].
      split; [exact Hne|]. rewrite Hn. apply JsFacts.trim_idem.
    + intros x y Hx Hy E.
      apply in_app_or in Hx as [Hx|[<-|[]]]; apply in_app_or in Hy as [Hy|[<-|[]]].
      * now apply Huniq.
      * now apply Hfree.
      * symmetry. apply Hfree; [exact Hy | now symmetry].
      * reflexivity.
  - effect_of (update_category_effect id b d).
    destruct E as [->|(old & c & c' & Hv & _ & _ & Hfree & ->)]; [now split|].
    apply category_validated in Hv as (_ & Hn & Hne & _). rewrite name_free in Hfree.
    cbn [categories CategoryModel.set_categories]. split.
    + intros x Hx. apply in_category_replace in Hx as [[-> _]|[Hx _]]; [|now apply Hname].
      split; [exact Hne|]. rewrite Hn. apply JsFacts.trim_idem.
    + intros x y Hx Hy E.
      apply in_category_replace in Hx as [[-> _]|[Hx Nx]];
        apply in_category_replace in Hy as [[-> _]|[Hy Ny]].
      * reflexivity.
      * symmetry. apply Hfree; [exact Hy | now symmetry].
      * now apply Hfree.
      * now apply Huniq.
  - effect_of (delete_category_effect id d).
    destruct E as [->|(o & _ & ->)]; [now split|].
    cbn [categories CategoryModel.set_categories]. split.
    + intros x Hx. apply filter_In in Hx as [Hx _]. now apply Hname.
    + intros x y Hx Hy. apply filter_In in Hx as [Hx _]. apply filter_In in Hy as [Hy _].
      now apply Huniq.
  - effect_of (create_subcategory_effect now newId b d).
    destruct E as [->|(s0 & s' & cat & _ & _ & _ & _ & ->)]; now split.
  - effect_of (update_subcategory_effect now id b d).
    destruct E as [->|(old & s0 & s' & cat & _ & _ & _ & _ & _ & ->)]; now split.
  - effect_of (delete_subcategory_effect id d).
    destruct E as [->|(o & ->)]; now split.
  - effect_of (CustomerEffects.create_customer_effect now newId b d).
    destruct E as [->|(c & _ & _ & _ & _ & _ & ->)]; now split.
  - effect_of (CustomerEffects.update_customer_effect now id b d).
    destruct E as [->|(old & p & _ & _ & _ & _ & ->)]; now split.
  - effect_of (delete_customer_effect id d).
    destruct E as [->|(o & ->)]; now split.
Qed.

Lemma subcategories_step (r : request) (d : db) :
  subcategories_in_order d = true -> subcategories_in_order (serve r d) = true.
Proof.
  intros H. destruct (reads r) eqn:R; [now rewrite read_effect|].
  rewrite subcategories_iff in *. destruct H as [Hname Huniq].
  destruct r; try discriminate; cbn [serve].
  - effect_of (create_category_effect now newId b d).
    destruct E as [->|(c & c' & _ & _ & _ & ->)]; now split.
  - effect_of (update_category_effect id b d).
    destruct E as [->|(old & c & c' & _ & _ & _ & _ & ->)]; now split.
  - effect_of (delete_category_effect id d).
    destruct E as [->|(o & _ & ->)]; now split.
  - effect_of (create_subcategory_effect now newId b d).
    destruct E as [->|(s0 & s' & cat & Hv & _ & _ & Hfree & ->)]; [now split|].
    apply subcategory_validated in Hv as (_ & Hn & Hne & _). rewrite pair_free in Hfree.
    cbn [subcategories SubCategoryModel.set_subcategories]. split.
    + intros x Hx. apply in_app_or in Hx as [Hx|[<-|[]]]; [now apply Hname|].
      split; [exact Hne|]. rewrite Hn. apply JsFacts.trim_idem.
    + intros x y Hx Hy E1 E2.
      apply in_app_or in Hx as [Hx|[<-|[]]]; apply in_app_or in Hy as [Hy|[<-|[]]].
      * now apply Huniq.
      * now apply Hfree.
      * symmetry. apply Hfree; [exact Hy | now symmetry | now symmetry].
      * reflexivity.
  - effect_of (update_subcategory_effect now id b d).
    destruct E as [->|(old & s0 & s' & cat & Hv & _ & _ & _ & Hfree & ->)]; [now split|].
    apply subcategory_validated in Hv as (_ & Hn & Hne & _). rewrite pair_free in Hfree.
    cbn [subcategories SubCategoryModel.set_subcategories]. split.
    + intros x Hx. apply in_subcategory_replace in Hx as [[-> _]|[Hx _]]; [|now apply Hname].
      cbn. split; [exact Hne|]. rewrite Hn. apply JsFacts.trim_idem.
    + intros x y Hx Hy E1 E2.
      apply in_subcategory_replace in Hx as [[-> _]|[Hx Nx]];
        apply in_subcategory_replace in Hy as [[-> _]|[Hy Ny]].
      * reflexivity.
      * symmetry. apply Hfree; [exact Hy | now symmetry | now symmetry].
      * now apply Hfree.
      * now apply Huniq.
  - effect_of (delete_subcategory_effect id d).
    destruct E as [->|(o & ->)]; [now split|].
    cbn [subcategories SubCategoryModel.set_subcategories]. split.
    + intros x Hx. apply filter_In in Hx as [Hx _]. now apply Hname.
    + intros x y Hx Hy. apply filter_In in Hx as [Hx _]. apply filter_In in Hy as [Hy _].
      now apply Huniq.
  - effect_of (CustomerEffects.create_customer_effect now newId b d).
    destruct E as [->|(c & _ & _ & _ & _ & _ & ->)]; now split.
  - effect_of (CustomerEffects.update_customer_effect now id b d).
    destruct E as [->|(old & p & _ & _ & _ & _ & ->)]; now split.
  - effect_of (delete_customer_effect id d).
    destruct E as [->|(o & ->)]; now split.
Qed.

Lemma customers_step (r : request) (d : db) :
  customers_in_order d = true -> customers_in_order (serve r d) = true.
Proof.
  intros H. destruct (reads r) eqn:R; [now rewrite read_effect|].
  unfold customers_in_order in *. rewrite forallb_forall in *.
  destruct r; try discriminate; cbn [serve].
  - effect_of (create_category_effect now newId b d).
    destruct E as [->|(c & c' & _ & _ & _ & ->)]; exact H.
  - effect_of (update_category_effect id b d).
    destruct E as [->|(old & c & c' & _ & _ & _ & _ & ->)]; exact H.
  - effect_of (delete_category_effect id d).
    destruct E as [->|(o & _ & ->)]; exact H.
  - effect_of (create_subcategory_effect now newId b d).
    destruct E as [->|(s0 & s' & cat & _ & _ & _ & _ & ->)]; exact H.
  - effect_of (update_subcategory_effect now id b d).
    destruct E as [->|(old & s0 & s' & cat & _ & _ & _ & _ & _ & ->)]; exact H.
  - effect_of (delete_subcategory_effect id d).
    destruct E as [->|(o & ->)]; exact H.
  - effect_of (CustomerEffects.create_customer_effect now newId b d).
    destruct E as [->|(c & Hc & _ & _ & _ & _ & ->)]; [exact H|].
    intros x Hx. cbn in Hx. apply in_app_or in Hx as [Hx|[<-|[]]]; [now apply H | exact Hc].
  - effect_of (CustomerEffects.update_customer_effect now id b d).
    destruct E as [->|(old & p & Hold & Hv & Hsc & Hssc & ->)]; [exact H|].
    intros x Hx. cbn in Hx. unfold CustomerModel.replace in Hx.
    apply in_map_iff in Hx as (y & <- & Hy).
    destruct (CustomerModel.by_id _ y); [|now apply H].
    apply (SchemaFacts.set_paths_valid now); auto.
  - effect_of (delete_customer_effect id d).
    destruct E as [->|(o & ->)]; [exact H|].
    intros x Hx. cbn in Hx. apply filter_In in Hx as [Hx _]. now apply H.
Qed.


(** *** Names that differ in letter case only *)





End InvariantFacts.

(** ** More facts about the category routes *)

Module CategoryRouteFacts2.
Import CategoryRoutes SubCategoryRouteFacts RegExpFacts RegExpFacts2 CategoryRouteFacts.

Lemma category_update_run (old c c' : Category) (w : world) :
  CategoryModel.validate c = inl c' ->
  CategoryModel.same old c' = false ->
  CategoryModel.name_taken c' (categories (store w)) = false ->
  CategoryModel.update old c w =
  (Return c',
   stored (CategoryModel.set_categories (CategoryModel.replace c' (categories (store w)))
             (store w))
          (logged (Write Categories) w)).
Proof.
  intros Hv Hs Ht. unfold CategoryModel.update. rewrite Hv, Hs. unfold bind, log, get_db.
  cbn [store logged]. rewrite Ht. reflexivity.
Qed.

Lemma category_update_same (old c c' : Category) (w : world) :
  CategoryModel.validate c = inl c' ->
  CategoryModel.same old c' = true ->
  CategoryModel.update old c w = (Return c', w).
Proof. intros Hv Hs. unfold CategoryModel.update. now rewrite Hv, Hs. Qed.

Lemma found_id (o : ObjectId.t) (l : list Category) (c : Category) :
  find (CategoryModel.by_id o) l = Some c -> In c l /\ cat_id c = o.
Proof. intros H. apply find_some in H as [H E]. split; [exact H | now apply String.eqb_eq]. Qed.

(** With identifiers that are all different, writing a document back
    changes nothing. *)
Lemma replace_found (o : ObjectId.t) (l : list Category) (c : Category) :
  NoDup (map cat_id l) ->
  find (CategoryModel.by_id o) l = Some c ->
  CategoryModel.replace c l = l.
Proof.
  intros Hnd Hfind. apply found_id in Hfind as [Hin Hid]. clear Hid.
  unfold CategoryModel.replace. rewrite <- (map_id l) at 2. apply map_ext_in.
  intros y Hy. destruct (CategoryModel.by_id (cat_id c) y) eqn:B; [|reflexivity].
  apply String.eqb_eq in B. revert Hnd Hin Hy B. clear. induction l as [|x l IH]; [intros _ []|].
  cbn [map]. intros Hnd Hc Hy E. inversion Hnd as [|? ? Hx Hl]; subst.
  destruct Hc as [<-|Hc], Hy as [<-|Hy]; try reflexivity.
  - elim Hx. rewrite <- E. now apply in_map.
  - elim Hx. rewrite E. now apply in_map.
  - now apply IH.
Qed.

(** PUT with a name that is the stored one, or a plain one that no other
    category has, letter case apart. *)
Lemma update_category_run (id : string) (o : ObjectId.t) (b : body) (d : db) (c : Category) :
  ObjectId.cast id = Some o ->
  find (CategoryModel.by_id o) (categories d) = Some c ->
  Js.trim (or_empty (name b)) <> ""%string ->
  Js.trim (or_empty (name b)) = cat_name c \/ RegExp.plain (Js.trim (or_empty (name b))) = true ->
  (forall x, In x (categories d) -> cat_id x <> o ->
     RegExp.ends_with_line_feed (cat_name x) = false
     /\ Spec.same_ignoring_case (cat_name x) (Js.trim (or_empty (name b))) = false) ->
  Js.trim (cat_url c) = cat_url c ->
  let c' := {| cat_id := cat_id c; cat_name := Js.trim (or_empty (name b));
               cat_url := match url b with Some u => Js.trim u | None => cat_url c end;
               cat_createdAt := cat_createdAt c |} in
  exists t,
    handle (update_category id b) d =
    (Ok c',
     if CategoryModel.same c c' then d
     else CategoryModel.set_categories (CategoryModel.replace c' (categories d)) d,
     t).
Proof.
  intros Hcast Hfind Hname Hplain Hnone Hurl c'.
  destruct (found_id _ _ _ Hfind) as [Hin Hid].
  assert (Hval : CategoryModel.validate
            {| cat_id := cat_id c; cat_name := Js.trim (or_empty (name b));
               cat_url := match option_map Js.trim (url b) with
                          | Some u => u
                          | None => cat_url c
                          end;
               cat_createdAt := cat_createdAt c |} = inl c').
  { unfold CategoryModel.validate. cbn [cat_name cat_id cat_url cat_createdAt].
    rewrite JsFacts.trim_idem. apply String.eqb_neq in Hname. rewrite Hname.
    unfold c'. destruct (url b); cbn [option_map]; [now rewrite JsFacts.trim_idem|].
    now rewrite Hurl. }
  assert (Hfree : CategoryModel.name_taken c' (categories d) = false).
  { apply existsb_false_iff. intros x Hx. cbn [cat_id cat_name c'].
    destruct (ObjectId.eqb (cat_id x) (cat_id c)) eqn:E; [reflexivity|]. cbn [negb andb].
    apply String.eqb_neq in E. rewrite Hid in E. destruct (Hnone x Hx E) as [_ Hdiff].
    destruct (String.eqb_spec (cat_name x) (Js.trim (or_empty (name b)))) as [F|F];
      [|reflexivity].
    unfold Spec.same_ignoring_case in Hdiff. rewrite F, String.eqb_refl in Hdiff.
    discriminate. }
  assert (Hsave : forall w, store w = d ->
            exists t, CategoryModel.update c
              {| cat_id := cat_id c; cat_name := Js.trim (or_empty (name b));
                 cat_url := match option_map Js.trim (url b) with
                            | Some u => u
                            | None => cat_url c
                            end;
                 cat_createdAt := cat_createdAt c |} w =
              (Return c',
               {| store := if CategoryModel.same c c' then d
                           else CategoryModel.set_categories
                                  (CategoryModel.replace c' (categories d)) d;
                  trace := t |})).
  { intros [d0 t0] Hw. cbn [store] in Hw. subst d0.
    destruct (CategoryModel.same c c') eqn:S.
    - exists t0. now apply category_update_same.
    - eexists. rewrite (category_update_run _ _ _ {| store := d; trace := t0 |} Hval S Hfree).
      reflexivity. }
  destruct (Js.truthy (Js.trim (or_empty (name b)))
            && negb (String.eqb (Js.trim (or_empty (name b))) (cat_name c))) eqn:C.
  - assert (Hp : RegExp.plain (Js.trim (or_empty (name b))) = true).
    { destruct Hplain as [E|E]; [|exact E]. rewrite E, String.eqb_refl in C.
      now rewrite andb_false_r in C. }
    destruct (Hsave (logged (Read Categories) (logged (Read Categories) (fresh d))) eq_refl)
      as [t Hrun].
    exists t. apply handle_return. unfold update_category. apply catch_all_return.
    rewrite (validation_errors_nil _ Hname). cbn [sanitize name url or_empty].
    rewrite (bind_return _ _ _ _ _ (CategoryFacts.category_findById_run _ _ _ Hcast)).
    cbn [store logged fresh]. rewrite Hfind, C.
    erewrite bind_return; cycle 1.
    { erewrite bind_return
        by (apply new_RegExp_run; unfold name_pattern; apply (compile_anchored _ _ Hp)).
      erewrite bind_return by (apply cast_id_run; exact Hcast).
      rewrite (bind_return _ _ _ _ _ (CategoryFacts.category_findOne_run _ _)).
      cbn [store logged fresh].
      replace (find _ (categories d)) with (@None Category); [reflexivity|].
      symmetry. apply find_none_iff. intros x Hx.
      destruct (CategoryModel.by_id o x) eqn:B; [reflexivity|]. cbn [negb andb].
      apply String.eqb_neq in B. destruct (Hnone x Hx B) as [Hlf Hdiff].
      unfold name_matches. now rewrite (test_anchored_same _ _ Hlf). }
    cbv beta iota. erewrite bind_return by exact Hrun. reflexivity.
  - destruct (Hsave (logged (Read Categories) (fresh d)) eq_refl) as [t Hrun].
    exists t. apply handle_return. unfold update_category. apply catch_all_return.
    rewrite (validation_errors_nil _ Hname). cbn [sanitize name url or_empty].
    rewrite (bind_return _ _ _ _ _ (CategoryFacts.category_findById_run _ _ _ Hcast)).
    cbn [store logged fresh]. rewrite Hfind, C.
    rewrite (bind_return _ _ _ _ _ (eq_refl : ret false _ = (Return false, _))).
    cbv beta iota. erewrite bind_return by exact Hrun. reflexivity.
Qed.

End CategoryRouteFacts2.

(** ** More facts about the subcategory routes *)

Module SubCategoryRouteFacts3.
Import SubCategoryRoutes SubCategoryRouteFacts SubCategoryRouteFacts2 RegExpFacts RegExpFacts2.

Lemma subcategory_update_run (now : Z) (old s s' : SubCategory) (w : world) :
  SubCategoryModel.validate s = inl s' ->
  SubCategoryModel.same old s' = false ->
  SubCategoryModel.pair_taken (SubCategoryModel.touch now s') (subcategories (store w)) = false ->
  SubCategoryModel.update now old s w =
  (Return (SubCategoryModel.touch now s'),
   stored (SubCategoryModel.set_subcategories
             (SubCategoryModel.replace (SubCategoryModel.touch now s') (subcategories (store w)))
             (store w))
          (logged (Write SubCategories) w)).
Proof.
  intros Hv Hs Ht. unfold SubCategoryModel.update. rewrite Hv, Hs. unfold bind, log, get_db.
  cbn [store logged]. rewrite Ht. reflexivity.
Qed.

Lemma subcategory_update_same (now : Z) (old s s' : SubCategory) (w : world) :
  SubCategoryModel.validate s = inl s' ->
  SubCategoryModel.same old s' = true ->
  SubCategoryModel.update now old s w = (Return s', w).
Proof. intros Hv Hs. unfold SubCategoryModel.update. now rewrite Hv, Hs. Qed.

Lemma subcategory_found_id (o : ObjectId.t) (l : list SubCategory) (s : SubCategory) :
  find (SubCategoryModel.by_id o) l = Some s -> In s l /\ sub_id s = o.
Proof. intros H. apply find_some in H as [H E]. split; [exact H | now apply String.eqb_eq]. Qed.

(** The first document with an identifier is the one that replaces it. *)
Lemma find_replaced (s s' : SubCategory) (l : list SubCategory) :
  find (SubCategoryModel.by_id (sub_id s')) l = Some s ->
  find (SubCategoryModel.by_id (sub_id s')) (SubCategoryModel.replace s' l) = Some s'.
Proof.
  induction l as [|x l IH]; [discriminate|]. cbn [find SubCategoryModel.replace map].
  destruct (SubCategoryModel.by_id (sub_id s') x) eqn:B.
  - intros _. unfold SubCategoryModel.by_id, ObjectId.eqb. now rewrite String.eqb_refl.
  - rewrite B. exact IH.
Qed.

Lemma subcategory_replace_found (o : ObjectId.t) (l : list SubCategory) (s : SubCategory) :
  NoDup (map sub_id l) ->
  find (SubCategoryModel.by_id o) l = Some s ->
  SubCategoryModel.replace s l = l.
Proof.
  intros Hnd Hfind. apply subcategory_found_id in Hfind as [Hin _].
  unfold SubCategoryModel.replace. rewrite <- (map_id l) at 2. apply map_ext_in.
  intros y Hy. destruct (SubCategoryModel.by_id (sub_id s) y) eqn:B; [|reflexivity].
  apply String.eqb_eq in B. revert Hnd Hin Hy B. clear. induction l as [|x l IH]; [intros _ []|].
  cbn [map]. intros Hnd Hc Hy E. inversion Hnd as [|? ? Hx Hl]; subst.
  destruct Hc as [<-|Hc], Hy as [<-|Hy]; try reflexivity.
  - elim Hx. rewrite <- E. now apply in_map.
  - elim Hx. rewrite E. now apply in_map.
  - now apply IH.
Qed.

Lemma subcategory_same_eq (s s' : SubCategory) :
  sub_id s' = sub_id s -> sub_createdAt s' = sub_createdAt s ->
  sub_updatedAt s' = sub_updatedAt s ->
  SubCategoryModel.same s s' = true -> s' = s.
Proof.
  unfold SubCategoryModel.same, ObjectId.eqb. intros Hid Hc Hu H.
  apply andb_prop in H as [H Hd]. apply andb_prop in H as [Hn Hcat].
  apply String.eqb_eq in Hn, Hcat, Hd. destruct s, s'. cbn in *. congruence.
Qed.

(** PUT with a name and a category that are the stored ones, or a plain
    name that no other subcategory of the category has, letter case apart. *)
Lemma update_subcategory_run
    (now : Z) (id : string) (o : ObjectId.t) (b : body) (d : db) (s : SubCategory)
    (cid : string) (oc : ObjectId.t) (cat : Category) :
  ObjectId.cast id = Some o ->
  find (SubCategoryModel.by_id o) (subcategories d) = Some s ->
  categoryId b = Some cid ->
  ObjectId.cast cid = Some oc ->
  find (CategoryModel.by_id oc) (categories d) = Some cat ->
  Js.trim (or_empty (name b)) <> ""%string ->
  (Js.trim (or_empty (name b)) = sub_name s /\ cid = sub_category s)
  \/ RegExp.plain (Js.trim (or_empty (name b))) = true ->
  (forall x, In x (subcategories d) -> sub_id x <> o -> sub_category x = oc ->
     RegExp.ends_with_line_feed (sub_name x) = false
     /\ Spec.same_ignoring_case (sub_name x) (Js.trim (or_empty (name b))) = false) ->
  Js.trim (sub_description s) = sub_description s ->
  NoDup (map sub_id (subcategories d)) ->
  let s0 := {| sub_id := sub_id s; sub_name := Js.trim (or_empty (name b));
               sub_category := oc;
               sub_description :=
                 match description b with Some v => Js.trim v | None => sub_description s end;
               sub_createdAt := sub_createdAt s; sub_updatedAt := sub_updatedAt s |} in
  let s' := if SubCategoryModel.same s s0 then s0 else SubCategoryModel.touch now s0 in
  exists t,
    handle (update_subcategory now id b) d =
    (Ok (Some (s', Some cat)),
     SubCategoryModel.set_subcategories (SubCategoryModel.replace s' (subcategories d)) d, t).
Proof.
  intros Hcast Hfind Hcid Hoc Hcat Hname Hplain Hnone Hdesc Hnd s0 s'.
  destruct (subcategory_found_id _ _ _ Hfind) as [Hin Hid].
  pose proof (cast_isValid _ _ Hcast) as Hvalid.
  assert (Hval : SubCategoryModel.validate
            {| sub_id := sub_id s; sub_name := Js.trim (or_empty (name b));
               sub_category := oc;
               sub_description :=
                 match option_map Js.trim (description b) with
                 | Some v => v
                 | None => sub_description s
                 end;
               sub_createdAt := sub_createdAt s; sub_updatedAt := sub_updatedAt s |} = inl s0).
  { unfold SubCategoryModel.validate.
    cbn [sub_name sub_id sub_category sub_description sub_createdAt sub_updatedAt].
    rewrite JsFacts.trim_idem. apply String.eqb_neq in Hname. rewrite Hname.
    unfold s0. destruct (description b); cbn [option_map]; [now rewrite JsFacts.trim_idem|].
    now rewrite Hdesc. }
  assert (Hfree : SubCategoryModel.pair_taken (SubCategoryModel.touch now s0)
                    (subcategories d) = false).
  { apply existsb_false_iff. intros x Hx.
    cbn [sub_id sub_name sub_category SubCategoryModel.touch s0].
    destruct (ObjectId.eqb (sub_id x) (sub_id s)) eqn:E; [reflexivity|]. cbn [negb andb].
    apply String.eqb_neq in E. rewrite Hid in E.
    destruct (ObjectId.eqb (sub_category x) oc) eqn:C; [|apply andb_false_r].
    apply String.eqb_eq in C. destruct (Hnone x Hx E C) as [_ Hdiff].
    destruct (String.eqb_spec (sub_name x) (Js.trim (or_empty (name b)))) as [F|F];
      [|reflexivity].
    unfold Spec.same_ignoring_case in Hdiff. rewrite F, String.eqb_refl in Hdiff.
    discriminate. }
  assert (Hsave : forall w, store w = d ->
            exists t,
              bind (SubCategoryModel.update now s
                {| sub_id := sub_id s; sub_name := Js.trim (or_empty (name b));
                   sub_category := oc;
                   sub_description :=
                     match option_map Js.trim (description b) with
                     | Some v => v
                     | None => sub_description s
                     end;
                   sub_createdAt := sub_createdAt s; sub_updatedAt := sub_updatedAt s |})
                (fun saved => bind (reload saved) (fun p => ret (Ok p))) w =
              (Return (Ok (Some (s', Some cat))),
               {| store := SubCategoryModel.set_subcategories
                             (SubCategoryModel.replace s' (subcategories d)) d;
                  trace := t |})).
  { intros [d0 t0] Hw. cbn [store] in Hw. subst d0. unfold s'.
    destruct (SubCategoryModel.same s s0) eqn:S.
    - assert (E : s0 = s) by (apply subcategory_same_eq; auto).
      eexists. rewrite (bind_return _ _ _ _ _ (subcategory_update_same _ _ _ _ _ Hval S)).
      erewrite bind_return; cycle 1.
      { apply (reload_found s0 s). cbn [store]. rewrite E, Hid. exact Hfind. }
      cbn [store logged categories sub_category]. rewrite E.
      rewrite (subcategory_replace_found _ _ _ Hnd Hfind), StoreFacts.set_subcategories_same.
      assert (Hc : sub_category s = oc) by (rewrite <- E; reflexivity).
      rewrite Hc, Hcat. reflexivity.
    - eexists.
      rewrite (bind_return _ _ _ _ _
                 (subcategory_update_run now _ _ _ {| store := d; trace := t0 |} Hval S Hfree)).
      erewrite bind_return; cycle 1.
      { apply (reload_found _ (SubCategoryModel.touch now s0)).
        cbn [store logged stored subcategories SubCategoryModel.set_subcategories].
        apply (find_replaced s). cbn [sub_id SubCategoryModel.touch s0]. rewrite Hid.
        exact Hfind. }
      cbn [store logged stored categories SubCategoryModel.set_subcategories sub_category
           SubCategoryModel.touch s0].
      rewrite Hcat. reflexivity. }
  assert (Hstart : forall k : list (string * string) -> M (response (option populated)),
            bind (try_catch (categoryId_errors b)
                    (fun _ => ret [("categoryId", "Invalid value")%string])) k (fresh d)
            = k [] (logged (Read Categories) (fresh d))).
  { intros k.
    erewrite bind_return by (apply catch_return, (categoryId_errors_run _ _ _ _ Hcid Hoc)).
    unfold reference_errors. cbn [store logged fresh]. now rewrite Hcat. }
  destruct (Js.truthy (Js.trim (or_empty (name b)))
            && (negb (String.eqb (Js.trim (or_empty (name b))) (sub_name s))
                || negb (String.eqb cid (sub_category s)))) eqn:C.
  - assert (Hp : RegExp.plain (Js.trim (or_empty (name b))) = true).
    { destruct Hplain as [[E1 E2]|E]; [|exact E]. rewrite E1, E2, !String.eqb_refl in C.
      now rewrite andb_false_r in C. }
    destruct (Hsave (logged (Read SubCategories) (logged (Read SubCategories)
                (logged (Read Categories) (fresh d)))) eq_refl) as [t Hrun].
    exists t. apply handle_return. unfold update_subcategory. rewrite Hstart.
    apply catch_all_return.
    unfold id_errors. rewrite Hvalid, (name_errors_nil _ Hname). cbn [negb app].
    cbn [sanitize name categoryId description or_empty]. rewrite Hcid. cbn [or_empty].
    rewrite (bind_return _ _ _ _ _ (SubCategoryFacts.subcategory_findById_run _ _ _ Hcast)).
    cbn [store logged fresh]. rewrite Hfind, C.
    erewrite bind_return; cycle 1.
    { erewrite bind_return
        by (apply new_RegExp_run; unfold name_pattern; apply (compile_anchored _ _ Hp)).
      erewrite bind_return by (apply cast_id_run; exact Hcast).
      erewrite bind_return by (apply cast_id_run; exact Hoc).
      rewrite (bind_return _ _ _ _ _ (SubCategoryFacts.subcategory_findOne_run _ _)).
      cbn [store logged fresh].
      replace (find _ (subcategories d)) with (@None SubCategory); [reflexivity|].
      symmetry. apply find_none_iff. intros x Hx.
      destruct (SubCategoryModel.by_id o x) eqn:B; [reflexivity|]. cbn [negb andb].
      destruct (SubCategoryModel.in_category oc x) eqn:I; [|apply andb_false_r].
      apply String.eqb_neq in B. apply String.eqb_eq in I.
      destruct (Hnone x Hx B I) as [Hlf Hdiff].
      unfold name_matches. rewrite (test_anchored_same _ _ Hlf), Hdiff. reflexivity. }
    cbv beta iota. erewrite bind_return by (apply cast_id_run; exact Hoc).
    exact Hrun.
  - destruct (Hsave (logged (Read SubCategories) (logged (Read Categories) (fresh d)))
                eq_refl) as [t Hrun].
    exists t. apply handle_return. unfold update_subcategory. rewrite Hstart.
    apply catch_all_return.
    unfold id_errors. rewrite Hvalid, (name_errors_nil _ Hname). cbn [negb app].
    cbn [sanitize name categoryId description or_empty]. rewrite Hcid. cbn [or_empty].
    rewrite (bind_return _ _ _ _ _ (SubCategoryFacts.subcategory_findById_run _ _ _ Hcast)).
    cbn [store logged fresh]. rewrite Hfind, C.
    rewrite (bind_return _ _ _ _ _ (eq_refl : ret false _ = (Return false, _))).
    cbv beta iota. erewrite bind_return by (apply cast_id_run; exact Hoc).
    exact Hrun.
Qed.

End SubCategoryRouteFacts3.

(** ** Requests the embedding follows *)

Module StepFacts.
Import Server Effects.

Lemma answered_run {A} (m : M (response A)) (d : db) :
  (forall w, m (fresh d) <> (Return Unmodelled, w)) ->
  answered m d = Some (store_after m d).
Proof.
  intros H. unfold answered, store_after, handle.
  destruct (m (fresh d)) as [[r|e] w] eqn:E; [|reflexivity].
  destruct r; try reflexivity. now elim (H w).
Qed.

Ltac never_unmodelled :=
  apply answered_run; intros w; unfold_handler; cases; try discriminate.

Lemma delete_category_answered (id : string) (d : db) :
  answered (CategoryRoutes.delete_category id) d =
  Some (store_after (CategoryRoutes.delete_category id) d).
Proof. unfold CategoryRoutes.delete_category. never_unmodelled. Qed.

Lemma delete_subcategory_answered (id : string) (d : db) :
  answered (SubCategoryRoutes.delete_subcategory id) d =
  Some (store_after (SubCategoryRoutes.delete_subcategory id) d).
Proof. unfold SubCategoryRoutes.delete_subcategory. never_unmodelled. Qed.

Lemma delete_customer_answered (id : string) (d : db) :
  answered (CustomerRoutes.delete_customer id) d =
  Some (store_after (CustomerRoutes.delete_customer id) d).
Proof. unfold CustomerRoutes.delete_customer. never_unmodelled. Qed.

Lemma create_customer_answered (now : Z) (newId : ObjectId.t) (b : CustomerRoutes.body)
    (d : db) :
  answered (CustomerRoutes.create_customer now newId b) d =
  Some (store_after (CustomerRoutes.create_customer now newId b) d).
Proof. unfold CustomerRoutes.create_customer. never_unmodelled. Qed.

Lemma update_customer_answered (now : Z) (id : string) (b : CustomerRoutes.body) (d : db) :
  answered (CustomerRoutes.update_customer now id b) d =
  Some (store_after (CustomerRoutes.update_customer now id b) d).
Proof. unfold CustomerRoutes.update_customer. never_unmodelled. Qed.

Ltac outside :=
  match goal with
  | H : RegExp.compile RegExp.JS _ = RegExp.OutsideFragment |- _ =>
    now apply FragmentFacts.followed_anchored in H
  end.

Lemma create_category_answered (now : Z) (newId : ObjectId.t) (b : CategoryRoutes.body)
    (d : db) :
  names_followed (PostCategory now newId b) = true ->
  answered (CategoryRoutes.create_category now newId b) d =
  Some (store_after (CategoryRoutes.create_category now newId b) d).
Proof.
  cbn [names_followed]. intros Hf.
  unfold CategoryRoutes.create_category, CategoryRoutes.name_pattern.
  cbn [CategoryRoutes.sanitize CategoryRoutes.name CategoryRoutes.or_empty].
  never_unmodelled. outside.
Qed.

Lemma update_category_answered (id : string) (b : CategoryRoutes.body) (d : db) :
  names_followed (PutCategory id b) = true ->
  answered (CategoryRoutes.update_category id b) d =
  Some (store_after (CategoryRoutes.update_category id b) d).
Proof.
  cbn [names_followed]. intros Hf.
  unfold CategoryRoutes.update_category, CategoryRoutes.name_pattern.
  cbn [CategoryRoutes.sanitize CategoryRoutes.name CategoryRoutes.or_empty].
  never_unmodelled. outside.
Qed.

Lemma create_subcategory_answered (now : Z) (newId : ObjectId.t)
    (b : SubCategoryRoutes.body) (d : db) :
  names_followed (PostSubCategory now newId b) = true ->
  answered (SubCategoryRoutes.create_subcategory now newId b) d =
  Some (store_after (SubCategoryRoutes.create_subcategory now newId b) d).
Proof.
  cbn [names_followed]. intros Hf.
  unfold SubCategoryRoutes.create_subcategory, SubCategoryRoutes.name_pattern.
  cbn [SubCategoryRoutes.sanitize SubCategoryRoutes.name SubCategoryRoutes.or_empty].
  apply answered_run; intros w; unfold_handler.
  destruct (SubCategoryRoutes.name_errors b); tidy; cases; try discriminate; outside.
Qed.

Lemma update_subcategory_answered (now : Z) (id : string) (b : SubCategoryRoutes.body)
    (d : db) :
  names_followed (PutSubCategory now id b) = true ->
  answered (SubCategoryRoutes.update_subcategory now id b) d =
  Some (store_after (SubCategoryRoutes.update_subcategory now id b) d).
Proof.
  cbn [names_followed]. intros Hf.
  unfold SubCategoryRoutes.update_subcategory, SubCategoryRoutes.name_pattern.
  cbn [SubCategoryRoutes.sanitize SubCategoryRoutes.name SubCategoryRoutes.or_empty].
  apply answered_run; intros w; unfold_handler.
  destruct (SubCategoryRoutes.id_errors id), (SubCategoryRoutes.name_errors b); tidy; cases;
    try discriminate; outside.
Qed.

(** A request whose names are followed is followed to its answer, and the
    store is the one the handler leaves. *)
Lemma step_serve (r : request) (d : db) :
  names_followed r = true -> step r d = Some (serve r d).
Proof.
  intros H. destruct r; cbn [step];
    try (now rewrite read_effect by reflexivity); cbn [serve];
    auto using create_category_answered, update_category_answered, delete_category_answered,
      create_subcategory_answered, update_subcategory_answered, delete_subcategory_answered,
      create_customer_answered, update_customer_answered, delete_customer_answered.
Qed.

Lemma steps_run (rs : list request) (d : db) :
  forallb names_followed rs = true -> steps rs d = Some (run rs d).
Proof.
  revert d. induction rs as [|r rs IH]; intros d H; [reflexivity|].
  cbn [forallb] in H. apply andb_prop in H as [Hr Hrs].
  cbn [steps]. rewrite (step_serve _ _ Hr). now apply IH.
Qed.

(** What holds of the first store and is kept by every request holds of the
    last. *)
Lemma steps_invariant (inv : db -> bool) :
  (forall r d, inv d = true -> inv (serve r d) = true) ->
  forall rs d d', forallb names_followed rs = true -> inv d = true ->
    steps rs d = Some d' -> inv d' = true.
Proof.
  intros Hstep rs d d' Hf Hd. rewrite (steps_run _ _ Hf). intros [= <-].
  now apply (InvariantFacts.run_invariant inv Hstep).
Qed.

End StepFacts.

(** ** Invariants of the store *)

Section StoreInvariants.
Import Server Invariant InvariantFacts StepFacts.

(** X1. Referential integrity of subcategories. If every subcategory of the
    store refers to a stored category, this is still so after any sequence
    of requests in which the names given to the category and subcategory
    routes use nothing the fragment leaves out (no backslash, bracket,
    brace, opening parenthesis followed by a question mark, or code unit
    above 127): the embedding follows every such request to its answer, creating
    or moving a subcategory checks that the category exists, and a category
    that subcategories refer to is not deleted. *)
Theorem subcategories_keep_their_category (rs : list request) (d : db) :
  forallb names_followed rs = true ->
  references_hold d = true ->
  exists d',
    steps rs d = Some d'
    /\ forall s, In s (subcategories d') ->
         exists c, In c (categories d') /\ cat_id c = sub_category s.
Proof.
  intros Hf H. exists (run rs d). split; [now apply steps_run|].
  apply references_iff. now apply (run_invariant _ references_step).
Qed.

Lemma subcategories_keep_their_category_witness :
  forallb names_followed Cases.pattern_requests = true
  /\ references_hold Sample.db_sub = true
  /\ steps Cases.pattern_requests Sample.db_sub = Some Cases.pattern_store
  /\ exists d',
       steps Cases.pattern_requests Sample.db_sub = Some d'
       /\ forall s, In s (subcategories d') ->
            exists c, In c (categories d') /\ cat_id c = sub_category s.
Proof.
  split; [reflexivity|]. split; [reflexivity|]. split; [vm_compute; reflexivity|].
  exact (subcategories_keep_their_category Cases.pattern_requests Sample.db_sub
           eq_refl eq_refl).
Defined.

(** X2. The names of the categories. If every stored category has a name
    that is not empty and is trimmed, and no two categories have the same
    name, this is still so after any sequence of requests in which the
    names given to the category and subcategory routes use nothing the
    fragment leaves out. *)
Theorem categories_stay_in_order (rs : list request) (d : db) :
  forallb names_followed rs = true ->
  categories_in_order d = true ->
  exists d',
    steps rs d = Some d'
    /\ (forall c, In c (categories d') ->
          cat_name c <> ""%string /\ Js.trim (cat_name c) = cat_name c)
    /\ (forall x y, In x (categories d') -> In y (categories d') ->
          cat_name x = cat_name y -> cat_id x = cat_id y).
Proof.
  intros Hf H. exists (run rs d). split; [now apply steps_run|].
  apply categories_iff. now apply (run_invariant _ categories_step).
Qed.

Lemma categories_stay_in_order_witness :
  forallb names_followed Cases.pattern_requests = true
  /\ categories_in_order Sample.db_sub = true
  /\ steps Cases.pattern_requests Sample.db_sub = Some Cases.pattern_store
  /\ exists d',
       steps Cases.pattern_requests Sample.db_sub = Some d'
       /\ (forall c, In c (categories d') ->
             cat_name c <> ""%string /\ Js.trim (cat_name c) = cat_name c)
       /\ (forall x y, In x (categories d') -> In y (categories d') ->
             cat_name x = cat_name y -> cat_id x = cat_id y).
Proof.
  split; [reflexivity|]. split; [reflexivity|]. split; [vm_compute; reflexivity|].
  exact (categories_stay_in_order Cases.pattern_requests Sample.db_sub eq_refl eq_refl).
Defined.

(** X3. The names of the subcategories. If every stored subcategory has a
    name that is not empty and is trimmed, and no two subcategories of one
    category have the same name, this is still so after any sequence of
    requests in which the names given to the category and subcategory
    routes use nothing the fragment leaves out. *)
Theorem subcategories_stay_in_order (rs : list request) (d : db) :
  forallb names_followed rs = true ->
  subcategories_in_order d = true ->
  exists d',
    steps rs d = Some d'
    /\ (forall s, In s (subcategories d') ->
          sub_name s <> ""%string /\ Js.trim (sub_name s) = sub_name s)
    /\ (forall x y, In x (subcategories d') -> In y (subcategories d') ->
          sub_name x = sub_name y -> sub_category x = sub_category y ->
          sub_id x = sub_id y).
Proof.
  intros Hf H. exists (run rs d). split; [now apply steps_run|].
  apply subcategories_iff. now apply (run_invariant _ subcategories_step).
Qed.

Lemma subcategories_stay_in_order_witness :
  forallb names_followed Cases.pattern_requests = true
  /\ subcategories_in_order Sample.db_sub = true
  /\ steps Cases.pattern_requests Sample.db_sub = Some Cases.pattern_store
  /\ exists d',
       steps Cases.pattern_requests Sample.db_sub = Some d'
       /\ (forall s, In s (subcategories d') ->
             sub_name s <> ""%string /\ Js.trim (sub_name s) = sub_name s)
       /\ (forall x y, In x (subcategories d') -> In y (subcategories d') ->
             sub_name x = sub_name y -> sub_category x = sub_category y ->
             sub_id x = sub_id y).
Proof.
  split; [reflexivity|]. split; [reflexivity|]. split; [vm_compute; reflexivity|].
  exact (subcategories_stay_in_order Cases.pattern_requests Sample.db_sub eq_refl eq_refl).
Defined.

(** X4. The customers pass the validators of their schema. If every stored
    customer does (required texts present and within their lengths, a phone
    of ten digits, an e-mail address of the expected form, enumerated fields
    within their sets, fees not negative, well-formed references), this is
    still so after any sequence of requests. *)
Theorem customers_stay_valid (rs : list request) (d : db) :
  customers_in_order d = true ->
  forall c, In c (customers (run rs d)) -> CustomerSchema.valid c = true.
Proof.
  intros H. apply forallb_forall. now apply (run_invariant customers_in_order customers_step).
Qed.

Lemma customers_stay_valid_witness :
  customers_in_order Sample.db_customer = true
  /\ forall c, In c (customers (run Cases.requests Sample.db_customer)) ->
       CustomerSchema.valid c = true.
Proof.
  split; [reflexivity|].
  exact (customers_stay_valid Cases.requests Sample.db_customer eq_refl).
Defined.



(** X6. The routes that read do not write: whatever the parameters and
    whatever the answer, the store after a GET is the store before it. *)
Theorem reads_leave_the_store (d : db) :
  store_after CategoryRoutes.list_categories d = d
  /\ (forall id, store_after (CategoryRoutes.get_category id) d = d)
  /\ store_after SubCategoryRoutes.list_subcategories d = d
  /\ (forall id, store_after (SubCategoryRoutes.get_subcategory id) d = d)
  /\ (forall id, store_after (SubCategoryRoutes.list_by_category id) d = d)
  /\ (forall q, store_after (CustomerRoutes.list_customers q) d = d)
  /\ (forall id, store_after (CustomerRoutes.get_customer id) d = d)
  /\ store_after StatusRoutes.list_statuses d = d.
Proof.
  pose proof (fun r => Effects.read_effect r d) as H.
  refine (conj (H GetCategories eq_refl)
         (conj (fun id => H (GetCategory id) eq_refl)
         (conj (H GetSubCategories eq_refl)
         (conj (fun id => H (GetSubCategory id) eq_refl)
         (conj (fun id => H (GetSubCategoriesOf id) eq_refl)
         (conj (fun q => H (GetCustomers q) eq_refl)
         (conj (fun id => H (GetCustomer id) eq_refl)
               (H GetStatuses eq_refl)))))))).
Qed.

End StoreInvariants.

(** ** Categories *)

Section CategoryProperties.
Import CategoryRoutes SubCategoryRouteFacts RegExpFacts RegExpFacts2.
Import CategoryRouteFacts CategoryRouteFacts2 InvariantFacts.

Lemma same_eq (c c' : Category) :
  cat_id c' = cat_id c -> cat_createdAt c' = cat_createdAt c ->
  CategoryModel.same c c' = true -> c' = c.
Proof.
  unfold CategoryModel.same. intros Hid Hat H. apply andb_prop in H as [Hn Hu].
  apply String.eqb_eq in Hn, Hu. destruct c, c'. cbn in *. congruence.
Qed.

(** X7. Updating a category. For a stored category and a name that, once
    trimmed, is not empty and is either the stored name or a name without
    pattern syntax that no other category has, letter case apart, PUT
    succeeds. The document it returns and stores has the trimmed name, the
    trimmed url when the body has one and the stored url otherwise, and the
    identifier and creation date of the stored document; every other
    category, and the subcategories and customers, are left as they were.
    The identifiers of the store are taken to be all different and the
    stored url to be trimmed. *)
Theorem update_category_replaces_one
    (id : string) (o : ObjectId.t) (b : body) (d : db) (c : Category) :
  ObjectId.cast id = Some o ->
  find (CategoryModel.by_id o) (categories d) = Some c ->
  NoDup (map cat_id (categories d)) ->
  Js.trim (or_empty (name b)) <> ""%string ->
  Js.trim (or_empty (name b)) = cat_name c \/ RegExp.plain (Js.trim (or_empty (name b))) = true ->
  (forall x, In x (categories d) -> cat_id x <> o ->
     RegExp.ends_with_line_feed (cat_name x) = false
     /\ Spec.same_ignoring_case (cat_name x) (Js.trim (or_empty (name b))) = false) ->
  Js.trim (cat_url c) = cat_url c ->
  let c' := {| cat_id := o; cat_name := Js.trim (or_empty (name b));
               cat_url := match url b with Some u => Js.trim u | None => cat_url c end;
               cat_createdAt := cat_createdAt c |} in
  exists d' t,
    handle (update_category id b) d = (Ok c', d', t)
    /\ categories d' = map (fun x => if CategoryModel.by_id o x then c' else x) (categories d)
    /\ (forall x, In x (categories d') <-> x = c' \/ (In x (categories d) /\ cat_id x <> o))
    /\ subcategories d' = subcategories d
    /\ customers d' = customers d.
Proof.
  intros Hcast Hfind Hnd Hname Hplain Hnone Hurl c'.
  destruct (found_id _ _ _ Hfind) as [Hin Hid].
  destruct (update_category_run id o b d c Hcast Hfind Hname Hplain Hnone Hurl) as [t Hrun].
  cbv zeta in Hrun. rewrite Hid in Hrun. fold c' in Hrun.
  exists (CategoryModel.set_categories (CategoryModel.replace c' (categories d)) d), t.
  assert (Hd : (if CategoryModel.same c c' then d
                else CategoryModel.set_categories (CategoryModel.replace c' (categories d)) d)
               = CategoryModel.set_categories (CategoryModel.replace c' (categories d)) d).
  { destruct (CategoryModel.same c c') eqn:S; [|reflexivity].
    rewrite (same_eq c c' (eq_sym Hid) eq_refl S).
    rewrite (replace_found _ _ _ Hnd Hfind). symmetry. apply set_categories_same. }
  rewrite Hd in Hrun. split; [exact Hrun|]. split; [reflexivity|].
  split; [|split; reflexivity].
  intros x. cbn [categories CategoryModel.set_categories]. split.
  - intros Hx. apply in_category_replace in Hx as [[-> _]|[Hx Nx]]; [now left|].
    right. split; [exact Hx | exact Nx].
  - intros [->|[Hx Nx]].
    + pose proof (category_replace_in c' _ c Hin) as R.
      unfold CategoryModel.by_id, ObjectId.eqb in R. cbn [cat_id c'] in R.
      now rewrite Hid, String.eqb_refl in R.
    + pose proof (category_replace_in c' _ x Hx) as R.
      unfold CategoryModel.by_id, ObjectId.eqb in R. cbn [cat_id c'] in R.
      apply String.eqb_neq in Nx. now rewrite Nx in R.
Qed.

Lemma update_category_replaces_one_witness :
  exists d' t,
    handle (update_category Sample.idB
              {| name := Some " TOOLS "%string; url := Some " /tools "%string |})
           Sample.db_two =
      (Ok {| cat_id := Sample.idB; cat_name := "TOOLS"; cat_url := "/tools";
             cat_createdAt := 0 |}, d', t)
    /\ categories d' =
       [Sample.category Sample.idA "Languages";
        {| cat_id := Sample.idB; cat_name := "TOOLS"; cat_url := "/tools";
           cat_createdAt := 0 |}].
Proof.
  destruct (update_category_replaces_one Sample.idB Sample.idB
              {| name := Some " TOOLS "%string; url := Some " /tools "%string |}
              Sample.db_two (Sample.category Sample.idB "Tools") eq_refl eq_refl)
    as (d' & t & H1 & H2 & _).
  - repeat constructor; cbn; intuition discriminate.
  - discriminate.
  - right. reflexivity.
  - intros x [<-|[<-|[]]] Hne; [split; reflexivity | now elim Hne].
  - reflexivity.
  - exists d', t. split; [exact H1 | exact H2].
Defined.

(** X8. Renaming a category to the name of another. For a stored category
    and a name that, once trimmed, is not empty, differs from the stored
    name, has no pattern syntax and is the name of another stored category,
    letter case apart, PUT fails with the duplicate-name error (400) and
    the store is left as it was. *)
Theorem update_category_refuses_a_taken_name
    (id : string) (o : ObjectId.t) (b : body) (d : db) (c x : Category) :
  ObjectId.cast id = Some o ->
  find (CategoryModel.by_id o) (categories d) = Some c ->
  Js.trim (or_empty (name b)) <> ""%string ->
  Js.trim (or_empty (name b)) <> cat_name c ->
  RegExp.plain (Js.trim (or_empty (name b))) = true ->
  In x (categories d) -> cat_id x <> o ->
  Spec.same_ignoring_case (cat_name x) (Js.trim (or_empty (name b))) = true ->
  handle (update_category id b) d =
  (BadRequest (ErrorMsg "Another category with this name already exists"), d,
   [Read Categories; Read Categories]).
Proof.
  intros Hcast Hfind Hname Hdiff Hplain Hx Hid Hsame.
  apply handle_return. unfold update_category. apply catch_all_return.
  rewrite (validation_errors_nil _ Hname). cbn [sanitize name url or_empty].
  rewrite (bind_return _ _ _ _ _ (CategoryFacts.category_findById_run _ _ _ Hcast)).
  cbn [store logged fresh]. rewrite Hfind.
  apply JsFacts.truthy_true in Hname. apply String.eqb_neq in Hdiff.
  rewrite Hname, Hdiff. cbn [negb andb].
  erewrite bind_return; cycle 1.
  { erewrite bind_return
      by (apply new_RegExp_run; unfold name_pattern; apply (compile_anchored _ _ Hplain)).
    erewrite bind_return by (apply cast_id_run; exact Hcast).
    rewrite (bind_return _ _ _ _ _ (CategoryFacts.category_findOne_run _ _)).
    cbn [store logged fresh].
    destruct (find_some_in
      (fun c0 => negb (CategoryModel.by_id o c0)
                 && name_matches (RegExp.Seq RegExp.Bol
                      (RegExp.literal (Js.chars (Js.trim (or_empty (name b))))
                         (RegExp.Seq RegExp.Eol RegExp.Eps))) c0) _ x Hx) as [y ->].
    - unfold name_matches. rewrite (test_anchored_hit _ _ Hsame), andb_true_r.
      apply negb_true_iff, String.eqb_neq. exact Hid.
    - reflexivity. }
  reflexivity.
Qed.

Lemma update_category_refuses_a_taken_name_witness :
  handle (update_category Sample.idB (Sample.category_body "languages")) Sample.db_two =
  (BadRequest (ErrorMsg "Another category with this name already exists"), Sample.db_two,
   [Read Categories; Read Categories]).
Proof.
  apply (update_category_refuses_a_taken_name Sample.idB Sample.idB
           (Sample.category_body "languages") Sample.db_two
           (Sample.category Sample.idB "Tools") (Sample.category Sample.idA "Languages"));
    try reflexivity; try discriminate.
  now left.
Defined.

(** X9. A category that was created is found. For a name that, once
    trimmed, is not empty, has no pattern syntax and is the name of no
    stored category, letter case apart, and a new identifier, POST stores
    the category with the trimmed name and url; reading it by its
    identifier then returns it, and the list returns the former categories
    followed by it. *)
Theorem created_category_is_found (now : Z) (newId : ObjectId.t) (b : body) (d : db) :
  Js.trim (or_empty (name b)) <> ""%string ->
  RegExp.plain (Js.trim (or_empty (name b))) = true ->
  (forall c, In c (categories d) ->
     RegExp.ends_with_line_feed (cat_name c) = false
     /\ Spec.same_ignoring_case (cat_name c) (Js.trim (or_empty (name b))) = false) ->
  ObjectId.cast newId = Some newId ->
  (forall c, In c (categories d) -> cat_id c <> newId) ->
  let c := {| cat_id := newId; cat_name := Js.trim (or_empty (name b));
              cat_url := Js.trim (or_empty (url b)); cat_createdAt := now |} in
  let d' := CategoryModel.set_categories (categories d ++ [c]) d in
  handle (create_category now newId b) d = (Created c, d', [Read Categories; Write Categories])
  /\ handle (get_category newId) d' = (Ok c, d', [Read Categories])
  /\ handle list_categories d' = (Ok (categories d ++ [c]), d', [Read Categories]).
Proof.
  intros Hname Hplain Hnone Hcast Hfresh c d'.
  split; [exact (create_category_fresh_plain now newId b d Hname Hplain Hnone)|].
  split; [|reflexivity].
  apply handle_return. unfold get_category. apply catch_all_return.
  rewrite (bind_return _ _ _ _ _ (CategoryFacts.category_findById_run _ _ _ Hcast)).
  cbn [store fresh d' categories CategoryModel.set_categories].
  rewrite find_app_none.
  - unfold CategoryModel.by_id, ObjectId.eqb. cbn [cat_id c]. now rewrite String.eqb_refl.
  - apply find_none_iff. intros x Hx. apply String.eqb_neq. now apply Hfresh.
Qed.

Lemma created_category_is_found_witness :
  let c := {| cat_id := Sample.idC; cat_name := "Fonts"; cat_url := "";
              cat_createdAt := 7 |} in
  let d' := CategoryModel.set_categories (categories Sample.db_two ++ [c]) Sample.db_two in
  handle (create_category 7 Sample.idC (Sample.category_body " Fonts ")) Sample.db_two =
    (Created c, d', [Read Categories; Write Categories])
  /\ handle (get_category Sample.idC) d' = (Ok c, d', [Read Categories])
  /\ handle list_categories d' = (Ok (categories Sample.db_two ++ [c]), d', [Read Categories]).
Proof.
  apply (created_category_is_found 7 Sample.idC (Sample.category_body " Fonts ")
           Sample.db_two); try reflexivity; try discriminate.
  - intros c [<-|[<-|[]]]; split; reflexivity.
  - intros c [<-|[<-|[]]]; discriminate.
Defined.

End CategoryProperties.

(** ** Subcategories *)

Section SubCategoryProperties.
Import SubCategoryRoutes SubCategoryRouteFacts SubCategoryRouteFacts2.

Lemma find_filter_out {A} (p : A -> bool) (l : list A) :
  find p (filter (fun x => negb (p x)) l) = None.
Proof.
  apply find_none_iff. intros x Hx. apply filter_In in Hx as [_ Hx].
  now apply negb_true_iff.
Qed.

Lemma filter_all {A} (l : list A) : filter (fun _ => true) l = l.
Proof. induction l as [|x l IH]; cbn; [reflexivity | now rewrite IH]. Qed.

(** X10. The subcategories of a category. GET /category/:categoryId answers
    a malformed identifier with 400 before any storage access, a
    well-formed identifier of no stored category with 404, and otherwise
    returns, in the order of the store, exactly the subcategories that
    refer to the category. *)
Theorem subcategories_of_a_category (categoryId : string) (d : db) :
  (ObjectId.isValid categoryId = false ->
     handle (list_by_category categoryId) d =
     (BadRequest (ErrorMsg "Invalid category ID"), d, []))
  /\ (forall o, ObjectId.cast categoryId = Some o ->
        (find (CategoryModel.by_id o) (categories d) = None ->
           handle (list_by_category categoryId) d =
           (NotFound "Category not found", d, [Read Categories]))
        /\ (forall c, find (CategoryModel.by_id o) (categories d) = Some c ->
              handle (list_by_category categoryId) d =
              (Ok (filter (SubCategoryModel.in_category o) (subcategories d)), d,
               [Read Categories; Read SubCategories])
              /\ forall s, In s (filter (SubCategoryModel.in_category o) (subcategories d))
                           <-> In s (subcategories d) /\ sub_category s = o)).
Proof.
  split; [|intros o Hcast; pose proof (cast_isValid _ _ Hcast) as Hvalid; split].
  - intros Hbad. apply handle_return. unfold list_by_category. apply catch_all_return.
    now rewrite Hbad.
  - intros Hnone. apply handle_return. unfold list_by_category. apply catch_all_return.
    rewrite Hvalid. cbn [negb].
    rewrite (bind_return _ _ _ _ _ (CategoryFacts.category_findById_run _ _ _ Hcast)).
    cbn [store fresh]. now rewrite Hnone.
  - intros c Hfind. split.
    + apply handle_return. unfold list_by_category. apply catch_all_return.
      rewrite Hvalid. cbn [negb].
      rewrite (bind_return _ _ _ _ _ (CategoryFacts.category_findById_run _ _ _ Hcast)).
      cbn [store fresh]. rewrite Hfind.
      apply find_some in Hfind as [_ Hid]. apply String.eqb_eq in Hid. rewrite Hid.
      reflexivity.
    + intros s. rewrite filter_In. unfold SubCategoryModel.in_category, ObjectId.eqb.
      now rewrite String.eqb_eq.
Qed.

Lemma subcategories_of_a_category_witness :
  handle (list_by_category "42") Sample.db_sub =
    (BadRequest (ErrorMsg "Invalid category ID"), Sample.db_sub, [])
  /\ handle (list_by_category Sample.idD) Sample.db_sub =
    (NotFound "Category not found", Sample.db_sub, [Read Categories])
  /\ handle (list_by_category Sample.idA) Sample.db_sub =
    (Ok [Sample.subcategory Sample.idB "abc" Sample.idA], Sample.db_sub,
     [Read Categories; Read SubCategories]).
Proof.
  split; [|split].
  - exact (proj1 (subcategories_of_a_category "42" Sample.db_sub) eq_refl).
  - exact (proj1 (proj2 (subcategories_of_a_category Sample.idD Sample.db_sub)
                    Sample.idD eq_refl) eq_refl).
  - exact (proj1 (proj2 (proj2 (subcategories_of_a_category Sample.idA Sample.db_sub)
                    Sample.idA eq_refl) (Sample.category Sample.idA "abc") eq_refl)).
Defined.

(** X11. Deleting a subcategory does not look at the customers. A stored
    subcategory is deleted (200) whatever refers to it: the store loses the
    documents with that identifier and nothing else, and a customer that
    referred to the subcategory is afterwards read with the same stored
    fields and no subcategory. *)
Theorem deleting_a_subcategory_ignores_customers
    (id : string) (o : ObjectId.t) (d : db) (s : SubCategory) :
  ObjectId.cast id = Some o ->
  find (SubCategoryModel.by_id o) (subcategories d) = Some s ->
  let d' := SubCategoryModel.set_subcategories
              (filter (fun x => negb (SubCategoryModel.by_id o x)) (subcategories d)) d in
  handle (delete_subcategory id) d =
    (Ok "Subcategory deleted successfully"%string, d',
     [Read SubCategories; Write SubCategories])
  /\ (forall x, In x (subcategories d') <-> In x (subcategories d) /\ sub_id x <> o)
  /\ categories d' = categories d /\ customers d' = customers d
  /\ (forall cid oc cu,
        ObjectId.cast cid = Some oc ->
        find (CustomerModel.by_id oc) (customers d) = Some cu ->
        cus_serviceSubCategory cu = Some o ->
        handle (CustomerRoutes.get_customer cid) d' =
        (Ok (cu, find (CategoryModel.by_id (cus_serviceCategory cu)) (categories d), None),
         d', [Read Customers; Read Categories; Read SubCategories])).
Proof.
  intros Hcast Hfind d'. pose proof (cast_isValid _ _ Hcast) as Hvalid.
  split; [|split; [|split; [reflexivity|split; [reflexivity|]]]].
  - apply handle_return. unfold delete_subcategory. apply catch_all_return.
    rewrite Hvalid. cbn [negb].
    rewrite (bind_return _ _ _ _ _ (SubCategoryFacts.subcategory_findById_run _ _ _ Hcast)).
    cbn [store fresh logged]. rewrite Hfind.
    rewrite (bind_return _ _ _ _ _ (StoreFacts.delete_subcategory_run _ _ _ Hcast)).
    reflexivity.
  - intros x. cbn. rewrite filter_In. unfold SubCategoryModel.by_id, ObjectId.eqb.
    rewrite negb_true_iff, String.eqb_neq. tauto.
  - intros cid oc cu Hoc Hcu Hsub. apply handle_return.
    unfold CustomerRoutes.get_customer. apply catch_all_return.
    rewrite (bind_return _ _ _ _ _ (StoreFacts.find_customer_run _ _ _ Hoc)).
    cbn [store fresh d' customers SubCategoryModel.set_subcategories]. rewrite Hcu.
    unfold bind, log, get_db, ret, CustomerModel.has_subcategory, CustomerModel.populate.
    rewrite Hsub. unfold d'.
    cbn [store fresh logged trace subcategories categories app
         SubCategoryModel.set_subcategories].
    now rewrite find_filter_out.
Qed.

Lemma deleting_a_subcategory_ignores_customers_witness :
  let d' := SubCategoryModel.set_subcategories [] Sample.db_customer in
  handle (delete_subcategory Sample.idB) Sample.db_customer =
    (Ok "Subcategory deleted successfully"%string, d',
     [Read SubCategories; Write SubCategories])
  /\ handle (CustomerRoutes.get_customer Sample.idC) d' =
     (Ok (Sample.customer, Some (Sample.category Sample.idA "Tax"), None), d',
      [Read Customers; Read Categories; Read SubCategories])
  /\ cus_serviceSubCategory Sample.customer = Some Sample.idB.
Proof.
  destruct (deleting_a_subcategory_ignores_customers Sample.idB Sample.idB Sample.db_customer
              (Sample.subcategory Sample.idB "Income tax" Sample.idA) eq_refl eq_refl)
    as (H1 & _ & _ & _ & H2).
  split; [exact H1|]. split; [|reflexivity].
  exact (H2 Sample.idC Sample.idC Sample.customer eq_refl eq_refl eq_refl).
Defined.

(** X12. Deleting a category does not look at the customers either. A
    stored category that no subcategory refers to is deleted (200)
    whatever customers refer to it; such a customer is afterwards read with
    the same stored fields, the name of the category among them, and no
    category. *)
Theorem deleting_a_category_ignores_customers
    (id : string) (o : ObjectId.t) (d : db) (c : Category) :
  ObjectId.cast id = Some o ->
  find (CategoryModel.by_id o) (categories d) = Some c ->
  existsb (SubCategoryModel.in_category o) (subcategories d) = false ->
  let d' := CategoryModel.set_categories
              (filter (fun x => negb (CategoryModel.by_id o x)) (categories d)) d in
  handle (CategoryRoutes.delete_category id) d =
    (Ok "Category deleted successfully"%string, d',
     [Read Categories; Read SubCategories; Write Categories])
  /\ customers d' = customers d
  /\ (forall cid oc cu,
        ObjectId.cast cid = Some oc ->
        find (CustomerModel.by_id oc) (customers d) = Some cu ->
        cus_serviceCategory cu = o ->
        exists sub t,
          handle (CustomerRoutes.get_customer cid) d' = (Ok (cu, None, sub), d', t)).
Proof.
  intros Hcast Hfind Hdep d'. split; [|split; [reflexivity|]].
  - apply handle_return. unfold CategoryRoutes.delete_category. apply catch_all_return.
    rewrite (bind_return _ _ _ _ _ (CategoryFacts.category_findById_run _ _ _ Hcast)).
    cbn [store logged fresh]. rewrite Hfind.
    rewrite (bind_return _ _ _ _ _ (StoreFacts.count_run _ _ _ Hcast)).
    cbn [store logged fresh]. rewrite length_filter_pos, Hdep.
    rewrite (bind_return _ _ _ _ _ (StoreFacts.delete_category_run _ _ _ Hcast)).
    reflexivity.
  - intros cid oc cu Hoc Hcu Hcat.
    destruct (CustomerModel.has_subcategory cu) eqn:S; eexists _, _; apply handle_return;
      unfold CustomerRoutes.get_customer; apply catch_all_return;
      rewrite (bind_return _ _ _ _ _ (StoreFacts.find_customer_run _ _ _ Hoc));
      cbn [store fresh d' customers CategoryModel.set_categories]; rewrite Hcu;
      unfold bind, log, get_db, ret, CustomerModel.populate; rewrite S;
      unfold d';
      cbn [store fresh logged trace subcategories categories app
           CategoryModel.set_categories];
      rewrite Hcat, find_filter_out; reflexivity.
Qed.

Lemma deleting_a_category_ignores_customers_witness :
  let d := SubCategoryModel.set_subcategories [] Sample.db_customer in
  let d' := CategoryModel.set_categories [] d in
  handle (CategoryRoutes.delete_category Sample.idA) d =
    (Ok "Category deleted successfully"%string, d',
     [Read Categories; Read SubCategories; Write Categories])
  /\ (exists sub t,
        handle (CustomerRoutes.get_customer Sample.idC) d' =
        (Ok (Sample.customer, None, sub), d', t))
  /\ cus_serviceCategoryName Sample.customer = "Tax"%string.
Proof.
  intros d d'.
  destruct (deleting_a_category_ignores_customers Sample.idA Sample.idA d
              (Sample.category Sample.idA "Tax") eq_refl eq_refl eq_refl) as (H1 & _ & H2).
  split; [exact H1|]. split; [|reflexivity].
  exact (H2 Sample.idC Sample.idC Sample.customer eq_refl eq_refl eq_refl).
Defined.

(** X13. One name under two categories. For a name that, once trimmed, is
    not empty and has no pattern syntax, and two different stored categories
    neither of which has a subcategory of that name, letter case apart: the
    subcategory is created under the first category and then under the
    second (201 both times, each returned with its category); creating it a
    third time under either category fails with the duplicate-name error
    (400) and stores nothing. *)
Theorem one_name_under_two_categories
    (now1 now2 now3 : Z) (id1 id2 id3 : ObjectId.t) (nm : string) (desc : option string)
    (cidA cidB : string) (oA oB : ObjectId.t) (cA cB : Category) (d : db) :
  ObjectId.cast cidA = Some oA -> ObjectId.cast cidB = Some oB -> oA <> oB ->
  find (CategoryModel.by_id oA) (categories d) = Some cA ->
  find (CategoryModel.by_id oB) (categories d) = Some cB ->
  Js.trim nm <> ""%string ->
  RegExp.plain (Js.trim nm) = true ->
  (forall s, In s (subcategories d) -> sub_category s = oA \/ sub_category s = oB ->
     RegExp.ends_with_line_feed (sub_name s) = false
     /\ Spec.same_ignoring_case (sub_name s) (Js.trim nm) = false) ->
  (forall s, In s (subcategories d) -> sub_id s <> id1 /\ sub_id s <> id2) ->
  id1 <> id2 ->
  let b cid := {| name := Some nm; categoryId := Some cid; description := desc |} in
  let s1 := {| sub_id := id1; sub_name := Js.trim nm; sub_category := oA;
               sub_description := Js.trim (or_empty desc);
               sub_createdAt := now1; sub_updatedAt := now1 |} in
  let s2 := {| sub_id := id2; sub_name := Js.trim nm; sub_category := oB;
               sub_description := Js.trim (or_empty desc);
               sub_createdAt := now2; sub_updatedAt := now2 |} in
  let d1 := SubCategoryModel.set_subcategories (subcategories d ++ [s1]) d in
  let d2 := SubCategoryModel.set_subcategories (subcategories d ++ [s1; s2]) d in
  let written := [Read Categories; Read SubCategories; Write SubCategories;
                  Read SubCategories; Read Categories] in
  let refused := BadRequest (ErrorMsg
    "A subcategory with this name already exists in the specified category") in
  handle (create_subcategory now1 id1 (b cidA)) d = (Created (Some (s1, Some cA)), d1, written)
  /\ handle (create_subcategory now2 id2 (b cidB)) d1 =
     (Created (Some (s2, Some cB)), d2, written)
  /\ handle (create_subcategory now3 id3 (b cidA)) d2 =
     (refused, d2, [Read Categories; Read SubCategories])
  /\ handle (create_subcategory now3 id3 (b cidB)) d2 =
     (refused, d2, [Read Categories; Read SubCategories]).
Proof.
  intros HA HB Hne HcA HcB Hname Hplain Hnone Hfresh Hids b s1 s2 d1 d2 written refused.
  assert (Hsame : Spec.same_ignoring_case (Js.trim nm) (Js.trim nm) = true)
    by apply String.eqb_refl.
  split; [|split; [|split]].
  - refine (create_subcategory_fresh_plain now1 id1 (b cidA) d cidA oA cA
              eq_refl HA HcA Hname Hplain _ _).
    + intros s Hs Hc. apply Hnone; auto.
    + intros s Hs. now apply Hfresh.
  - replace d2 with (SubCategoryModel.set_subcategories (subcategories d1 ++ [s2]) d1)
      by (unfold d1, d2, SubCategoryModel.set_subcategories; cbn; now rewrite <- app_assoc).
    refine (create_subcategory_fresh_plain now2 id2 (b cidB) d1 cidB oB cB
              eq_refl HB HcB Hname Hplain _ _).
    + intros s Hs Hc. cbn in Hs. apply in_app_or in Hs as [Hs|[<-|[]]].
      * apply Hnone; auto.
      * cbn in Hc. congruence.
    + intros s Hs. cbn in Hs. apply in_app_or in Hs as [Hs|[<-|[]]].
      * now apply Hfresh.
      * exact Hids.
  - refine (create_subcategory_duplicate_plain now3 id3 (b cidA) d2 cidA oA cA s1
              eq_refl HA HcA Hname Hplain _ eq_refl Hsame).
    cbn. apply in_or_app. right. now left.
  - refine (create_subcategory_duplicate_plain now3 id3 (b cidB) d2 cidB oB cB s2
              eq_refl HB HcB Hname Hplain _ eq_refl Hsame).
    cbn. apply in_or_app. right. right. now left.
Qed.

Lemma one_name_under_two_categories_witness :
  let b cid := Sample.subcategory_body " Guides " cid in
  let s1 := Sample.subcategory Sample.idC "Guides" Sample.idA in
  let s2 := Sample.subcategory Sample.idD "Guides" Sample.idB in
  let d1 := SubCategoryModel.set_subcategories [s1] Sample.db_two in
  let d2 := SubCategoryModel.set_subcategories [s1; s2] Sample.db_two in
  let written := [Read Categories; Read SubCategories; Write SubCategories;
                  Read SubCategories; Read Categories] in
  let refused := BadRequest (ErrorMsg
    "A subcategory with this name already exists in the specified category") in
  handle (create_subcategory 0 Sample.idC (b Sample.idA)) Sample.db_two =
    (Created (Some (s1, Some (Sample.category Sample.idA "Languages"))), d1, written)
  /\ handle (create_subcategory 0 Sample.idD (b Sample.idB)) d1 =
     (Created (Some (s2, Some (Sample.category Sample.idB "Tools"))), d2, written)
  /\ handle (create_subcategory 1 Sample.idA (b Sample.idA)) d2 =
     (refused, d2, [Read Categories; Read SubCategories])
  /\ handle (create_subcategory 1 Sample.idA (b Sample.idB)) d2 =
     (refused, d2, [Read Categories; Read SubCategories]).
Proof.
  apply (one_name_under_two_categories 0 0 1 Sample.idC Sample.idD Sample.idA " Guides " None
           Sample.idA Sample.idB Sample.idA Sample.idB
           (Sample.category Sample.idA "Languages") (Sample.category Sample.idB "Tools")
           Sample.db_two); try reflexivity; try discriminate.
  - intros s [].
  - intros s [].
Defined.

(** X14. Updating a subcategory. For a stored subcategory, an existing
    category and a name that, once trimmed, is not empty and is either the
    stored one (with the stored category) or a name without pattern syntax
    that no other subcategory of the target category has, letter case apart,
    PUT succeeds and returns the subcategory with its category: it has the
    trimmed name, the given category, the trimmed description when the body
    has one and the stored one otherwise, and the identifier and creation
    date of the stored document; its update date is the time of the request
    when something changed. Every other subcategory, and the categories and
    customers, are left as they were. The identifiers of the store are taken
    to be all different and the stored description to be trimmed. *)
Theorem update_subcategory_moves_and_renames
    (now : Z) (id : string) (o : ObjectId.t) (b : body) (d : db) (s : SubCategory)
    (cid : string) (oc : ObjectId.t) (cat : Category) :
  ObjectId.cast id = Some o ->
  find (SubCategoryModel.by_id o) (subcategories d) = Some s ->
  categoryId b = Some cid ->
  ObjectId.cast cid = Some oc ->
  find (CategoryModel.by_id oc) (categories d) = Some cat ->
  Js.trim (or_empty (name b)) <> ""%string ->
  (Js.trim (or_empty (name b)) = sub_name s /\ cid = sub_category s)
  \/ RegExp.plain (Js.trim (or_empty (name b))) = true ->
  (forall x, In x (subcategories d) -> sub_id x <> o -> sub_category x = oc ->
     RegExp.ends_with_line_feed (sub_name x) = false
     /\ Spec.same_ignoring_case (sub_name x) (Js.trim (or_empty (name b))) = false) ->
  Js.trim (sub_description s) = sub_description s ->
  NoDup (map sub_id (subcategories d)) ->
  let changed :=
    negb (String.eqb (sub_name s) (Js.trim (or_empty (name b)))
          && String.eqb (sub_category s) oc
          && String.eqb (sub_description s)
               (match description b with Some v => Js.trim v | None => sub_description s end)) in
  let s' := {| sub_id := o; sub_name := Js.trim (or_empty (name b)); sub_category := oc;
               sub_description :=
                 match description b with Some v => Js.trim v | None => sub_description s end;
               sub_createdAt := sub_createdAt s;
               sub_updatedAt := if changed then now else sub_updatedAt s |} in
  exists d' t,
    handle (update_subcategory now id b) d = (Ok (Some (s', Some cat)), d', t)
    /\ subcategories d' =
       map (fun x => if SubCategoryModel.by_id o x then s' else x) (subcategories d)
    /\ categories d' = categories d
    /\ customers d' = customers d.
Proof.
  intros Hcast Hfind Hcid Hoc Hcat Hname Hplain Hnone Hdesc Hnd changed s'.
  destruct (SubCategoryRouteFacts3.update_subcategory_run now id o b d s cid oc cat
              Hcast Hfind Hcid Hoc Hcat Hname Hplain Hnone Hdesc Hnd) as [t Hrun].
  cbv zeta in Hrun.
  destruct (SubCategoryRouteFacts3.subcategory_found_id _ _ _ Hfind) as [_ Hid].
  match type of Hrun with
  | handle _ _ = (Ok (Some (?x, _)), _, _) => assert (E : x = s')
  end.
  { unfold s', changed, SubCategoryModel.same, ObjectId.eqb.
    cbn [sub_name sub_category sub_description]. rewrite Hid.
    now destruct (_ && _ && _). }
  rewrite E in Hrun. eexists _, t. split; [exact Hrun|].
  split; [|split; reflexivity]. reflexivity.
Qed.

Lemma update_subcategory_moves_and_renames_witness :
  let d := SubCategoryModel.set_subcategories
             [Sample.subcategory Sample.idC "Python" Sample.idA] Sample.db_two in
  let s' := {| sub_id := Sample.idC; sub_name := "Rust"; sub_category := Sample.idB;
               sub_description := ""; sub_createdAt := 0; sub_updatedAt := 8 |} in
  exists d' t,
    handle (update_subcategory 8 Sample.idC (Sample.subcategory_body " Rust " Sample.idB)) d =
      (Ok (Some (s', Some (Sample.category Sample.idB "Tools"))), d', t)
    /\ subcategories d' = [s'].
Proof.
  intros d s'.
  destruct (update_subcategory_moves_and_renames 8 Sample.idC Sample.idC
              (Sample.subcategory_body " Rust " Sample.idB) d
              (Sample.subcategory Sample.idC "Python" Sample.idA)
              Sample.idB Sample.idB (Sample.category Sample.idB "Tools")
              eq_refl eq_refl eq_refl eq_refl eq_refl) as (d' & t & H1 & H2 & _).
  - discriminate.
  - right. reflexivity.
  - intros x [<-|[]] Hne. now elim Hne.
  - reflexivity.
  - repeat constructor. intros [].
  - exists d', t. split; [exact H1 | exact H2].
Defined.

(** X26. Subcategories are read with their category. On a store in which
    every subcategory refers to a stored category, the list of subcategories
    returns every stored subcategory, in the order of the store, each with
    the category it refers to, and so does the read of one subcategory: the
    category of a row is never null. *)
Theorem subcategories_are_read_with_their_category (d : db) :
  Invariant.references_hold d = true ->
  (exists rows t,
     handle list_subcategories d = (Ok rows, d, t)
     /\ map fst rows = subcategories d
     /\ forall s c, In (s, c) rows ->
          exists cat, c = Some cat /\ In cat (categories d) /\ cat_id cat = sub_category s)
  /\ (forall id o s,
        ObjectId.cast id = Some o ->
        find (SubCategoryModel.by_id o) (subcategories d) = Some s ->
        exists cat,
          handle (get_subcategory id) d =
          (Ok (s, Some cat), d, [Read SubCategories; Read Categories])
          /\ In cat (categories d) /\ cat_id cat = sub_category s).
Proof.
  intros Href.
  assert (Hcat : forall s, In s (subcategories d) ->
            exists cat, find (CategoryModel.by_id (sub_category s)) (categories d) = Some cat
                        /\ In cat (categories d) /\ cat_id cat = sub_category s).
  { intros s Hs.
    destruct (proj1 (InvariantFacts.references_iff d) Href s Hs) as (c & Hc & E).
    destruct (CategoryRouteFacts.find_some_in (CategoryModel.by_id (sub_category s)) _ c Hc)
      as [cat F]; [now apply String.eqb_eq|].
    exists cat. split; [exact F|]. apply find_some in F as [F1 F2].
    split; [exact F1 | now apply String.eqb_eq]. }
  split.
  - exists (map (fun s => (s, find (CategoryModel.by_id (sub_category s)) (categories d)))
                (subcategories d)).
    exists (match subcategories d with
            | [] => [Read SubCategories]
            | _ :: _ => [Read SubCategories; Read Categories]
            end).
    split; [|split].
    + unfold handle, list_subcategories. Effects.unfold_handler.
      rewrite filter_all. now destruct (subcategories d).
    + rewrite map_map. cbn. apply map_id.
    + intros s c Hin. apply in_map_iff in Hin as (s0 & E & Hs). injection E as <- <-.
      destruct (Hcat s0 Hs) as (cat & F & H1 & H2). exists cat. now rewrite F.
  - intros id o s Hcast Hfind. pose proof (cast_isValid _ _ Hcast) as Hvalid.
    destruct (Hcat s (proj1 (SubCategoryRouteFacts3.subcategory_found_id _ _ _ Hfind)))
      as (cat & F & H1 & H2).
    exists cat. split; [|split; assumption].
    apply handle_return. unfold get_subcategory. apply catch_all_return.
    rewrite Hvalid. cbn [negb].
    rewrite (bind_return _ _ _ _ _ (SubCategoryFacts.subcategory_findById_run _ _ _ Hcast)).
    cbn [store fresh logged]. rewrite Hfind.
    rewrite (bind_return _ _ _ _ _ (SubCategoryFacts.populate_run _ _)).
    cbn [store fresh logged]. now rewrite F.
Qed.

Lemma subcategories_are_read_with_their_category_witness :
  Invariant.references_hold Sample.db_sub = true
  /\ exists rows t,
       handle list_subcategories Sample.db_sub = (Ok rows, Sample.db_sub, t)
       /\ map fst rows = subcategories Sample.db_sub.
Proof.
  split; [reflexivity|].
  destruct (proj1 (subcategories_are_read_with_their_category Sample.db_sub eq_refl))
    as (rows & t & H1 & H2 & _).
  exists rows, t. split; [exact H1 | exact H2].
Defined.

End SubCategoryProperties.

(** ** The category a subcategory names *)

Section SubCategoryReference.
Import SubCategoryRoutes SubCategoryRouteFacts SubCategoryRouteFacts2.

(** X28. The category of a subcategory must exist. A [categoryId] that is
    a well-formed identifier of no stored category is refused by POST and
    by PUT with the validation error [Category not found] (400), listed
    after the errors of the route parameter and of the name, after one read
    of the categories and with the store left as it was. When the category
    exists and the name, once trimmed, is not empty, has no pattern syntax
    and is not the name of a subcategory of that category, letter case
    apart, POST stores the subcategory under a new identifier and returns
    it with its category (201). *)
Theorem subcategory_category_must_exist
    (now : Z) (newId : ObjectId.t) (id : string) (b : body) (d : db)
    (cid : string) (o : ObjectId.t) :
  categoryId b = Some cid ->
  ObjectId.cast cid = Some o ->
  (find (CategoryModel.by_id o) (categories d) = None ->
     handle (create_subcategory now newId b) d =
       (BadRequest (ValidatorErrors (name_errors b ++ [("categoryId", "Category not found")])),
        d, [Read Categories])
     /\ handle (update_subcategory now id b) d =
       (BadRequest (ValidatorErrors
          (id_errors id ++ name_errors b ++ [("categoryId", "Category not found")])),
        d, [Read Categories]))
  /\
  (forall c : Category,
     find (CategoryModel.by_id o) (categories d) = Some c ->
     Js.trim (or_empty (name b)) <> ""%string ->
     RegExp.plain (Js.trim (or_empty (name b))) = true ->
     (forall s, In s (subcategories d) -> sub_category s = o ->
        RegExp.ends_with_line_feed (sub_name s) = false
        /\ Spec.same_ignoring_case (sub_name s) (Js.trim (or_empty (name b))) = false) ->
     (forall s, In s (subcategories d) -> sub_id s <> newId) ->
     let s := {| sub_id := newId; sub_name := Js.trim (or_empty (name b));
                 sub_category := o;
                 sub_description := Js.trim (or_empty (description b));
                 sub_createdAt := now; sub_updatedAt := now |} in
     handle (create_subcategory now newId b) d =
       (Created (Some (s, Some c)),
        SubCategoryModel.set_subcategories (subcategories d ++ [s]) d,
        [Read Categories; Read SubCategories; Write SubCategories;
         Read SubCategories; Read Categories])).
Proof.
  intros Hcid Hcast. split.
  - intros Hnone. split.
    + apply handle_return.
      unfold create_subcategory.
      erewrite bind_return
        by (apply catch_return, (categoryId_errors_run _ _ _ _ Hcid Hcast)).
      unfold reference_errors. cbn [store logged fresh]. rewrite Hnone.
      apply catch_all_return.
      destruct (name_errors b); reflexivity.
    + apply handle_return.
      unfold update_subcategory.
      erewrite bind_return
        by (apply catch_return, (categoryId_errors_run _ _ _ _ Hcid Hcast)).
      unfold reference_errors. cbn [store logged fresh]. rewrite Hnone.
      apply catch_all_return.
      destruct (id_errors id); destruct (name_errors b); reflexivity.
  - intros c Hfind Hname Hplain Hdup Hfresh.
    now apply (create_subcategory_fresh_plain now newId b d cid o c).
Qed.

Lemma subcategory_category_must_exist_witness :
  (handle (create_subcategory 1 Sample.idC (Sample.subcategory_body "Python" Sample.idD))
          Sample.db_sub =
     (BadRequest (ValidatorErrors [("categoryId", "Category not found")]),
      Sample.db_sub, [Read Categories])
   /\ handle (update_subcategory 1 "b" (Sample.subcategory_body " " Sample.idD))
             Sample.db_sub =
     (BadRequest (ValidatorErrors [("id", "Invalid subcategory ID format");
                                   ("name", "Subcategory name is required");
                                   ("categoryId", "Category not found")]),
      Sample.db_sub, [Read Categories]))
  /\ handle (create_subcategory 1 Sample.idC (Sample.subcategory_body " Python " Sample.idA))
            Sample.db_sub =
    (Created (Some ({| sub_id := Sample.idC; sub_name := "Python";
                       sub_category := Sample.idA; sub_description := "";
                       sub_createdAt := 1; sub_updatedAt := 1 |},
                    Some (Sample.category Sample.idA "abc"))),
     SubCategoryModel.set_subcategories
       [Sample.subcategory Sample.idB "abc" Sample.idA;
        {| sub_id := Sample.idC; sub_name := "Python"; sub_category := Sample.idA;
           sub_description := ""; sub_createdAt := 1; sub_updatedAt := 1 |}]
       Sample.db_sub,
     [Read Categories; Read SubCategories; Write SubCategories;
      Read SubCategories; Read Categories]).
Proof.
  split; [split|].
  - refine (proj1 (proj1 (subcategory_category_must_exist 1 Sample.idC "b"
      (Sample.subcategory_body "Python" Sample.idD) Sample.db_sub Sample.idD Sample.idD
      eq_refl eq_refl) eq_refl)).
  - refine (proj2 (proj1 (subcategory_category_must_exist 1 Sample.idC "b"
      (Sample.subcategory_body " " Sample.idD) Sample.db_sub Sample.idD Sample.idD
      eq_refl eq_refl) eq_refl)).
  - refine (proj2 (subcategory_category_must_exist 1 Sample.idC "b"
      (Sample.subcategory_body " Python " Sample.idA) Sample.db_sub Sample.idA Sample.idA
      eq_refl eq_refl) (Sample.category Sample.idA "abc") eq_refl _ eq_refl _ _).
    + discriminate.
    + intros s [<-|[]] _. split; reflexivity.
    + intros s [<-|[]]. discriminate.
Defined.

End SubCategoryReference.

(** ** Customers *)

Section CustomerProperties.
Import CustomerModel CustomerSchema CustomerRoutes.
Import CustomerRouteFacts CustomerRouteFacts2 CustomerRouteFacts3 Effects SchemaFacts.
Import CustomerEffects.

(** X15. Creating a customer does not read the store. The answer of POST
    and the accesses it makes are the same on any two stores: the route does
    not check that the category or the subcategory it refers to exists, nor
    whether a customer with the same e-mail address or phone is there. *)
Theorem create_customer_does_not_read_the_store
    (now : Z) (newId : ObjectId.t) (b : body) (d1 d2 : db) :
  fst (fst (handle (create_customer now newId b) d1)) =
  fst (fst (handle (create_customer now newId b) d2))
  /\ snd (handle (create_customer now newId b) d1) =
     snd (handle (create_customer now newId b) d2).
Proof.
  unfold handle, create_customer. unfold_handler. cases; split; reflexivity.
Qed.

Lemma normalize_other_fields (b : body) :
  name (normalize b) = name b /\ email (normalize b) = email b
  /\ phone (normalize b) = phone b /\ dateOfBirth (normalize b) = dateOfBirth b
  /\ address (normalize b) = address b /\ city (normalize b) = city b
  /\ state (normalize b) = state b /\ zipCode (normalize b) = zipCode b
  /\ serviceCategory (normalize b) = serviceCategory b
  /\ serviceCategoryName (normalize b) = serviceCategoryName b
  /\ serviceNumber (normalize b) = serviceNumber b
  /\ gstNumber (normalize b) = gstNumber b
  /\ deliveryDate (normalize b) = deliveryDate b
  /\ nextRenewalDate (normalize b) = nextRenewalDate b
  /\ notes (normalize b) = notes b.
Proof. unfold normalize. destruct (negb (truthy (serviceSubCategory b))); repeat split. Qed.

Lemma normalize_falsy (b : body) :
  truthy (serviceSubCategory b) = false ->
  serviceSubCategory (normalize b) = Null /\ serviceSubCategoryName (normalize b) = Null.
Proof. unfold normalize. now intros ->. Qed.

Lemma normalize_truthy (b : body) :
  truthy (serviceSubCategory b) = true -> normalize b = b.
Proof. unfold normalize. now intros ->. Qed.

(** X16. What POST stores. When POST answers 201 with a customer, that
    customer is the one the store has gained and nothing else has changed;
    it has the new identifier and the time of the request as creation and
    update dates; it passes every validator of the schema, and its date of
    birth is not in the future; its name is the trimmed name of the body,
    its e-mail address the trimmed one in lower case (null when the body
    has none); and when the body has no serviceSubCategory (absent, null or
    empty) both serviceSubCategory and serviceSubCategoryName are null,
    whatever name the body gave. *)
Theorem created_customer_is_in_order
    (now : Z) (newId : ObjectId.t) (b : body) (d d' : db) (c : Customer) (t : list access) :
  handle (create_customer now newId b) d = (Created c, d', t) ->
  d' = set_customers (customers d ++ [c]) d /\ t = [Write Customers]
  /\ cus_id c = newId /\ cus_createdAt c = now /\ cus_updatedAt c = now
  /\ valid c = true /\ born_by now c = true
  /\ cus_name c = Js.trim (text (name b))
  /\ cus_email c = (if truthy (email b)
                    then Some (Js.toLowerCase (Js.trim (text (email b)))) else None)
  /\ ObjectId.cast (text (serviceCategory b)) = Some (cus_serviceCategory c)
  /\ (truthy (serviceSubCategory b) = false -> cus_serviceSubCategory c = None)
  /\ (truthy (serviceSubCategory b) = false -> cus_serviceSubCategoryName c = None).
Proof.
  intros H. revert c d' t H. apply create_customer_created.
  intros sc ssc p Hm Hsc Hssc He.
  destruct (normalize_other_fields b) as (En & Ee & _ & _ & _ & _ & _ & _ & Ec & _).
  pose proof (missing_nil _ Hm) as (_ & _ & _ & Htc & _).
  unfold object_id in Hsc, Hssc. rewrite Htc in Hsc. rewrite Ec in Hsc.
  destruct (ObjectId.cast (text (serviceCategory b))) as [o|] eqn:Hcast; [|discriminate].
  injection Hsc as <-.
  assert (Hv : optional ObjectId.isValid ssc = true).
  { destruct (truthy (serviceSubCategory (normalize b))); [|now injection Hssc as <-].
    destruct (ObjectId.cast (text (serviceSubCategory (normalize b)))) eqn:E;
      [|discriminate].
    injection Hssc as <-.
    exact (cast_valid _ _ E). }
  destruct (created_valid now newId (normalize b) (Some o) ssc Hm He)
    as [V1 V2]; [discriminate | exact (cast_valid _ _ Hcast) | exact Hv |].
  repeat match goal with |- _ /\ _ => split end; try reflexivity; try assumption.
  - unfold p, set_paths, apply_setters, customerData.
    cbn [cus_name p_name or_old trim1 option_map]. now rewrite En, JsFacts.trim_idem.
  - unfold p, set_paths, apply_setters, customerData.
    cbn [cus_email p_email or_old option_map]. rewrite Ee.
    destruct (email b) as [| |e]; cbn [trim_or_null truthy text option_map]; try reflexivity.
    destruct (Js.truthy e); cbn [option_map]; [now rewrite JsFacts.trim_idem | reflexivity].
  - intros F. destruct (normalize_falsy b F) as [E1 E2].
    rewrite E1 in Hssc. cbn [truthy] in Hssc. now injection Hssc as <-.
  - intros F. destruct (normalize_falsy b F) as [E1 E2].
    unfold p, set_paths, apply_setters, customerData.
    cbn [cus_serviceSubCategoryName p_serviceSubCategoryName or_old trim2 option_map].
    now rewrite E2.
Qed.

Lemma created_customer_is_in_order_witness :
  let b := Sample.customer_body "1234567890" Undefined None in
  exists c d' t,
    handle (create_customer 9 Sample.idD b) empty_db = (Created c, d', t)
    /\ customers d' = [c] /\ valid c = true
    /\ cus_email c = Some "ann@example.com"%string
    /\ cus_serviceSubCategory c = None.
Proof.
  intros b.
  destruct (created_customer_is_in_order 9 Sample.idD b empty_db _ _ _ eq_refl)
    as (H1 & _ & _ & _ & _ & H2 & _ & _ & H3 & _ & H4 & _).
  eexists _, _, _. split; [reflexivity|]. split; [now rewrite H1|]. split; [exact H2|].
  split; [exact H3|]. exact (H4 eq_refl).
Defined.

Lemma object_id_valid (v : jsstr) (x : option ObjectId.t) :
  object_id v = Some x -> optional ObjectId.isValid x = true.
Proof.
  unfold object_id. destruct (truthy v); [|now intros [= <-]].
  destruct (ObjectId.cast (text v)) eqn:E; [|discriminate]. intros [= <-].
  exact (cast_valid _ _ E).
Qed.

Lemma trim_or_null_trimmed (v : jsstr) :
  option_map Js.trim (trim_or_null v) = trim_or_null v.
Proof.
  destruct v as [| |s]; try reflexivity. cbn [trim_or_null].
  destruct (Js.truthy s); cbn [option_map]; [now rewrite JsFacts.trim_idem | reflexivity].
Qed.

(** X17. What PUT changes. When PUT answers 200 with a customer, the
    document with the identifier of the request is replaced by it and
    nothing else has changed. It keeps its identifier and creation date and
    takes the time of the request as update date; if the stored document
    passed the validators of the schema, so does the new one. A required
    text (name, phone, address, serviceCategoryName) is the trimmed text of
    the body when that is not empty, and the stored one otherwise: it cannot
    be emptied. An optional text (city, state, zipCode, serviceNumber,
    gstNumber, notes) is the stored one when the body does not have the
    field, and the trimmed text of the body, null when that is null or
    empty, when it has. A date and fees are the stored ones when the body
    does not have them. *)
Theorem updated_customer_keeps_what_is_not_given
    (now : Z) (id : string) (b : body) (d d' : db) (c' : Customer) (t : list access) :
  handle (update_customer now id b) d = (Ok c', d', t) ->
  exists o c,
    ObjectId.cast id = Some o /\ find (by_id o) (customers d) = Some c
    /\ d' = set_customers (replace c' (customers d)) d /\ t = [Write Customers]
    /\ cus_id c' = cus_id c /\ cus_createdAt c' = cus_createdAt c /\ cus_updatedAt c' = now
    /\ (valid c = true -> valid c' = true)
    /\ cus_name c' = (if truthy (name b) then Js.trim (text (name b)) else cus_name c)
    /\ cus_phone c' = (if truthy (phone b) then Js.trim (text (phone b)) else cus_phone c)
    /\ cus_address c' =
       (if truthy (address b) then Js.trim (text (address b)) else cus_address c)
    /\ cus_serviceCategoryName c' =
       (if truthy (serviceCategoryName b) then Js.trim (text (serviceCategoryName b))
        else cus_serviceCategoryName c)
    /\ (truthy (serviceCategory b) = false -> cus_serviceCategory c' = cus_serviceCategory c)
    /\ cus_city c' = match city b with Undefined => cus_city c | v => trim_or_null v end
    /\ cus_state c' = match state b with Undefined => cus_state c | v => trim_or_null v end
    /\ cus_zipCode c' =
       match zipCode b with Undefined => cus_zipCode c | v => trim_or_null v end
    /\ cus_serviceNumber c' =
       match serviceNumber b with Undefined => cus_serviceNumber c | v => trim_or_null v end
    /\ cus_gstNumber c' =
       match gstNumber b with Undefined => cus_gstNumber c | v => trim_or_null v end
    /\ cus_notes c' = match notes b with Undefined => cus_notes c | v => trim_or_null v end
    /\ (dateOfBirth b = DateUndefined -> cus_dateOfBirth c' = cus_dateOfBirth c)
    /\ (deliveryDate b = DateUndefined -> cus_deliveryDate c' = cus_deliveryDate c)
    /\ (nextRenewalDate b = DateUndefined -> cus_nextRenewalDate c' = cus_nextRenewalDate c)
    /\ (fees b = None -> cus_fees c' = cus_fees c).
Proof.
  intros H. revert c' d' t H. apply update_customer_updated.
  intros o old p Hcast Hfind Hp Hv. exists o, old.
  split; [exact Hcast|]. split; [exact Hfind|]. split; [reflexivity|]. split; [reflexivity|].
  unfold update_paths in Hp. destruct (subcategory_malformed b); [discriminate|].
  destruct (object_id (serviceCategory (normalize b))) as [sc|] eqn:Hsc; [|discriminate].
  destruct (object_id (serviceSubCategory (normalize b))) as [ssc|] eqn:Hssc; [|discriminate].
  injection Hp as <-.
  destruct (normalize_other_fields b)
    as (E1 & E2 & E3 & E4 & E5 & E6 & E7 & E8 & E9 & E10 & E11 & E12 & E13 & E14 & E15).
  destruct (normalize_enums b) as (_ & _ & _ & Ef).
  split; [reflexivity|]. split; [reflexivity|]. split; [reflexivity|]. split.
  { intros Hold. apply (set_paths_valid now); [exact Hv | | | now left].
    - exact (object_id_valid _ _ Hsc).
    - cbn [apply_setters updateData p_serviceSubCategory optional].
      exact (object_id_valid _ _ Hssc). }
  unfold set_paths, apply_setters, updateData.
  cbn [cus_name cus_phone cus_address cus_serviceCategoryName cus_serviceCategory cus_city
       cus_state cus_zipCode cus_serviceNumber cus_gstNumber cus_notes cus_dateOfBirth
       cus_deliveryDate cus_nextRenewalDate cus_fees
       p_name p_phone p_address p_serviceCategoryName p_serviceCategory p_city p_state
       p_zipCode p_serviceNumber p_gstNumber p_notes p_dateOfBirth p_deliveryDate
       p_nextRenewalDate p_fees].
  rewrite E1, E3, E4, E5, E6, E7, E8, E10, E11, E12, E13, E14, E15, Ef.
  assert (R : forall (v : jsstr) (old : string),
            or_old (trim1 (trim_or_undefined v)) old
            = if truthy v then Js.trim (text v) else old).
  { intros v old0. destruct v as [| |s]; try reflexivity.
    cbn [trim_or_undefined trim_or_null truthy text]. destruct (Js.truthy s); [|reflexivity].
    cbn [trim1 option_map or_old]. now rewrite JsFacts.trim_idem. }
  assert (O : forall (v : jsstr) (old : option string),
            or_old (trim2 (trim_if_defined v)) old
            = match v with Undefined => old | x => trim_or_null x end).
  { intros v old0. destruct v as [| |s]; try reflexivity.
    unfold trim_if_defined, trim2. cbn [option_map or_old]. apply trim_or_null_trimmed. }
  rewrite !R, !O.
  repeat match goal with |- _ /\ _ => split end; try reflexivity.
  all: try (match goal with |- match ?v with _ => _ end = _ => now destruct v end).
  - intros F. unfold object_id in Hsc. rewrite E9, F in Hsc. now injection Hsc as <-.
  - now intros ->.
  - now intros ->.
  - now intros ->.
  - now intros ->.
Qed.

Lemma updated_customer_keeps_what_is_not_given_witness :
  exists c',
    handle (update_customer 9 Sample.idC (notes_only " call back ")) Sample.db_customer =
      (Ok c', set_customers [c'] Sample.db_customer, [Write Customers])
    /\ cus_name c' = "Ann"%string /\ cus_fees c' = Some (7 # 1)
    /\ cus_notes c' = Some "call back"%string
    /\ cus_createdAt c' = 5%Z /\ cus_updatedAt c' = 9%Z /\ valid c' = true.
Proof.
  destruct (updated_customer_keeps_what_is_not_given 9 Sample.idC (notes_only " call back ")
              Sample.db_customer _ _ _ eq_refl)
    as (o & c & Hcast & Hfind & _ & _ & _ & Hat & Hup & Hvalid & Hname & _ & _ & _ & _ & _ & _
        & _ & _ & _ & Hnotes & _ & _ & _ & Hfees).
  injection Hcast as <-. injection Hfind as <-.
  eexists. split; [reflexivity|]. split; [exact Hname|]. split; [exact (Hfees eq_refl)|].
  split; [exact Hnotes|]. split; [exact Hat|]. split; [exact Hup|]. exact (Hvalid eq_refl).
Defined.

(** X18. Deleting a customer. A stored customer is deleted (200): the store
    loses the documents with that identifier and nothing else; reading or
    deleting the customer again is answered with 404. *)
Theorem deleted_customer_is_gone (id : string) (o : ObjectId.t) (d : db) (c : Customer) :
  ObjectId.cast id = Some o ->
  find (by_id o) (customers d) = Some c ->
  let d' := set_customers (filter (fun x => negb (by_id o x)) (customers d)) d in
  handle (delete_customer id) d =
    (Ok "Customer deleted successfully"%string, d', [Write Customers])
  /\ (forall x, In x (customers d') <-> In x (customers d) /\ cus_id x <> o)
  /\ categories d' = categories d /\ subcategories d' = subcategories d
  /\ handle (get_customer id) d' = (NotFound "Customer not found", d', [Read Customers])
  /\ handle (delete_customer id) d' = (NotFound "Customer not found", d', [Write Customers]).
Proof.
  intros Hcast Hfind d'. pose proof (cast_isValid _ _ Hcast) as Hvalid.
  assert (Hgone : find (by_id o) (customers d') = None).
  { apply find_none_iff. intros x Hx. cbn in Hx. apply filter_In in Hx as [_ Hx].
    now apply negb_true_iff. }
  split; [|split; [|split; [reflexivity|split; [reflexivity|split]]]].
  - apply handle_return. unfold delete_customer. apply catch_all_return.
    rewrite Hvalid. cbn [negb].
    rewrite (bind_return _ _ _ _ _ (StoreFacts.delete_customer_run _ _ _ Hcast)).
    cbn [store fresh logged stored]. now rewrite Hfind.
  - intros x. cbn. rewrite filter_In. unfold by_id, ObjectId.eqb.
    rewrite negb_true_iff, String.eqb_neq. tauto.
  - apply handle_return. unfold get_customer. apply catch_all_return.
    rewrite (bind_return _ _ _ _ _ (StoreFacts.find_customer_run _ _ _ Hcast)).
    cbn [store fresh]. now rewrite Hgone.
  - apply handle_return. unfold delete_customer. apply catch_all_return.
    rewrite Hvalid. cbn [negb].
    rewrite (bind_return _ _ _ _ _ (StoreFacts.delete_customer_run _ _ _ Hcast)).
    cbn [store fresh logged stored]. rewrite Hgone, (find_none_filter _ _ Hgone).
    now rewrite StoreFacts.set_customers_same.
Qed.

Lemma deleted_customer_is_gone_witness :
  let d' := set_customers [] Sample.db_customer in
  handle (delete_customer Sample.idC) Sample.db_customer =
    (Ok "Customer deleted successfully"%string, d', [Write Customers])
  /\ handle (get_customer Sample.idC) d' =
     (NotFound "Customer not found", d', [Read Customers]).
Proof.
  destruct (deleted_customer_is_gone Sample.idC Sample.idC Sample.db_customer Sample.customer
              eq_refl eq_refl) as (H1 & _ & _ & _ & H2 & _).
  split; [exact H1 | exact H2].
Defined.

(** X19. A customer that was created is found. After POST has stored a
    customer under a new identifier, reading that identifier returns the
    stored customer together with the category and the subcategory its
    references find in the store at that time (none when there is no
    such document). *)
Theorem created_customer_is_found (now : Z) (newId : ObjectId.t) (b : body) (d : db) :
  rest_ok now b = true ->
  phone_ok (text (phone b)) = true ->
  enums_and_fees_ok b = true ->
  ObjectId.cast newId = Some newId ->
  (forall x, In x (customers d) -> cus_id x <> newId) ->
  let c := new_customer now newId b in
  let d' := set_customers (customers d ++ [c]) d in
  handle (create_customer now newId b) d = (Created c, d', [Write Customers])
  /\ exists t,
       handle (get_customer newId) d' =
       (Ok (c,
            find (CategoryModel.by_id (cus_serviceCategory c)) (categories d),
            match cus_serviceSubCategory c with
            | Some o => find (SubCategoryModel.by_id o) (subcategories d)
            | None => None
            end), d', t).
Proof.
  intros Hrest Hphone Hok Hcast Hfresh c d'. split.
  - rewrite (create_customer_run _ _ _ _ Hrest Hphone).
    apply create_errors_nil in Hok. now rewrite Hok.
  - assert (Hfind : find (by_id newId) (customers d') = Some c).
    { cbn [d' customers set_customers]. rewrite find_app_none.
      - unfold by_id, ObjectId.eqb. change (cus_id c) with newId.
        now rewrite String.eqb_refl.
      - apply find_none_iff. intros x Hx. apply String.eqb_neq. now apply Hfresh. }
    destruct (has_subcategory c) eqn:S; eexists; apply handle_return;
      unfold get_customer; apply catch_all_return;
      rewrite (bind_return _ _ _ _ _ (StoreFacts.find_customer_run _ _ _ Hcast));
      cbn [store fresh]; rewrite Hfind; unfold bind, log, get_db, ret; rewrite S;
      reflexivity.
Qed.

Lemma created_customer_is_found_witness :
  let b := Sample.customer_body "1234567890" Undefined None in
  let c := new_customer 9 Sample.idD b in
  let d' := set_customers (customers Sample.db_customer ++ [c]) Sample.db_customer in
  handle (create_customer 9 Sample.idD b) Sample.db_customer = (Created c, d', [Write Customers])
  /\ exists t,
       handle (get_customer Sample.idD) d' =
       (Ok (c, Some (Sample.category Sample.idA "Tax"), None), d', t).
Proof.
  intros b c d'.
  refine (created_customer_is_found 9 Sample.idD b Sample.db_customer
            eq_refl eq_refl eq_refl eq_refl _).
  intros x [<-|[]]. discriminate.
Defined.

(** X20. A malformed category reference. Unlike a malformed
    serviceSubCategory, which the routes answer with 400, a serviceCategory
    that is not a well-formed identifier makes POST and PUT fail with an
    internal error (500), and so does a malformed service parameter of the
    list; nothing is read or written. *)
Theorem malformed_service_category_is_an_internal_error (d : db) :
  (forall now newId b,
     subcategory_malformed b = false ->
     missingFields (normalize b) = [] ->
     phone_ok (text (phone b)) = true ->
     ObjectId.isValid (text (serviceCategory b)) = false ->
     handle (create_customer now newId b) d =
     (ServerError "Failed to create customer", d, []))
  /\ (forall now id b,
        ObjectId.isValid id = true ->
        subcategory_malformed b = false ->
        truthy (serviceCategory b) = true ->
        ObjectId.isValid (text (serviceCategory b)) = false ->
        handle (update_customer now id b) d =
        (ServerError "Failed to update customer", d, []))
  /\ (forall q s,
        given (service q) = Some s ->
        ObjectId.isValid s = false ->
        handle (list_customers q) d = (ServerError "Failed to fetch customers", d, [])).
Proof.
  split; [|split].
  - intros now newId b Hm Hmiss Hphone Hbad.
    destruct (normalize_other_fields b) as (_ & _ & Ep & _ & _ & _ & _ & _ & Ec & _).
    pose proof (missing_nil _ Hmiss) as (_ & _ & _ & Ht & _).
    assert (Hnone : object_id (serviceCategory (normalize b)) = None).
    { unfold object_id. rewrite Ht, Ec, (not_valid_cast _ Hbad). reflexivity. }
    unfold handle, create_customer, catch_create.
    erewrite catch_throw; cycle 1.
    { rewrite Hm, Hmiss, Ep, Hphone. cbn [negb].
      now rewrite (bind_throw _ _ _ _ _ (objectId_or_null_fails _ _ Hnone)). }
    reflexivity.
  - intros now id b Hid Hm Ht Hbad.
    destruct (normalize_other_fields b) as (_ & _ & _ & _ & _ & _ & _ & _ & Ec & _).
    assert (Hnone : object_id (serviceCategory (normalize b)) = None).
    { unfold object_id. rewrite Ec, Ht, (not_valid_cast _ Hbad). reflexivity. }
    unfold handle, update_customer, catch_update.
    erewrite catch_throw; cycle 1.
    { rewrite Hid, Hm. cbn [negb].
      now rewrite (bind_throw _ _ _ _ _ (objectId_or_null_fails _ _ Hnone)). }
    reflexivity.
  - intros q s Hs Hbad. unfold handle, list_customers, catch_all.
    erewrite catch_throw; cycle 1.
    { rewrite Hs. cbn [traverse].
      erewrite bind_throw; [reflexivity|].
      now rewrite (bind_throw _ _ _ _ _ (cast_id_fails _ _ _ Hbad)). }
    reflexivity.
Qed.

Lemma malformed_service_category_is_an_internal_error_witness :
  let b := {| name := Str "Ann"; email := Undefined; phone := Str "1234567890";
              dateOfBirth := DateUndefined; address := Str "1 Main St"; city := Undefined;
              state := Undefined; zipCode := Undefined; serviceCategory := Str "tax";
              serviceCategoryName := Str "Tax"; serviceSubCategory := Undefined;
              serviceSubCategoryName := Undefined; serviceNumber := Undefined;
              status := Undefined; fees := None; gstStatus := Undefined;
              gstNumber := Undefined; deliveryDate := DateUndefined;
              nextRenewalDate := DateUndefined; deliveryStatus := Undefined;
              notes := Undefined |} in
  handle (create_customer 9 Sample.idD b) Sample.db_customer =
    (ServerError "Failed to create customer", Sample.db_customer, [])
  /\ handle (update_customer 9 Sample.idC b) Sample.db_customer =
     (ServerError "Failed to update customer", Sample.db_customer, [])
  /\ handle (list_customers {| search := None; q_status := None; service := Some "tax"%string;
                               sortBy := None; sortOrder := None |}) Sample.db_customer =
     (ServerError "Failed to fetch customers", Sample.db_customer, []).
Proof.
  intros b.
  destruct (malformed_service_category_is_an_internal_error Sample.db_customer)
    as (H1 & H2 & H3).
  split; [|split].
  - exact (H1 9%Z Sample.idD b eq_refl eq_refl eq_refl eq_refl).
  - exact (H2 9%Z Sample.idC b eq_refl eq_refl eq_refl eq_refl).
  - exact (H3 {| search := None; q_status := None; service := Some "tax"%string;
                 sortBy := None; sortOrder := None |} "tax"%string eq_refl eq_refl).
Defined.

(** X27. Required fields that are missing. When the serviceSubCategory of
    the body is not malformed and a required field (name, phone, address,
    serviceCategory, serviceCategoryName) is absent, null or empty, POST
    answers 400 with the list of exactly the missing fields, in that order,
    each followed by the words is required; nothing is read or written. *)
Theorem missing_fields_are_listed (now : Z) (newId : ObjectId.t) (b : body) (d : db) :
  subcategory_malformed b = false ->
  missingFields b <> [] ->
  handle (create_customer now newId b) d =
    (BadRequest (MissingFields (map (fun f => (f ++ " is required")%string) (missingFields b))),
     d, [])
  /\ (forall f, In f (missingFields b) <->
                exists v, In (f, v) (requiredFields b) /\ truthy v = false).
Proof.
  intros Hm Hmiss. split.
  - apply handle_return. unfold create_customer, catch_create. apply catch_return.
    rewrite Hm. unfold missingFields in *. rewrite normalize_required.
    destruct (map fst _); [contradiction | reflexivity].
  - intros f. unfold missingFields. rewrite in_map_iff. split.
    + intros ([f' v] & <- & H). apply filter_In in H as [H1 H2]. exists v.
      split; [exact H1 | now apply negb_true_iff].
    + intros (v & H1 & H2). exists (f, v). split; [reflexivity|].
      apply filter_In. split; [exact H1 | now apply negb_true_iff].
Qed.

Lemma missing_fields_are_listed_witness :
  handle (create_customer 9 Sample.idD (notes_only "x")) empty_db =
    (BadRequest (MissingFields ["name is required"; "phone is required"; "address is required";
                                "serviceCategory is required";
                                "serviceCategoryName is required"]%string),
     empty_db, []).
Proof.
  refine (proj1 (missing_fields_are_listed 9 Sample.idD (notes_only "x") empty_db eq_refl _)).
  discriminate.
Defined.

End CustomerProperties.

(** ** The statuses in use *)

Section StatusProperties.
Import StatusRoutes.

Lemma distinct_in (l : list string) (x : string) : In x (distinct l) <-> In x l.
Proof.
  induction l as [|a l IH]; [reflexivity|]. cbn [distinct In].
  rewrite filter_In, IH, negb_true_iff, String.eqb_neq.
  destruct (string_dec a x) as [E|E]; [tauto|]. split; [tauto|].
  intros [H|H]; [tauto|]. right. split; [exact H | congruence].
Qed.

Lemma distinct_nodup (l : list string) : NoDup (distinct l).
Proof.
  induction l as [|a l IH]; cbn [distinct]; constructor.
  - rewrite filter_In, String.eqb_refl. now intros [_ H].
  - now apply NoDup_filter.
Qed.

(** X21. The statuses in use. GET /api/statuses returns, without writing,
    a list without repetition that holds exactly the statuses of the stored
    customers; when these pass the validators of the schema, it holds at
    most the four statuses of the schema. *)
Theorem statuses_are_those_in_use (d : db) :
  exists l,
    handle list_statuses d = (Ok l, d, [Read Customers])
    /\ NoDup l
    /\ (forall s, In s l <-> exists c, In c (customers d) /\ cus_status c = s)
    /\ (Invariant.customers_in_order d = true ->
        incl l CustomerModel.statuses /\ length l <= 4).
Proof.
  exists (distinct (map cus_status (customers d))).
  split; [reflexivity|]. split; [apply distinct_nodup|].
  assert (Hin : forall s, In s (distinct (map cus_status (customers d)))
                          <-> exists c, In c (customers d) /\ cus_status c = s).
  { intros s. rewrite distinct_in, in_map_iff. split; intros (c & H1 & H2); exists c; tauto. }
  split; [exact Hin|]. intros Hord.
  assert (Hincl : incl (distinct (map cus_status (customers d))) CustomerModel.statuses).
  { intros s Hs. apply Hin in Hs as (c & Hc & <-).
    unfold Invariant.customers_in_order in Hord. rewrite forallb_forall in Hord.
    specialize (Hord c Hc). unfold CustomerSchema.valid in Hord.
    repeat (apply andb_prop in Hord as [Hord ?]).
    match goal with H : CustomerModel.includes CustomerModel.statuses _ = true |- _ =>
      unfold CustomerModel.includes in H; apply existsb_exists in H as (x & Hx & E);
      apply String.eqb_eq in E; now subst end. }
  split; [exact Hincl|].
  apply (NoDup_incl_length (distinct_nodup _) Hincl).
Qed.

Lemma statuses_are_those_in_use_witness :
  handle list_statuses Sample.db_customer = (Ok ["Inactive"%string], Sample.db_customer,
                                             [Read Customers])
  /\ Invariant.customers_in_order Sample.db_customer = true
  /\ incl ["Inactive"%string] CustomerModel.statuses.
Proof.
  destruct (statuses_are_those_in_use Sample.db_customer) as (l & H1 & _ & _ & H2).
  injection H1 as <-. split; [reflexivity|]. split; [reflexivity|].
  exact (proj1 (H2 eq_refl)).
Defined.

End StatusProperties.

(** ** The CORS policy *)

Section CorsProperties.
Import Cors.

Lemma prefix_app (p s : string) : String.prefix p (p ++ s) = true.
Proof.
  induction p as [|c p IH]; cbn; [now destruct s|].
  destruct (ascii_dec c c) as [_|N]; [exact IH | now elim N].
Qed.

(** X22. Origins that start with http:// in production. Such an origin is
    let through exactly when it is, to the letter, one of the allowed
    origins; otherwise the callback gets the error that names it. *)
Theorem http_origins_are_matched_exactly (node_env : option string) (rest : string) :
  production node_env = true ->
  let o := ("http://" ++ rest)%string in
  (In o allowedOrigins -> origin node_env (Some o) = Allow)
  /\ (~ In o allowedOrigins ->
      origin node_env (Some o) =
      Refuse ("The CORS policy for this site does not allow access from the specified Origin: "
              ++ o ++ ".")).
Proof.
  intros Hprod o.
  assert (Hsame : existsb (allows o) allowedOrigins = existsb (String.eqb o) allowedOrigins).
  { assert (Hno : forall a, In a allowedOrigins ->
                    startsWith o (replace "http://" "https://" a) = false).
    { intros a Ha. cbn in Ha. repeat destruct Ha as [<-|Ha]; try reflexivity. destruct Ha. }
    revert Hno. generalize allowedOrigins. induction l as [|a l IH]; [reflexivity|].
    intros Hno. cbn [existsb]. unfold allows at 1.
    rewrite (Hno a (or_introl eq_refl)), orb_false_r, IH; [reflexivity|].
    intros x Hx. apply Hno. now right. }
  unfold origin. change (Js.truthy o) with true. cbn [negb]. rewrite Hprod, Hsame. cbn [negb].
  split; intros H.
  - replace (existsb (String.eqb o) allowedOrigins) with true; [reflexivity|].
    symmetry. apply existsb_exists. exists o. split; [exact H | apply String.eqb_refl].
  - replace (existsb (String.eqb o) allowedOrigins) with false; [reflexivity|].
    symmetry. apply existsb_false_iff. intros x Hx. apply String.eqb_neq. congruence.
Qed.

Lemma http_origins_are_matched_exactly_witness :
  production (Some "production"%string) = true
  /\ origin (Some "production"%string) (Some "http://localhost:5173"%string) = Allow
  /\ origin (Some "production"%string) (Some "http://localhost:5173/"%string) =
     Refuse "The CORS policy for this site does not allow access from the specified Origin: http://localhost:5173/.".
Proof.
  split; [reflexivity|]. split.
  - apply (proj1 (http_origins_are_matched_exactly (Some "production"%string)
                    "localhost:5173" eq_refl)).
    right. now left.
  - apply (proj2 (http_origins_are_matched_exactly (Some "production"%string)
                    "localhost:5173/" eq_refl)).
    cbn. intuition discriminate.
Defined.

(** X23. Origins that extend an allowed one. In production the test is a
    prefix test against the https form of each allowed origin, so an origin
    that starts with the https form of an allowed origin is let through
    whatever follows: a longer host name is. *)
Theorem origins_that_extend_an_allowed_one_pass
    (node_env : option string) (allowed suffix : string) :
  In allowed allowedOrigins ->
  origin node_env (Some (replace "http://" "https://" allowed ++ suffix)%string) = Allow.
Proof.
  intros Hin. unfold origin.
  assert (Ht : Js.truthy (replace "http://" "https://" allowed ++ suffix) = true).
  { cbn in Hin. repeat destruct Hin as [<-|Hin]; try reflexivity. destruct Hin. }
  rewrite Ht. cbn [negb]. destruct (production node_env); [|reflexivity]. cbn [negb].
  replace (existsb _ allowedOrigins) with true; [reflexivity|].
  symmetry. apply existsb_exists. exists allowed. split; [exact Hin|].
  unfold allows, startsWith. now rewrite prefix_app, orb_true_r.
Qed.

Lemma origins_that_extend_an_allowed_one_pass_witness :
  In "http://localhost:5173"%string allowedOrigins
  /\ origin (Some "production"%string) (Some "https://localhost:5173.example.org"%string)
     = Allow.
Proof.
  assert (H : In "http://localhost:5173"%string allowedOrigins) by (right; now left).
  split; [exact H|].
  exact (origins_that_extend_an_allowed_one_pass (Some "production"%string)
           "http://localhost:5173" ".example.org" H).
Defined.

End CorsProperties.

(** ** The login *)

Section LoginProperties.
Import AuthRoutes.

(** X24. A login that fails. With a username and a password that are not
    empty, the login is refused with 401 and the one message
    [Invalid credentials] whenever no stored user of that name has that
    password: a name that is not known and a password that is wrong are
    answered alike. *)
Theorem wrong_credentials_are_refused_alike
    (users : list User) (jwt_secret : option string) (now : Z) (b : body) (nm pw : string) :
  username b = Some nm -> password b = Some pw ->
  nm <> ""%string -> pw <> ""%string ->
  (forall u, In u users -> usr_username u = nm -> usr_password u <> pw) ->
  login users jwt_secret now b = Unauthorized "Invalid credentials".
Proof.
  intros Hn Hp Hne Hpe Hnone. unfold login, validation_errors, notEmpty.
  rewrite Hn, Hp. apply JsFacts.truthy_true in Hne, Hpe. rewrite Hne, Hpe.
  cbn [app or_empty].
  destruct (find _ users) as [u|] eqn:F; [|reflexivity].
  apply find_some in F as [Hin E]. apply String.eqb_eq in E.
  destruct (String.eqb_spec (usr_password u) pw) as [P|P]; [|reflexivity].
  now elim (Hnone u Hin E).
Qed.

Lemma wrong_credentials_are_refused_alike_witness :
  let users := [{| usr_id := Sample.idA; usr_username := "admin"; usr_password := "secret" |}] in
  login users None 0 {| username := Some "admin"%string; password := Some "guess"%string |} =
    Unauthorized "Invalid credentials"
  /\ login users None 0 {| username := Some "nobody"%string; password := Some "secret"%string |} =
     Unauthorized "Invalid credentials".
Proof.
  intros users. split.
  - apply (wrong_credentials_are_refused_alike users None 0 _ "admin" "guess");
      try reflexivity; try discriminate.
    intros u [<-|[]] _. discriminate.
  - apply (wrong_credentials_are_refused_alike users None 0 _ "nobody" "secret");
      try reflexivity; try discriminate.
    intros u [<-|[]]. discriminate.
Defined.

(** X25. A login that succeeds. A token is issued only for a stored user
    whose name is the given username and whose password is the given
    password; the token and the answer carry that user's identifier and
    name, the token expires 86400 seconds (one day) after it was issued,
    and it is signed with the key of the environment or, when that is
    absent or empty, with the built-in one. *)
Theorem a_token_is_issued_to_a_stored_user
    (users : list User) (jwt_secret : option string) (now : Z) (b : body)
    (t : token) (id : ObjectId.t) (nm : string) :
  login users jwt_secret now b = LoggedIn t id nm ->
  exists u,
    In u users /\ usr_username u = nm /\ usr_id u = id
    /\ username b = Some nm /\ password b = Some (usr_password u)
    /\ tok_userId t = id /\ tok_username t = nm
    /\ tok_iat t = (now / 1000)%Z /\ (tok_exp t - tok_iat t = 86400)%Z
    /\ tok_key t = match jwt_secret with
                   | Some s => if String.eqb s "" then "your_jwt_secret"%string else s
                   | None => "your_jwt_secret"%string
                   end.
Proof.
  unfold login, validation_errors, notEmpty.
  destruct (username b) as [un|]; [|discriminate].
  destruct (Js.truthy un); [|discriminate].
  destruct (password b) as [pw|]; [|discriminate].
  destruct (Js.truthy pw); [|discriminate]. cbn [app or_empty].
  destruct (find _ users) as [u|] eqn:F; [|discriminate].
  apply find_some in F as [Hin E]. apply String.eqb_eq in E.
  destruct (String.eqb_spec (usr_password u) pw) as [P|P]; [|discriminate].
  cbn [negb]. intros [= <- <- <-]. exists u.
  repeat match goal with |- _ /\ _ => split end;
    try reflexivity; try assumption; try congruence.
  - unfold sign, one_day. cbn [tok_exp tok_iat]. lia.
  - unfold sign, key_of, Js.truthy. cbn [tok_key].
    destruct jwt_secret as [s|]; [|reflexivity]. now destruct (String.eqb s "").
Qed.

Lemma a_token_is_issued_to_a_stored_user_witness :
  let u := {| usr_id := Sample.idA; usr_username := "admin"; usr_password := "secret" |} in
  exists t,
    login [u] None 90061000 {| username := Some "admin"%string;
                               password := Some "secret"%string |} =
      LoggedIn t Sample.idA "admin"
    /\ tok_iat t = 90061%Z /\ tok_exp t = 176461%Z.
Proof.
  intros u.
  destruct (a_token_is_issued_to_a_stored_user [u] None 90061000
              {| username := Some "admin"%string; password := Some "secret"%string |}
              _ _ _ eq_refl) as (u' & _ & _ & _ & _ & _ & _ & _ & Hiat & Hexp & _).
  eexists. split; [reflexivity|]. split; [exact Hiat|]. reflexivity.
Defined.

End LoginProperties.
